(** * BasisSentry: funding-rate arbitrage engine

    A shallow embedding of the position lifecycle code (selector, executor,
    risk manager, position store, reconciler, funding tracker) and the
    properties of its specification.

    Conventions.
    - A Python [Decimal] is modelled by its value, a rational; every
      arithmetic operation rounds its exact result to the 28 significant
      digits of the default decimal context (ROUND_HALF_EVEN), as the
      [decimal] module does.  Exponent limits, NaN and infinities are not
      modelled.
    - A Python [float] is a binary64 value or an infinity.
    - A Python exception is an outcome [Raise e]; stateful code is a
      function from the state to an outcome and the new state.
    - A dictionary is a finite map; a loop over a dictionary visits its
      entries in the order of [map_to_list].
    - The two requests of an [asyncio.gather] are sent in the order they
      are written, the spot request first.
    - Of a log line the model keeps what evaluating it can raise: the
      amounts it formats with [format_usdt] and the properties it reads.
      Its text is not kept. *)

From Stdlib Require Import ZArith QArith Qround Qabs Qpower String Ascii List Lia.
From Stdlib Require Import DecimalString.
From Stdlib Require Import Sorted.
From stdpp Require Import gmap strings list fin_maps.

(** ** Exceptions and outcomes *)

Inductive exn :=
| ExchangeError (msg : string)
| DivisionByZero
| InvalidOperation
| OverflowError
| ValueError
| IndexError
| AttributeError (name : string).

Inductive outcome (A : Type) :=
| Ok (a : A)
| Raise (e : exn).
Arguments Ok {A} a.
Arguments Raise {A} e.

#[global] Instance outcome_ret : MRet outcome := @Ok.
#[global] Instance outcome_bind : MBind outcome := fun A B f r =>
  match r with
  | Ok a => f a
  | Raise e => Raise e
  end.

(** ** Decimal arithmetic (module [decimal], default context) *)

Definition Decimal := Q.
Bind Scope Q_scope with Decimal.

Module Dec.
Local Open Scope Q_scope.

(** Nearest integer, ties to the even one. *)
Definition round_half_even (x : Q) : Z :=
  let f := Qfloor x in
  match Qcompare (x - inject_Z f) (1 # 2) with
  | Lt => f
  | Gt => (f + 1)%Z
  | Eq => if Z.even f then f else (f + 1)%Z
  end.

Fixpoint digits_fuel (fuel : nat) (n : Z) : Z :=
  match fuel with
  | O => 1%Z
  | S k => if (n <? 10)%Z then 1%Z else (1 + digits_fuel k (n / 10))%Z
  end.

(** Number of decimal digits of a positive integer. *)
Definition digits10 (n : Z) : Z := digits_fuel (Z.to_nat (Z.log2 n)) n.

Definition pow10 (e : Z) : Q := Qpower 10 e.

(** The adjusted exponent: [10^e <= |x| < 10^(e+1)] for [x <> 0]. *)
Definition adjusted (x : Q) : Z :=
  let g := (digits10 (Z.abs (Qnum x)) - digits10 (Z.pos (Qden x)))%Z in
  if Qle_bool (pow10 g) (Qabs x) then g else (g - 1)%Z.

Definition sign_of (x : Q) : Q := if Qle_bool 0 x then 1 else -1.

(** Rounding to [prec] significant digits, ROUND_HALF_EVEN. *)
Definition round_sig (prec : Z) (x : Q) : Q :=
  if Qeq_bool x 0 then 0
  else
    let e := (adjusted x - (prec - 1))%Z in
    Qred (sign_of x * inject_Z (round_half_even (Qabs x / pow10 e)) * pow10 e).

Definition prec : Z := 28.
Definition ctx (x : Q) : Decimal := round_sig prec x.

Definition add (a b : Decimal) : Decimal := ctx (a + b).
Definition sub (a b : Decimal) : Decimal := ctx (a - b).
Definition mul (a b : Decimal) : Decimal := ctx (a * b).
Definition neg (a : Decimal) : Decimal := ctx (- a).
Definition abs (a : Decimal) : Decimal := ctx (Qabs a).

Definition div (a b : Decimal) : outcome Decimal :=
  if Qeq_bool b 0 then
    if Qeq_bool a 0 then Raise InvalidOperation else Raise DivisionByZero
  else Ok (ctx (a / b)).

(** Comparisons are exact. *)
Definition eqb (a b : Decimal) : bool := Qeq_bool a b.
Definition leb (a b : Decimal) : bool := Qle_bool a b.
Definition ltb (a b : Decimal) : bool := negb (Qle_bool b a).

(** Python's [max(a, b)] and [min(a, b)]: the first argument wins ties. *)
Definition max (a b : Decimal) : Decimal := if ltb a b then b else a.
Definition min (a b : Decimal) : Decimal := if ltb b a then b else a.

(** [x or Decimal(0)]: a zero is falsy. *)
Definition or_zero (o : option Decimal) : Decimal :=
  match o with
  | Some d => if eqb d 0 then 0 else d
  | None => 0
  end.
End Dec.

(** ** Binary floating point: [float(d)] and [math.ceil] *)

Inductive float :=
| Ffinite (v : Q)
| Finf (negative : bool).

Module Float.
Local Open Scope Q_scope.

Definition pow2 (e : Z) : Q := Qpower 2 e.

(** [2^e <= |x| < 2^(e+1)] for [x <> 0]. *)
Definition ilog2 (x : Q) : Z :=
  let g := (Z.log2 (Z.abs (Qnum x)) - Z.log2 (Z.pos (Qden x)))%Z in
  if Qle_bool (pow2 g) (Qabs x) then g else (g - 1)%Z.

(** Correctly rounded conversion to binary64 (53-bit significand, least
    exponent -1074, round to nearest even, overflow to infinity). *)
Definition of_decimal (x : Decimal) : float :=
  if Qeq_bool x 0 then Ffinite 0
  else
    let ue := Z.max (ilog2 x - 52) (-1074) in
    let v := Qred (inject_Z (Dec.round_half_even (Qabs x / pow2 ue)) * pow2 ue) in
    if Qle_bool (pow2 1024) v then Finf (negb (Qle_bool 0 x))
    else Ffinite (Qred (Dec.sign_of x * v)).

(** [math.ceil(f)]: an integer, OverflowError on an infinity. *)
Definition ceil (f : float) : outcome Z :=
  match f with
  | Ffinite v => Ok (Qceiling v)
  | Finf _ => Raise OverflowError
  end.

(** [f != 0] *)
Definition nonzero (f : float) : bool :=
  match f with
  | Ffinite v => negb (Qeq_bool v 0)
  | Finf _ => true
  end.
End Float.

(** ** src/utils/helpers.py *)

(** The result of [breakeven_periods]: an [int], or [float("inf")]. *)
Inductive periods :=
| Periods (n : Z)
| PeriodsInf.

Module helpers.
Local Open Scope Q_scope.

Definition default_spot_fee : Decimal := 0.001.
Definition default_perp_fee : Decimal := 0.0004.

Record profit_info := {
  funding_income : Decimal;
  open_cost : Decimal;
  close_cost : Decimal;
  net_profit : Decimal;
  roi : Decimal;
}.

Definition estimate_profit (position_value funding_rate : Decimal) (periods : Z)
    (spot_fee perp_fee : Decimal) : outcome profit_info :=
  let funding_income :=
    Dec.mul (Dec.mul position_value (Dec.abs funding_rate)) (inject_Z periods) in
  let open_cost := Dec.mul position_value (Dec.add spot_fee perp_fee) in
  let close_cost := Dec.mul position_value (Dec.add spot_fee perp_fee) in
  let net_profit := Dec.sub (Dec.sub funding_income open_cost) close_cost in
  roi ← (if Dec.eqb position_value 0 then Ok 0 else Dec.div net_profit position_value);
  Ok {| funding_income := funding_income; open_cost := open_cost;
        close_cost := close_cost; net_profit := net_profit; roi := roi |}.

Definition breakeven_periods (funding_rate spot_fee perp_fee : Decimal)
    : outcome periods :=
  if Dec.eqb (Dec.abs funding_rate) 0 then Ok PeriodsInf
  else
    let total_fee := Dec.mul (Dec.add spot_fee perp_fee) 2 in
    periods ← Dec.div total_fee (Dec.abs funding_rate);
    n ← Float.ceil (Float.of_decimal periods);
    Ok (Periods n).

(** [amount.quantize(Decimal(10) ** -decimals, rounding=ROUND_DOWN)]: the
    amount cut to [decimals] places; InvalidOperation when the result
    would have more digits than the context has. *)
Definition quantize_down (amount : Decimal) (decimals : Z) : outcome Decimal :=
  let coefficient := Qfloor (Qabs amount * Dec.pow10 decimals) in
  if (10 ^ Dec.prec <=? coefficient)%Z then Raise InvalidOperation
  else Ok (Qred (Dec.sign_of amount * inject_Z coefficient / Dec.pow10 decimals)).

(** [format_usdt(amount)] on a decimal: the text shows the quantized
    amount. *)
Definition format_usdt (amount : Decimal) (decimals : Z) : outcome Decimal :=
  quantize_down amount decimals.
End helpers.

(** ** src/utils/config.py: the settings the core reads *)

Record Config := {
  allow_negative_rates : bool;
  default_leverage : Z;
  delta_tolerance : Decimal;
  telegram_enabled : bool;
}.

(** ** src/exchange/base.py *)

Inductive OrderSide := BUY | SELL.
Inductive OrderType := MARKET | LIMIT.

(** A [datetime], as microseconds on some fixed time line. *)
Definition datetime := Z.
Bind Scope Z_scope with datetime.

Module Order.
Record t := mk {
  id : string;
  symbol : string;
  side : OrderSide;
  type : OrderType;
  price : Decimal;
  amount : Decimal;
  filled : Decimal;
  remaining : Decimal;
  status : string;
  timestamp : datetime;
  fee : option Decimal;
  fee_currency : option string;
}.
End Order.

Module FundingRate.
Record t := mk {
  symbol : string;
  rate : Decimal;
  predicted_rate : Decimal;
  next_funding_time : datetime;
  timestamp : datetime;
}.
End FundingRate.

(** [s.split("/")[0]] *)
Fixpoint split_slash_0 (s : string) : string :=
  match s with
  | EmptyString => EmptyString
  | String c rest =>
      if Ascii.eqb c "/"%char then EmptyString else String c (split_slash_0 rest)
  end.

(** ** src/strategy/selector.py *)

Module Pool.
Record t := mk {
  symbol : string;
  funding_rate : Decimal;
  predicted_rate : Decimal;
  price : Decimal;
  volume_24h : Decimal;
  depth_05pct : Decimal;
  spread : Decimal;
  expected_profit : option Decimal;
  breakeven_periods : option periods;
  score : option Decimal;
}.

Definition base_currency (self : t) : string := split_slash_0 (symbol self).

Definition is_positive_rate (self : t) : bool := Dec.ltb 0 (funding_rate self).
End Pool.

Module PoolSelector.
Local Open Scope Q_scope.

Record t := mk {
  min_volume : Decimal;
  max_volume : Decimal;
  min_depth : Decimal;
  min_rate : Decimal;
  max_spread : Decimal;
  blacklist : gset string;
}.

(** [_calc_metrics] fills in the three derived fields of the pool. *)
Definition _calc_metrics (self : t) (pool : Pool.t) : outcome Pool.t :=
  let position_value : Decimal := 1000 in
  profit_info ← helpers.estimate_profit position_value (Pool.funding_rate pool) 3
                  helpers.default_spot_fee helpers.default_perp_fee;
  bp ← helpers.breakeven_periods (Pool.funding_rate pool)
         helpers.default_spot_fee helpers.default_perp_fee;
  let rate_score := Dec.mul (Dec.abs (Pool.funding_rate pool)) 1000 in
  depth_ratio ← Dec.div (Pool.depth_05pct pool) (min_depth self);
  liquidity_score ← Dec.div (Dec.min depth_ratio 5) 5;
  spread_ratio ← Dec.div (Pool.spread pool) (max_spread self);
  let spread_score := Dec.sub 1 spread_ratio in
  Ok (Pool.mk (Pool.symbol pool) (Pool.funding_rate pool) (Pool.predicted_rate pool)
        (Pool.price pool) (Pool.volume_24h pool) (Pool.depth_05pct pool)
        (Pool.spread pool)
        (Some (helpers.net_profit profit_info))
        (Some bp)
        (Some (Dec.mul (Dec.mul rate_score liquidity_score) spread_score))).

(** The loop of [filter]: each guard is a [continue]. *)
Fixpoint filter_loop (cfg : Config) (self : t) (pools candidates : list Pool.t)
    : outcome (list Pool.t) :=
  match pools with
  | [] => Ok candidates
  | pool :: rest =>
      if bool_decide (Pool.base_currency pool ∈ blacklist self) then
        filter_loop cfg self rest candidates
      else if negb (allow_negative_rates cfg) && Dec.ltb (Pool.funding_rate pool) 0 then
        filter_loop cfg self rest candidates
      else if negb (Dec.leb (min_volume self) (Pool.volume_24h pool)
                    && Dec.leb (Pool.volume_24h pool) (max_volume self)) then
        filter_loop cfg self rest candidates
      else if Dec.ltb (Pool.depth_05pct pool) (min_depth self) then
        filter_loop cfg self rest candidates
      else if Dec.ltb (Dec.abs (Pool.funding_rate pool)) (min_rate self) then
        filter_loop cfg self rest candidates
      else if Dec.ltb (max_spread self) (Pool.spread pool) then
        filter_loop cfg self rest candidates
      else
        pool' ← _calc_metrics self pool;
        filter_loop cfg self rest (candidates ++ [pool'])
  end.

(** [key=lambda x: x.score or Decimal(0)] *)
Definition sort_key (pool : Pool.t) : Decimal := Dec.or_zero (Pool.score pool).

(** [candidates.sort(key=..., reverse=True)]: a stable sort, greatest
    key first, equal keys in their original order. *)
Fixpoint insert_desc (x : Pool.t) (l : list Pool.t) : list Pool.t :=
  match l with
  | [] => [x]
  | y :: ys =>
      if Dec.ltb (sort_key x) (sort_key y) then y :: insert_desc x ys
      else x :: y :: ys
  end.

Definition sort_desc (l : list Pool.t) : list Pool.t := foldr insert_desc [] l.

Definition filter (cfg : Config) (self : t) (pools : list Pool.t)
    : outcome (list Pool.t) :=
  candidates ← filter_loop cfg self pools [];
  Ok (sort_desc candidates).
End PoolSelector.

(** ** src/strategy/executor.py: the position record *)

Module ArbitragePosition.
Local Open Scope Q_scope.

Record t := mk {
  symbol : string;
  base_currency : string;
  spot_qty : Decimal;
  spot_avg_price : Decimal;
  spot_value : Decimal;
  perp_qty : Decimal;
  perp_avg_price : Decimal;
  perp_value : Decimal;
  funding_earned : Decimal;
  leverage : Z;
  opened_at : option datetime;
  funding_periods : Z;
  orders : list Order.t;
}.

Definition notional_value (self : t) : Decimal :=
  Dec.max (Dec.abs (spot_value self)) (Dec.abs (perp_value self)).

Definition delta (self : t) : outcome Decimal :=
  if Dec.eqb (notional_value self) 0 then Ok 0
  else
    Dec.div (Dec.add (spot_qty self) (perp_qty self))
      (Dec.abs (if Dec.eqb (spot_qty self) 0 then perp_qty self else spot_qty self)).

(** [sum(o.fee or Decimal(0) for o in self.orders)] *)
Definition total_cost (self : t) : Decimal :=
  fold_left (fun acc o => Dec.add acc (Dec.or_zero (Order.fee o))) (orders self) 0.

Definition with_orders (self : t) (os : list Order.t) : t :=
  mk (symbol self) (base_currency self) (spot_qty self) (spot_avg_price self)
    (spot_value self) (perp_qty self) (perp_avg_price self) (perp_value self)
    (funding_earned self) (leverage self) (opened_at self) (funding_periods self) os.
End ArbitragePosition.

(** ** Library functions used by the persistence code

    [str(d)] and [Decimal(s)] on decimals, [isoformat] and
    [datetime.fromisoformat] on datetimes.  They are parameters of the
    development; the round trips the library documents are stated where a
    property needs them. *)

Class PyLib := {
  Decimal_str : Decimal -> string;
  Decimal_of_str : string -> outcome Decimal;
  isoformat : datetime -> string;
  fromisoformat : string -> outcome datetime;
}.

(** ** src/core/position_store.py *)

(** One entry of data/positions.json, as [save] writes it. *)
Module PositionJson.
Record t := mk {
  symbol : string;
  base_currency : string;
  spot_qty : string;
  spot_avg_price : string;
  spot_value : string;
  perp_qty : string;
  perp_avg_price : string;
  perp_value : string;
  funding_earned : string;
  leverage : Z;
  opened_at : option string;
  funding_periods : option Z;
}.
End PositionJson.

Module PositionStore.
Section store.
Context `{PyLib}.

(** The content of the file; [_load_raw] gives the empty dictionary for
    a missing file. *)
Definition pos_dict (position : ArbitragePosition.t) : PositionJson.t :=
  PositionJson.mk
    (ArbitragePosition.symbol position)
    (ArbitragePosition.base_currency position)
    (Decimal_str (ArbitragePosition.spot_qty position))
    (Decimal_str (ArbitragePosition.spot_avg_price position))
    (Decimal_str (ArbitragePosition.spot_value position))
    (Decimal_str (ArbitragePosition.perp_qty position))
    (Decimal_str (ArbitragePosition.perp_avg_price position))
    (Decimal_str (ArbitragePosition.perp_value position))
    (Decimal_str (ArbitragePosition.funding_earned position))
    (ArbitragePosition.leverage position)
    (isoformat <$> ArbitragePosition.opened_at position)
    (Some (ArbitragePosition.funding_periods position)).

Definition save (position : ArbitragePosition.t)
    (file : gmap string PositionJson.t) : gmap string PositionJson.t :=
  <[ArbitragePosition.symbol position := pos_dict position]> file.

(** The constructor call of [load_all]; a falsy [opened_at] (absent,
    null or the empty string) gives [None]. *)
Definition from_dict (data : PositionJson.t) : outcome ArbitragePosition.t :=
  spot_qty ← Decimal_of_str (PositionJson.spot_qty data);
  spot_avg_price ← Decimal_of_str (PositionJson.spot_avg_price data);
  spot_value ← Decimal_of_str (PositionJson.spot_value data);
  perp_qty ← Decimal_of_str (PositionJson.perp_qty data);
  perp_avg_price ← Decimal_of_str (PositionJson.perp_avg_price data);
  perp_value ← Decimal_of_str (PositionJson.perp_value data);
  funding_earned ← Decimal_of_str (PositionJson.funding_earned data);
  opened_at ← match PositionJson.opened_at data with
              | None => Ok None
              | Some s =>
                  if String.eqb s "" then Ok None
                  else (d ← fromisoformat s; Ok (Some d))
              end;
  Ok (ArbitragePosition.mk (PositionJson.symbol data)
        (PositionJson.base_currency data)
        spot_qty spot_avg_price spot_value perp_qty perp_avg_price perp_value
        funding_earned (PositionJson.leverage data) opened_at
        (default 0%Z (PositionJson.funding_periods data)) []).

(** An entry whose conversion raises is logged and skipped. *)
Definition load_entry (data : PositionJson.t) : option ArbitragePosition.t :=
  match from_dict data with
  | Ok position => Some position
  | Raise _ => None
  end.

Definition load_all (file : gmap string PositionJson.t)
    : gmap string ArbitragePosition.t :=
  omap load_entry file.

Definition remove (symbol : string) (file : gmap string PositionJson.t)
    : bool * gmap string PositionJson.t :=
  match file !! symbol with
  | Some _ => (true, delete symbol file)
  | None => (false, file)
  end.
End store.
End PositionStore.

(** ** The exchange gateway and the state of the engine *)

(** One row of [exchange.perp.fetch_positions()]: the symbol and the
    fields of [info] the engine reads, already converted. *)
Module PerpRow.
Record t := mk {
  symbol : string;
  positionAmt : Decimal;
  entryPrice : Decimal;
  leverage : Z;
}.
End PerpRow.

(** One asset of [exchange.spot.fetch_balance()]. *)
Module Balance.
Record t := mk {
  free : Decimal;
  total : Decimal;
}.
End Balance.

(** The gateway interface ([ExchangeBase] and the two raw clients), over
    an exchange state [G]: every call may change the exchange and may
    raise. *)
Class ExchangeBase (G : Type) := {
  set_leverage : string -> Z -> G -> outcome unit * G;
  place_spot_order :
    string -> OrderSide -> Decimal -> OrderType -> G -> outcome Order.t * G;
  place_perp_order :
    string -> OrderSide -> Decimal -> OrderType -> bool -> G -> outcome Order.t * G;
  perp_fetch_positions : G -> outcome (list PerpRow.t) * G;
  spot_fetch_balance : G -> outcome (gmap string Balance.t) * G;
}.

(** The calls sent to the gateway, in the order they were made. *)
Inductive Request :=
| SetLeverage (symbol : string) (leverage : Z)
| SpotOrder (symbol : string) (side : OrderSide) (amount : Decimal) (type : OrderType)
| PerpOrder (symbol : string) (side : OrderSide) (amount : Decimal) (type : OrderType)
    (reduce_only : bool)
| FetchPositions
| FetchBalance.

Definition is_order (r : Request) : bool :=
  match r with
  | SpotOrder _ _ _ _ | PerpOrder _ _ _ _ _ => true
  | _ => false
  end.

(** The messages handed to the Telegram notifier. *)
Inductive Alert :=
| AdoptedAlert (symbols : list string)
| RepairAlert (issues : list (string * bool * bool)).

Record World (G : Type) := mkWorld {
  gateway : G;
  requests : list Request;
  positions : gmap string ArbitragePosition.t;      (* Executor.positions *)
  position_file : gmap string PositionJson.t;       (* data/positions.json *)
  clock : datetime;                                 (* datetime.now() *)
  telegram_sent : list Alert;
}.
Arguments mkWorld {G}.
Arguments gateway {G}.
Arguments requests {G}.
Arguments positions {G}.
Arguments position_file {G}.
Arguments clock {G}.
Arguments telegram_sent {G}.

(** Stateful code that may raise. *)
Definition M (G A : Type) : Type := World G -> outcome A * World G.

Definition ret {G A} (a : A) : M G A := fun w => (Ok a, w).
Definition raise {G A} (e : exn) : M G A := fun w => (Raise e, w).
Definition bind {G A B} (m : M G A) (k : A -> M G B) : M G B :=
  fun w => match m w with
           | (Ok a, w') => k a w'
           | (Raise e, w') => (Raise e, w')
           end.

Notation "'let*' x ':=' c 'in' k" := (bind c (fun x => k))
  (at level 10, x name, c at level 100, k at level 200).

(** [try: body except Exception as e: handler(e)] *)
Definition try_except {G A} (body : M G A) (handler : exn -> M G A) : M G A :=
  fun w => match body w with
           | (Ok a, w') => (Ok a, w')
           | (Raise e, w') => handler e w'
           end.

(** The result or the exception of a call, as a value
    ([return_exceptions=True]). *)
Definition attempt {G A} (m : M G A) : M G (outcome A) :=
  fun w => let '(r, w') := m w in (Ok r, w').

Definition lift {G A} (r : outcome A) : M G A := fun w => (r, w).

(** [asyncio.gather(a, b)]: both requests are sent; the first exception is
    raised to the caller. *)
Definition gather2 {G A B} (a : M G A) (b : M G B) : M G (A * B) :=
  let* ra := attempt a in
  let* rb := attempt b in
  match ra, rb with
  | Ok x, Ok y => ret (x, y)
  | Raise e, _ => raise e
  | Ok _, Raise e => raise e
  end.

Fixpoint foldM {G A B} (f : A -> B -> M G A) (a : A) (l : list B) : M G A :=
  match l with
  | [] => ret a
  | b :: rest => let* a' := f a b in foldM f a' rest
  end.

Section world.
Context {G : Type} `{ExchangeBase G}.

Definition with_gateway (w : World G) (g : G) (r : Request) : World G :=
  mkWorld g (requests w ++ [r]) (positions w) (position_file w) (clock w)
    (telegram_sent w).

Definition with_positions (w : World G) (ps : gmap string ArbitragePosition.t)
    : World G :=
  mkWorld (gateway w) (requests w) ps (position_file w) (clock w) (telegram_sent w).

Definition with_position_file (w : World G) (f : gmap string PositionJson.t)
    : World G :=
  mkWorld (gateway w) (requests w) (positions w) f (clock w) (telegram_sent w).

Definition with_telegram (w : World G) (a : Alert) : World G :=
  mkWorld (gateway w) (requests w) (positions w) (position_file w) (clock w)
    (telegram_sent w ++ [a]).

Definition call_set_leverage (symbol : string) (leverage : Z) : M G unit :=
  fun w => let '(r, g) := set_leverage symbol leverage (gateway w) in
           (r, with_gateway w g (SetLeverage symbol leverage)).

Definition call_place_spot_order (symbol : string) (side : OrderSide)
    (amount : Decimal) (type : OrderType) : M G Order.t :=
  fun w => let '(r, g) := place_spot_order symbol side amount type (gateway w) in
           (r, with_gateway w g (SpotOrder symbol side amount type)).

Definition call_place_perp_order (symbol : string) (side : OrderSide)
    (amount : Decimal) (type : OrderType) (reduce_only : bool) : M G Order.t :=
  fun w => let '(r, g) :=
             place_perp_order symbol side amount type reduce_only (gateway w) in
           (r, with_gateway w g (PerpOrder symbol side amount type reduce_only)).

Definition call_fetch_positions : M G (list PerpRow.t) :=
  fun w => let '(r, g) := perp_fetch_positions (gateway w) in
           (r, with_gateway w g FetchPositions).

Definition call_fetch_balance : M G (gmap string Balance.t) :=
  fun w => let '(r, g) := spot_fetch_balance (gateway w) in
           (r, with_gateway w g FetchBalance).

Definition get_positions : M G (gmap string ArbitragePosition.t) :=
  fun w => (Ok (positions w), w).

Definition now : M G datetime := fun w => (Ok (clock w), w).

(** [self.positions[symbol] = position] *)
Definition set_position (symbol : string) (position : ArbitragePosition.t)
    : M G unit :=
  fun w => (Ok tt, with_positions w (<[symbol := position]> (positions w))).

(** [del self.positions[symbol]] *)
Definition del_position (symbol : string) : M G unit :=
  fun w => (Ok tt, with_positions w (delete symbol (positions w))).

(** [await telegram.send_message(...)] *)
Definition send_message (a : Alert) : M G unit :=
  fun w => (Ok tt, with_telegram w a).

Context `{PyLib}.

(** [_get_position_store().save(position)] *)
Definition store_save (position : ArbitragePosition.t) : M G unit :=
  fun w => (Ok tt, with_position_file w (PositionStore.save position (position_file w))).

(** [_get_position_store().remove(symbol)] *)
Definition store_remove (symbol : string) : M G bool :=
  fun w => let '(b, f) := PositionStore.remove symbol (position_file w) in
           (Ok b, with_position_file w f).

(** [_get_position_store().delete(symbol)]: the class PositionStore
    defines [save], [save_all], [load_all], [remove],
    [update_funding_income] and [get_total_funding_income]; looking up
    [delete] raises AttributeError. *)
Definition store_delete (symbol : string) : M G unit :=
  raise (AttributeError "delete").
End world.

(** ** src/strategy/executor.py: the executor *)

Module Executor.
Section executor.
Context {G : Type} `{ExchangeBase G} `{PyLib}.
Variable cfg : Config.

Definition open_arbitrage (pool : Pool.t) (size_usdt : Decimal)
    : M G (option ArbitragePosition.t) :=
  let symbol := Pool.symbol pool in
  let base := Pool.base_currency pool in
  let spot_symbol := (base +:+ "/USDT")%string in
  let perp_symbol := symbol in
  let* qty := lift (Dec.div size_usdt (Pool.price pool)) in
  (* the opening log line: format_rate and the format of qty do not raise *)
  let* _ := lift (helpers.format_usdt size_usdt 2) in
  try_except
    (let leverage := default_leverage cfg in
     let* _ := call_set_leverage perp_symbol leverage in
     if Dec.ltb 0 (Pool.funding_rate pool) then
       let spot_side := BUY in
       let perp_side := SELL in
       let* spot_order :=
         attempt (call_place_spot_order spot_symbol spot_side qty MARKET) in
       let* perp_order :=
         attempt (call_place_perp_order perp_symbol perp_side qty MARKET false) in
       match spot_order, perp_order with
       | Raise _, Raise _ => ret None
       | Raise _, Ok perp_order =>
           let* _ :=
             try_except
               (let* _ := call_place_perp_order perp_symbol BUY
                            (Order.filled perp_order) MARKET false in
                ret tt)
               (fun _ => ret tt) in
           ret None
       | Ok spot_order, Raise _ =>
           let* _ :=
             try_except
               (let* _ := call_place_spot_order spot_symbol SELL
                            (Order.filled spot_order) MARKET in
                ret tt)
               (fun _ => ret tt) in
           ret None
       | Ok spot_order, Ok perp_order =>
           let* opened := now in
           let position :=
             ArbitragePosition.mk perp_symbol base
               (Order.filled spot_order)
               (Order.price spot_order)
               (Dec.mul (Order.filled spot_order) (Order.price spot_order))
               (Dec.neg (Order.filled perp_order))
               (Order.price perp_order)
               (Dec.mul (Order.filled perp_order) (Order.price perp_order))
               0 leverage (Some opened) 0 [spot_order; perp_order] in
           let* _ := set_position perp_symbol position in
           let* _ := try_except (store_save position) (fun _ => ret tt) in
           (* the closing log line reads position.delta *)
           let* _ := lift (ArbitragePosition.delta position) in
           ret (Some position)
       end
     else ret None)
    (fun _ => ret None).

Definition close_arbitrage (symbol : string) : M G (option Decimal) :=
  let* ps := get_positions in
  match ps !! symbol with
  | None => ret None
  | Some position =>
      let base := ArbitragePosition.base_currency position in
      let spot_symbol := (base +:+ "/USDT")%string in
      let perp_symbol := symbol in
      try_except
        (let* orders :=
           gather2
             (call_place_spot_order spot_symbol SELL
                (ArbitragePosition.spot_qty position) MARKET)
             (call_place_perp_order perp_symbol BUY
                (Dec.abs (ArbitragePosition.perp_qty position)) MARKET true) in
         let spot_order := fst orders in
         let perp_order := snd orders in
         (* position.orders.extend(...) changes the object the map holds *)
         let position :=
           ArbitragePosition.with_orders position
             (ArbitragePosition.orders position ++ [spot_order; perp_order]) in
         let* _ := set_position symbol position in
         let spot_pnl :=
           Dec.mul (Dec.sub (Order.price spot_order)
                      (ArbitragePosition.spot_avg_price position))
             (ArbitragePosition.spot_qty position) in
         let perp_pnl :=
           Dec.mul (Dec.sub (ArbitragePosition.perp_avg_price position)
                      (Order.price perp_order))
             (Dec.abs (ArbitragePosition.perp_qty position)) in
         let total_pnl :=
           Dec.sub (Dec.add (Dec.add spot_pnl perp_pnl)
                      (ArbitragePosition.funding_earned position))
             (ArbitragePosition.total_cost position) in
         (* the closing log line *)
         let* _ := lift (helpers.format_usdt spot_pnl 2) in
         let* _ := lift (helpers.format_usdt perp_pnl 2) in
         let* _ :=
           lift (helpers.format_usdt (ArbitragePosition.funding_earned position) 2) in
         let* _ :=
           lift (helpers.format_usdt (ArbitragePosition.total_cost position) 2) in
         let* _ := lift (helpers.format_usdt total_pnl 2) in
         let* _ := del_position symbol in
         let* _ :=
           try_except (let* _ := store_remove symbol in ret tt)
             (fun _ => ret tt) in
         ret (Some total_pnl))
        (fun _ => ret None)
  end.
End executor.
End Executor.

(** ** scripts/auto_trade.py: reconciliation *)

Module AutoTrader.
Section trader.
Context {G : Type} `{ExchangeBase G} `{PyLib}.
Variable cfg : Config.

(** [{p['symbol']: p for p in rows if keep(p)}]: a later row replaces an
    earlier one with the same symbol. *)
Definition dict_by_symbol (keep : PerpRow.t -> bool) (rows : list PerpRow.t)
    : gmap string PerpRow.t :=
  fold_left (fun m p => if keep p then <[PerpRow.symbol p := p]> m else m) rows ∅.

(** [float(p['info']['positionAmt']) != 0] *)
Definition has_amount (p : PerpRow.t) : bool :=
  Float.nonzero (Float.of_decimal (PerpRow.positionAmt p)).

(** [spot_balances.get(base, {}).get('free', 0)] and the same for
    ['total']. *)
Definition balance_free (balances : gmap string Balance.t) (base : string)
    : Decimal :=
  match balances !! base with Some b => Balance.free b | None => 0 end.

Definition balance_total (balances : gmap string Balance.t) (base : string)
    : Decimal :=
  match balances !! base with Some b => Balance.total b | None => 0 end.

(** The position [sync_orphan_positions] builds for an orphan. *)
Definition adopted_position (symbol : string) (p_data : PerpRow.t)
    (opened : datetime) : ArbitragePosition.t :=
  let base := split_slash_0 symbol in
  let perp_amt := PerpRow.positionAmt p_data in
  let perp_entry_price := PerpRow.entryPrice p_data in
  let target_spot_qty := Dec.abs perp_amt in
  ArbitragePosition.mk symbol base
    target_spot_qty
    perp_entry_price
    (Dec.mul target_spot_qty perp_entry_price)
    perp_amt
    perp_entry_price
    (Dec.mul perp_amt perp_entry_price)
    0 (PerpRow.leverage p_data) (Some opened) 0 [].

(** One turn of the loop over [perp_map.items()]. *)
Definition adopt (spot_balances : gmap string Balance.t)
    (newly_adopted : list string) (item : string * PerpRow.t)
    : M G (list string) :=
  let symbol := fst item in
  let p_data := snd item in
  let* ps := get_positions in
  match ps !! symbol with
  | Some _ => ret newly_adopted
  | None =>
      let base := split_slash_0 symbol in
      let spot_free := balance_free spot_balances base in
      let target_spot_qty := Dec.abs (PerpRow.positionAmt p_data) in
      if Dec.leb (Dec.mul target_spot_qty 0.9) spot_free then
        let* opened := now in
        let new_pos := adopted_position symbol p_data opened in
        let* _ := set_position symbol new_pos in
        let* _ := store_save new_pos in
        ret (newly_adopted ++ [symbol])
      else ret newly_adopted
  end.

Definition sync_orphan_positions : M G unit :=
  try_except
    (let* perp_positions := call_fetch_positions in
     let perp_map := dict_by_symbol has_amount perp_positions in
     match map_to_list perp_map with
     | [] => ret tt
     | items =>
         let* spot_balances := call_fetch_balance in
         let* newly_adopted := foldM (adopt spot_balances) [] items in
         match newly_adopted with
         | [] => ret tt
         | _ =>
             if telegram_enabled cfg
             then send_message (AdoptedAlert newly_adopted)
             else ret tt
         end
     end)
    (fun _ => ret tt).

(** One turn of the loop of [verify_and_fix_positions]. *)
Definition repair (perp_map : gmap string PerpRow.t)
    (spot_balances : gmap string Balance.t)
    (issues_found : list (string * bool * bool))
    (item : string * ArbitragePosition.t)
    : M G (list (string * bool * bool)) :=
  let symbol := fst item in
  let pos := snd item in
  let base := ArbitragePosition.base_currency pos in
  let perp_amt : Decimal :=
    match perp_map !! symbol with
    | Some perp_data => PerpRow.positionAmt perp_data
    | None => 0%Q
    end in
  let has_perp := Dec.ltb 0.001 (Dec.abs perp_amt) in
  let spot_total := balance_total spot_balances base in
  let has_spot := Dec.leb (Dec.mul (ArbitragePosition.spot_qty pos) 0.9) spot_total in
  if has_perp && has_spot then ret issues_found
  else
    let issues_found := issues_found ++ [(symbol, has_perp, has_spot)] in
    let* _ :=
      try_except
        (let* _ :=
           if has_perp && negb has_spot then
             let* _ := call_place_perp_order symbol
                         (if Dec.ltb perp_amt 0 then BUY else SELL)
                         (Dec.abs perp_amt) MARKET false in
             ret tt
           else if has_spot && negb has_perp then
             let* _ := call_place_spot_order (base +:+ "/USDT")%string SELL
                         spot_total MARKET in
             ret tt
           else ret tt in
         let* _ := del_position symbol in
         store_delete symbol)
        (fun _ => ret tt) in
    ret issues_found.

Definition verify_and_fix_positions : M G unit :=
  let* ps := get_positions in
  match map_to_list ps with
  | [] => ret tt
  | items =>
      try_except
        (let* perp_positions := call_fetch_positions in
         let perp_map := dict_by_symbol (fun _ => true) perp_positions in
         let* spot_balances := call_fetch_balance in
         let* issues_found := foldM (repair perp_map spot_balances) [] items in
         match issues_found with
         | [] => ret tt
         | _ =>
             if telegram_enabled cfg
             then send_message (RepairAlert issues_found)
             else ret tt
         end)
        (fun _ => ret tt)
  end.
End trader.
End AutoTrader.

(** ** src/core/risk.py *)

Inductive RiskAction := HOLD | REDUCE | CLOSE | REBALANCE.

(** What the formatted [reason] text reports. *)
Inductive Reason :=
| NoReason
| AllChecksPassed
| MarginBelowClose (margin_ratio : Decimal)
| MarginBelowDanger (margin_ratio : Decimal)
| DeltaDeviation (delta : Decimal)
| RateReversal (initial_rate last_rate : Decimal).

Record RiskCheckResult := mkResult {
  action : RiskAction;
  reason : Reason;
  severity : Z;
}.

Definition is_hold (r : RiskCheckResult) : bool :=
  match action r with HOLD => true | _ => false end.

Module RiskManager.
Local Open Scope Q_scope.

Record t := mk {
  margin_warning : Decimal;
  margin_danger : Decimal;
  margin_close : Decimal;
  rate_reversal_periods : Z;
  rate_reversal_threshold : Decimal;
  delta_tolerance : Decimal;
  _rate_history : gmap string (list Decimal);
}.

Definition with_history (self : t) (h : gmap string (list Decimal)) : t :=
  mk (margin_warning self) (margin_danger self) (margin_close self)
    (rate_reversal_periods self) (rate_reversal_threshold self)
    (delta_tolerance self) h.

Definition _check_margin_ratio (self : t) (margin_ratio : Decimal)
    : RiskCheckResult :=
  if Dec.ltb margin_ratio (margin_close self) then
    mkResult CLOSE (MarginBelowClose margin_ratio) 10
  else if Dec.ltb margin_ratio (margin_danger self) then
    mkResult REDUCE (MarginBelowDanger margin_ratio) 8
  else mkResult HOLD NoReason 0.

Definition _check_delta (self : t) (position : ArbitragePosition.t)
    : outcome RiskCheckResult :=
  d ← ArbitragePosition.delta position;
  let delta := Dec.abs d in
  if Dec.ltb (Dec.mul (delta_tolerance self) 2) delta then
    Ok (mkResult REBALANCE (DeltaDeviation delta) 6)
  else Ok (mkResult HOLD NoReason 0).

(** The window after [history.append(rate)] and the [pop(0)] that keeps
    at most [rate_reversal_periods + 1] entries. *)
Definition push_rate (self : t) (history : list Decimal) (rate : Decimal)
    : list Decimal :=
  let history := history ++ [rate] in
  if (rate_reversal_periods self + 1 <? Z.of_nat (length history))%Z
  then tail history else history.

(** [all(r < -threshold for r in recent_rates)] and its mirror image. *)
Definition all_below (self : t) (recent_rates : list Decimal) : bool :=
  forallb (fun r => Dec.ltb r (Dec.neg (rate_reversal_threshold self))) recent_rates.

Definition all_above (self : t) (recent_rates : list Decimal) : bool :=
  forallb (fun r => Dec.ltb (rate_reversal_threshold self) r) recent_rates.

(** The CLOSE result; its reason formats [recent_rates[-1]]. *)
Definition reversal_result (initial_rate : Decimal) (recent_rates : list Decimal)
    : outcome RiskCheckResult :=
  match last recent_rates with
  | Some last_rate => Ok (mkResult CLOSE (RateReversal initial_rate last_rate) 7)
  | None => Raise IndexError
  end.

Definition _check_rate_reversal (self : t) (symbol : string)
    (current_rate : FundingRate.t) : outcome RiskCheckResult * t :=
  let history :=
    push_rate self (default [] (_rate_history self !! symbol))
      (FundingRate.rate current_rate) in
  let self := with_history self (<[symbol := history]> (_rate_history self)) in
  if (Z.of_nat (length history) <? rate_reversal_periods self + 1)%Z then
    (Ok (mkResult HOLD NoReason 0), self)
  else
    match history with
    | [] => (Raise IndexError, self)
    | initial_rate :: recent_rates =>
        if Dec.ltb 0 initial_rate then
          if all_below self recent_rates then
            (reversal_result initial_rate recent_rates, self)
          else (Ok (mkResult HOLD NoReason 0), self)
        else
          if all_above self recent_rates then
            (reversal_result initial_rate recent_rates, self)
          else (Ok (mkResult HOLD NoReason 0), self)
    end.

Definition _check_position_loss (self : t) (position : ArbitragePosition.t)
    : RiskCheckResult :=
  mkResult HOLD NoReason 0.

Definition check (self : t) (position : ArbitragePosition.t)
    (current_rate : option FundingRate.t) (margin_ratio : option Decimal)
    : outcome RiskCheckResult * t :=
  let margin :=
    match margin_ratio with
    | Some m => _check_margin_ratio self m
    | None => mkResult HOLD NoReason 0
    end in
  if negb (is_hold margin) then (Ok margin, self)
  else
    match _check_delta self position with
    | Raise e => (Raise e, self)
    | Ok result =>
        if negb (is_hold result) then (Ok result, self)
        else
          let '(reversal, self) :=
            match current_rate with
            | Some rate => _check_rate_reversal self (ArbitragePosition.symbol position) rate
            | None => (Ok (mkResult HOLD NoReason 0), self)
            end in
          match reversal with
          | Raise e => (Raise e, self)
          | Ok result =>
              if negb (is_hold result) then (Ok result, self)
              else
                let result := _check_position_loss self position in
                if negb (is_hold result) then (Ok result, self)
                else (Ok (mkResult HOLD AllChecksPassed 0), self)
          end
    end.
End RiskManager.

(** ** src/core/funding_tracker.py *)

(** One row of data/funding_log.json ([FundingRecord.to_dict]). *)
Module FundingRow.
Record t := mk {
  symbol : option string;
  rate : string;
  position_value : string;
  income : string;
  timestamp : string;
}.
End FundingRow.

(** One payment handed to [sync_remote_payments]; the timestamp is a
    [datetime], a string, or anything else. *)
Inductive Timestamp :=
| TsDatetime (d : datetime)
| TsStr (s : string)
| TsOther.

Module Payment.
Record t := mk {
  symbol : option string;
  income : Decimal;
  rate : Decimal;
  position_value : Decimal;
  timestamp : Timestamp;
}.
End Payment.

Module FundingTracker.
Section tracker.
Context `{PyLib}.

Definition key : Type := option string * string * string.

Definition row_key (r : FundingRow.t) : key :=
  (FundingRow.symbol r, FundingRow.timestamp r, FundingRow.income r).

Definition existing_keys (records : list FundingRow.t) : gset key :=
  list_to_set (row_key <$> records).

(** The state of the loop: [existing_keys], [added], [records]. *)
Definition loop_state : Type := gset key * nat * list FundingRow.t.

Definition sync_step (st : loop_state) (p : Payment.t) : outcome loop_state :=
  let '(keys, added, records) := st in
  income ← Decimal_of_str (Decimal_str (Payment.income p));
  rate ← Decimal_of_str (Decimal_str (Payment.rate p));
  position_value ← Decimal_of_str (Decimal_str (Payment.position_value p));
  let ts_iso :=
    match Payment.timestamp p with
    | TsDatetime ts => Some (isoformat ts)
    | TsStr ts => Some ts
    | TsOther => None
    end in
  match ts_iso with
  | None => Ok st
  | Some ts_iso =>
      let k : key := (Payment.symbol p, ts_iso, Decimal_str income) in
      if bool_decide (k ∈ keys) then Ok st
      else
        timestamp ← fromisoformat ts_iso;
        Ok ({[k]} ∪ keys, S added,
            records ++ [FundingRow.mk (Payment.symbol p) (Decimal_str rate)
                          (Decimal_str position_value) (Decimal_str income)
                          (isoformat timestamp)])
  end.

Fixpoint sync_loop (st : loop_state) (payments : list Payment.t)
    : outcome loop_state :=
  match payments with
  | [] => Ok st
  | p :: rest => st' ← sync_step st p; sync_loop st' rest
  end.

(** The ledger file before, the number returned and the ledger file
    after. *)
Definition sync_remote_payments (payments : list Payment.t)
    (ledger : list FundingRow.t) : outcome nat * list FundingRow.t :=
  match payments with
  | [] => (Ok 0%nat, ledger)
  | _ =>
      let records := ledger in
      match sync_loop (existing_keys records, 0%nat, records) payments with
      | Raise e => (Raise e, ledger)
      | Ok (_, added, records) =>
          (Ok added, match added with O => ledger | S _ => records end)
      end
  end.
End tracker.
End FundingTracker.

(** ** Instances on which the code is run in the examples *)

(** A rendering of decimals as "numerator/denominator" and of datetimes as
    integers, with the parsers that read them back. *)
Module SampleLib.
Definition str_Z (z : Z) : string := NilZero.string_of_int (Z.to_int z).

Definition Z_of_str (s : string) : outcome Z :=
  match NilZero.int_of_string s with
  | Some d => Ok (Z.of_int d)
  | None => Raise ValueError
  end.

Fixpoint after_slash (s : string) : string :=
  match s with
  | EmptyString => EmptyString
  | String c rest => if Ascii.eqb c "/"%char then rest else after_slash rest
  end.

Definition Decimal_str (d : Decimal) : string :=
  (str_Z (Qnum d) +:+ "/" +:+ str_Z (Z.pos (Qden d)))%string.

Definition Decimal_of_str (s : string) : outcome Decimal :=
  n ← Z_of_str (split_slash_0 s);
  d ← Z_of_str (after_slash s);
  if (0 <? d)%Z then Ok (n # Z.to_pos d) else Raise InvalidOperation.

Definition lib : PyLib :=
  Build_PyLib Decimal_str Decimal_of_str str_Z Z_of_str.
End SampleLib.

(** A paper exchange: orders fill completely at one price unless a market
    is down; the leverage settings it received are part of its state. *)
Module PaperExchange.
Record t := mk {
  spot_down : bool;
  perp_down : bool;
  fill_price : Decimal;
  leverages : list (string * Z);
  perp_positions : list PerpRow.t;
  spot_balances : gmap string Balance.t;
}.

Definition fill (symbol : string) (side : OrderSide) (amount : Decimal)
    (type : OrderType) (g : t) : Order.t :=
  Order.mk "paper" symbol side type (fill_price g) amount amount 0 "closed" 0%Z
    None None.

Definition exchange : ExchangeBase t :=
  {| set_leverage symbol leverage g :=
       (Ok tt, mk (spot_down g) (perp_down g) (fill_price g)
                 ((symbol, leverage) :: leverages g) (perp_positions g)
                 (spot_balances g));
     place_spot_order symbol side amount type g :=
       if spot_down g then (Raise (ExchangeError "spot market down"), g)
       else (Ok (fill symbol side amount type g), g);
     place_perp_order symbol side amount type reduce_only g :=
       if perp_down g then (Raise (ExchangeError "perp market down"), g)
       else (Ok (fill symbol side amount type g), g);
     perp_fetch_positions g := (Ok (perp_positions g), g);
     spot_fetch_balance g := (Ok (spot_balances g), g) |}.

Definition world (g : t) : World t := mkWorld g [] ∅ ∅ 0%Z [].
End PaperExchange.

Definition sample_config : Config :=
  {| allow_negative_rates := false;
     default_leverage := 2;
     delta_tolerance := 0.02;
     telegram_enabled := true |}.

Local Open Scope Q_scope.

(** ** Vocabulary of the properties *)

(** What the guards of [filter] let through. *)
Definition passes (cfg : Config) (self : PoolSelector.t) (pool : Pool.t) : Prop :=
  PoolSelector.min_volume self <= Pool.volume_24h pool
  /\ Pool.volume_24h pool <= PoolSelector.max_volume self
  /\ PoolSelector.min_depth self <= Pool.depth_05pct pool
  /\ PoolSelector.min_rate self <= Dec.abs (Pool.funding_rate pool)
  /\ Pool.spread pool <= PoolSelector.max_spread self
  /\ (Pool.base_currency pool ∉ PoolSelector.blacklist self)
  /\ (Pool.funding_rate pool < 0 -> allow_negative_rates cfg = true).

Section vocabulary.
Context {G : Type} `{ExchangeBase G} `{PyLib}.
Variable cfg : Config.

(** [Decimal(str(d)) == d], the round trip the [decimal] module
    guarantees. *)
Definition str_round_trips (d : Decimal) : Prop :=
  Decimal_of_str (Decimal_str d) = Ok d.

(** [datetime.fromisoformat(t.isoformat()) == t]; the text is never
    empty. *)
Definition iso_round_trips (t : datetime) : Prop :=
  isoformat t <> EmptyString /\ fromisoformat (isoformat t) = Ok t.

Definition serialisable (position : ArbitragePosition.t) : Prop :=
  str_round_trips (ArbitragePosition.spot_qty position)
  /\ str_round_trips (ArbitragePosition.spot_avg_price position)
  /\ str_round_trips (ArbitragePosition.spot_value position)
  /\ str_round_trips (ArbitragePosition.perp_qty position)
  /\ str_round_trips (ArbitragePosition.perp_avg_price position)
  /\ str_round_trips (ArbitragePosition.perp_value position)
  /\ str_round_trips (ArbitragePosition.funding_earned position)
  /\ from_option iso_round_trips True (ArbitragePosition.opened_at position).

(** A payment as the exchange adapter builds it: decimal amounts, and a
    timestamp that is a [datetime], the text [isoformat] gives for one
    ([get_funding_history] passes [ts_dt.isoformat()]), or no timestamp
    at all. *)
Definition exchange_payment (p : Payment.t) : Prop :=
  str_round_trips (Payment.income p)
  /\ str_round_trips (Payment.rate p)
  /\ str_round_trips (Payment.position_value p)
  /\ match Payment.timestamp p with
     | TsDatetime d => fromisoformat (isoformat d) = Ok d
     | TsStr s => exists d, s = isoformat d /\ fromisoformat (isoformat d) = Ok d
     | TsOther => True
     end.

(** The deduplication key of a payment, when it has a timestamp. *)
Definition payment_key (p : Payment.t) : option FundingTracker.key :=
  match Payment.timestamp p with
  | TsDatetime d =>
      Some (Payment.symbol p, isoformat d, Decimal_str (Payment.income p))
  | TsStr s => Some (Payment.symbol p, s, Decimal_str (Payment.income p))
  | TsOther => None
  end.

(** The row appended for a payment. *)
Definition payment_row (p : Payment.t) (ts_iso : string) : FundingRow.t :=
  FundingRow.mk (Payment.symbol p) (Decimal_str (Payment.rate p))
    (Decimal_str (Payment.position_value p)) (Decimal_str (Payment.income p))
    ts_iso.

(** The quantity and the answers of the gateway to the two opening
    orders, when [open_arbitrage] gets as far as sending them. *)
Definition open_legs (pool : Pool.t) (size_usdt : Decimal) (w : World G)
    : option (Decimal * outcome Order.t * outcome Order.t) :=
  match Dec.div size_usdt (Pool.price pool), helpers.format_usdt size_usdt 2 with
  | Ok qty, Ok _ =>
      match set_leverage (Pool.symbol pool) (default_leverage cfg) (gateway w) with
      | (Raise _, _) => None
      | (Ok _, g1) =>
          if Dec.ltb 0 (Pool.funding_rate pool) then
            let '(spot_order, g2) :=
              place_spot_order (Pool.base_currency pool +:+ "/USDT")%string BUY qty
                MARKET g1 in
            let '(perp_order, _) :=
              place_perp_order (Pool.symbol pool) SELL qty MARKET false g2 in
            Some (qty, spot_order, perp_order)
          else None
      end
  | _, _ => None
  end.

(** The position that records both fills. *)
Definition opened_position (pool : Pool.t) (spot_order perp_order : Order.t)
    (opened : datetime) : ArbitragePosition.t :=
  ArbitragePosition.mk (Pool.symbol pool) (Pool.base_currency pool)
    (Order.filled spot_order)
    (Order.price spot_order)
    (Dec.mul (Order.filled spot_order) (Order.price spot_order))
    (Dec.neg (Order.filled perp_order))
    (Order.price perp_order)
    (Dec.mul (Order.filled perp_order) (Order.price perp_order))
    0 (default_leverage cfg) (Some opened) 0 [spot_order; perp_order].

(** The three requests every opening sends. *)
Definition opening_requests (pool : Pool.t) (qty : Decimal) : list Request :=
  [SetLeverage (Pool.symbol pool) (default_leverage cfg);
   SpotOrder (Pool.base_currency pool +:+ "/USDT")%string BUY qty MARKET;
   PerpOrder (Pool.symbol pool) SELL qty MARKET false].

(** The answers of the gateway to the two closing orders. *)
Definition close_legs (symbol : string) (position : ArbitragePosition.t)
    (w : World G) : outcome Order.t * outcome Order.t :=
  let '(spot_order, g1) :=
    place_spot_order (ArbitragePosition.base_currency position +:+ "/USDT")%string
      SELL (ArbitragePosition.spot_qty position) MARKET (gateway w) in
  let '(perp_order, _) :=
    place_perp_order symbol BUY (Dec.abs (ArbitragePosition.perp_qty position))
      MARKET true g1 in
  (spot_order, perp_order).

(** The five amounts of the closing log line, in the order they are
    formatted. *)
Definition close_log_amounts (position : ArbitragePosition.t)
    (spot_order perp_order : Order.t) : list Decimal :=
  let closed :=
    ArbitragePosition.with_orders position
      (ArbitragePosition.orders position ++ [spot_order; perp_order]) in
  let spot_pnl :=
    Dec.mul (Dec.sub (Order.price spot_order)
               (ArbitragePosition.spot_avg_price position))
      (ArbitragePosition.spot_qty position) in
  let perp_pnl :=
    Dec.mul (Dec.sub (ArbitragePosition.perp_avg_price position)
               (Order.price perp_order))
      (Dec.abs (ArbitragePosition.perp_qty position)) in
  [spot_pnl; perp_pnl; ArbitragePosition.funding_earned position;
   ArbitragePosition.total_cost closed;
   Dec.sub (Dec.add (Dec.add spot_pnl perp_pnl)
              (ArbitragePosition.funding_earned position))
     (ArbitragePosition.total_cost closed)].

(** An amount [format_usdt] can show: below 10^26 in absolute value. *)
Definition formattable (amount : Decimal) : Prop :=
  Qabs amount < inject_Z (10 ^ 26).

(** spotPnL + perpPnL + fundingEarned - cumulativeFees, the fees of the
    two closing orders included. *)
Definition realized_pnl (position : ArbitragePosition.t)
    (spot_order perp_order : Order.t) : Decimal :=
  let spot_pnl :=
    Dec.mul (Dec.sub (Order.price spot_order)
               (ArbitragePosition.spot_avg_price position))
      (ArbitragePosition.spot_qty position) in
  let perp_pnl :=
    Dec.mul (Dec.sub (ArbitragePosition.perp_avg_price position)
               (Order.price perp_order))
      (Dec.abs (ArbitragePosition.perp_qty position)) in
  Dec.sub (Dec.add (Dec.add spot_pnl perp_pnl)
             (ArbitragePosition.funding_earned position))
    (ArbitragePosition.total_cost
       (ArbitragePosition.with_orders position
          (ArbitragePosition.orders position ++ [spot_order; perp_order]))).

(** The free spot balance covers 90% of the perp quantity. *)
Definition covered (spot_balances : gmap string Balance.t) (symbol : string)
    (p_data : PerpRow.t) : bool :=
  Dec.leb (Dec.mul (Dec.abs (PerpRow.positionAmt p_data)) 0.9)
    (AutoTrader.balance_free spot_balances (split_slash_0 symbol)).

(** What the loop of [sync_orphan_positions] leaves under a symbol. *)
Definition reconciled (spot_balances : gmap string Balance.t) (opened : datetime)
    (symbol : string) (tracked : option ArbitragePosition.t)
    (reported : option PerpRow.t) : option ArbitragePosition.t :=
  match tracked, reported with
  | Some position, _ => Some position
  | None, Some p_data =>
      if covered spot_balances symbol p_data
      then Some (AutoTrader.adopted_position symbol p_data opened)
      else None
  | None, None => None
  end.

Definition reconciled_file (spot_balances : gmap string Balance.t)
    (opened : datetime) (symbol : string) (stored : option PositionJson.t)
    (tracked : option ArbitragePosition.t) (reported : option PerpRow.t)
    : option PositionJson.t :=
  match tracked, reported with
  | None, Some p_data =>
      if covered spot_balances symbol p_data
      then Some (PositionStore.pos_dict
                   (AutoTrader.adopted_position symbol p_data opened))
      else stored
  | _, _ => stored
  end.

End vocabulary.

(** ** Scenarios *)

(** Scenario 1 of the specification: rate +0.006, depth 20000, spread
    0.001 against minimum depth 10000, maximum spread 0.005 and minimum
    rate 0.0003. *)
Definition scenario_selector : PoolSelector.t :=
  PoolSelector.mk 500000 5000000 10000 0.0003 0.005 {["LUNA"%string]}.

Definition scenario_pool : Pool.t :=
  Pool.mk "SOL/USDT:USDT" 0.006 0.006 50 1000000 20000 0.001 None None None.

(** The pool with its metrics: expected profit 15.2, one break-even
    period, score 1.92. *)
Definition scenario_scored : Pool.t :=
  Pool.mk "SOL/USDT:USDT" 0.006 0.006 50 1000000 20000 0.001
    (Some (76 # 5)) (Some (Periods 1)) (Some (48 # 25)).

(** A position opened with two orders that each paid a fee of 0.1. *)
Definition sample_orders : list Order.t :=
  [Order.mk "1" "SOL/USDT" BUY MARKET 50 2 2 0 "closed" 0%Z (Some 0.1) (Some "USDT"%string);
   Order.mk "2" "SOL/USDT:USDT" SELL MARKET 50 2 2 0 "closed" 0%Z (Some 0.1)
     (Some "USDT"%string)].

Definition sample_position : ArbitragePosition.t :=
  ArbitragePosition.mk "SOL/USDT:USDT" "SOL" 2 50 100 (-2) 50 100 0.3 2
    (Some 1700000000%Z) 3 sample_orders.

(** Three payments of the adapter; the second repeats the first. *)
Definition sample_payments : list Payment.t :=
  [Payment.mk (Some "SOL/USDT:USDT"%string) 0.12 0.0001 0 (TsStr "1700000000");
   Payment.mk (Some "SOL/USDT:USDT"%string) 0.12 0.0001 0 (TsStr "1700000000");
   Payment.mk (Some "SOL/USDT:USDT"%string) 0.12 0.0001 0 (TsDatetime 1700028800)].

(** Scenario 3 of the specification: reversal threshold 0.0001 and two
    watch periods; the position is delta neutral. *)
Definition scenario_risk_manager : RiskManager.t :=
  RiskManager.mk 0.5 0.35 0.25 2 0.0001 0.02 ∅.

Definition rate_of (r : Decimal) : FundingRate.t :=
  FundingRate.mk "SOL/USDT:USDT" r r 0 0.

(** The results of one [check] per observed rate, in order. *)
Fixpoint observe (self : RiskManager.t) (position : ArbitragePosition.t)
    (rates : list Decimal) : list (outcome RiskCheckResult) * RiskManager.t :=
  match rates with
  | [] => ([], self)
  | r :: rest =>
      let '(result, self) := RiskManager.check self position (Some (rate_of r)) None in
      let '(results, self) := observe self position rest in
      (result :: results, self)
  end.

(** The manager after it saw +0.004 and -0.0005. *)
Definition scenario_after_two : RiskManager.t :=
  snd (observe scenario_risk_manager sample_position [0.004; -0.0005]).

(** Scenario 2 of the specification: size 100 at price 50 gives the
    quantity 2; the spot buy fills 2 at 50 and the perp sell fails. *)
Definition perp_down_world : World PaperExchange.t :=
  PaperExchange.world (PaperExchange.mk false true 50 [] [] ∅).

Definition paper_world : World PaperExchange.t :=
  PaperExchange.world (PaperExchange.mk false false 50 [] [] ∅).

Definition paper_open (pool : Pool.t) (size_usdt : Decimal)
    (w : World PaperExchange.t)
    : outcome (option ArbitragePosition.t) * World PaperExchange.t :=
  @Executor.open_arbitrage _ PaperExchange.exchange SampleLib.lib sample_config
    pool size_usdt w.

(** A pool with the funding rate -0.001. *)
Definition negative_pool : Pool.t :=
  Pool.mk "SOL/USDT:USDT" (-0.001) (-0.001) 50 1000000 20000 0.001 None None None.

(** A world that tracks [sample_position], in memory and in the file. *)
Definition tracking_world (g : PaperExchange.t) : World PaperExchange.t :=
  mkWorld g [] {[ "SOL/USDT:USDT"%string := sample_position ]}
    (@PositionStore.save SampleLib.lib sample_position ∅) 0%Z [].

Definition paper_close (symbol : string) (w : World PaperExchange.t)
    : outcome (option Decimal) * World PaperExchange.t :=
  @Executor.close_arbitrage _ PaperExchange.exchange symbol w.

(** The symbol is tracked already and the perp market is down. *)
Definition tracking_perp_down_world : World PaperExchange.t :=
  tracking_world (PaperExchange.mk false true 50 [] [] ∅).



(** Scenario 4 of the specification: nothing is tracked, the exchange
    reports a perp short of 10 entered at 50, and 9.5 of the base asset
    are free on the spot account. *)
Definition orphan_exchange : PaperExchange.t :=
  PaperExchange.mk false false 50 []
    [PerpRow.mk "SOL/USDT:USDT" (-10) 50 2]
    {[ "SOL"%string := Balance.mk 9.5 9.5 ]}.

Definition paper_sync (w : World PaperExchange.t) : outcome unit * World PaperExchange.t :=
  @AutoTrader.sync_orphan_positions _ PaperExchange.exchange SampleLib.lib
    sample_config w.

(** Exactly one leg is left: the perp short of 2, and no spot balance. *)
Definition one_leg_exchange : PaperExchange.t :=
  PaperExchange.mk false false 50 [] [PerpRow.mk "SOL/USDT:USDT" (-2) 50 2] ∅.

Definition paper_verify (w : World PaperExchange.t)
    : outcome unit * World PaperExchange.t :=
  @AutoTrader.verify_and_fix_positions _ PaperExchange.exchange sample_config w.

(** ** Further code of the same files *)

(** Python slices [l[:stop]] and [l[start:]]; a negative index counts
    from the end of the list. *)
Definition slice_to {A} (stop : Z) (l : list A) : list A :=
  if (stop <? 0)%Z then take (length l - Z.to_nat (- stop)) l
  else take (Z.to_nat stop) l.

Definition slice_from {A} (start : Z) (l : list A) : list A :=
  if (start <? 0)%Z then drop (length l - Z.to_nat (- start)) l
  else drop (Z.to_nat start) l.

(** *** src/exchange/base.py: market data *)

Module Ticker.
Record t := mk {
  symbol : string;
  last_price : Decimal;
  volume_24h : Decimal;
  high_24h : Decimal;
  low_24h : Decimal;
  timestamp : datetime;
}.
End Ticker.

Module OrderBook.
Record t := mk {
  symbol : string;
  bids : list (Decimal * Decimal);      (* (price, quantity) *)
  asks : list (Decimal * Decimal);
  timestamp : datetime;
}.

Definition best_bid (self : t) : Decimal :=
  match bids self with
  | [] => 0
  | level :: _ => fst level
  end.

Definition best_ask (self : t) : Decimal :=
  match asks self with
  | [] => 0
  | level :: _ => fst level
  end.

Definition spread (self : t) : outcome Decimal :=
  match bids self, asks self with
  | [], _ => Ok 0
  | _, [] => Ok 0
  | _, _ => Dec.div (Dec.sub (best_ask self) (best_bid self)) (best_bid self)
  end.

(** [sum(price * qty for price, qty in levels if keep(price))]; the sum
    starts from the integer 0. *)
Definition depth_sum (keep : Decimal -> bool) (levels : list (Decimal * Decimal))
    : Decimal :=
  fold_left (fun acc level =>
               if keep (fst level) then Dec.add acc (Dec.mul (fst level) (snd level))
               else acc)
    levels 0.

Definition depth_at_pct (self : t) (pct : Decimal) : outcome Decimal :=
  mid_price ← Dec.div (Dec.add (best_bid self) (best_ask self)) 2;
  let lower_bound := Dec.mul mid_price (Dec.sub 1 pct) in
  let upper_bound := Dec.mul mid_price (Dec.add 1 pct) in
  let bid_depth := depth_sum (fun price => Dec.leb lower_bound price) (bids self) in
  let ask_depth := depth_sum (fun price => Dec.leb price upper_bound) (asks self) in
  Ok (Dec.add bid_depth ask_depth).
End OrderBook.

Module exchange_base.
(** [ExchangeBase.spot_symbol] and [ExchangeBase.perp_symbol] *)
Definition spot_symbol (base quote : string) : string :=
  (base +:+ "/" +:+ quote)%string.

Definition perp_symbol (base quote : string) : string :=
  (base +:+ "/" +:+ quote +:+ ":USDT")%string.
End exchange_base.

(** *** src/strategy/selector.py: [Pool.from_data] and [top_n] *)

Module selector.
Definition from_data (rate : FundingRate.t) (ticker : Ticker.t)
    (orderbook : OrderBook.t) : outcome Pool.t :=
  depth_05pct ← OrderBook.depth_at_pct orderbook 0.005;
  spread ← OrderBook.spread orderbook;
  Ok (Pool.mk (FundingRate.symbol rate) (FundingRate.rate rate)
        (FundingRate.predicted_rate rate) (Ticker.last_price ticker)
        (Ticker.volume_24h ticker) depth_05pct spread None None None).

Definition top_n (cfg : Config) (self : PoolSelector.t) (pools : list Pool.t)
    (n : Z) : outcome (list Pool.t) :=
  filtered ← PoolSelector.filter cfg self pools;
  Ok (slice_to n filtered).
End selector.

(** *** src/strategy/executor.py: [is_delta_neutral], [__init__] and
    [rebalance] *)

Module executor.
Section executor.
Context {G : Type} `{ExchangeBase G} `{PyLib}.
Variable cfg : Config.

Definition is_delta_neutral (self : ArbitragePosition.t) : outcome bool :=
  d ← ArbitragePosition.delta self;
  Ok (Dec.ltb (Dec.abs d) (delta_tolerance cfg)).

(** [Executor(exchange, load_positions)]: the map starts empty and is
    replaced by the content of the position file. *)
Definition __init__ (load_positions : bool) : M G unit :=
  fun w => (Ok tt,
            with_positions w
              (if load_positions then PositionStore.load_all (position_file w)
               else ∅)).

(** The position after [position.orders.append(order)] and
    [position.spot_qty += ...]. *)
Definition rebalanced (position : ArbitragePosition.t) (order : Order.t)
    (adjust_qty : Decimal) : ArbitragePosition.t :=
  ArbitragePosition.mk (ArbitragePosition.symbol position)
    (ArbitragePosition.base_currency position)
    (Dec.add (ArbitragePosition.spot_qty position)
       (if Dec.ltb 0 adjust_qty then adjust_qty else Dec.neg (Dec.abs adjust_qty)))
    (ArbitragePosition.spot_avg_price position)
    (ArbitragePosition.spot_value position)
    (ArbitragePosition.perp_qty position)
    (ArbitragePosition.perp_avg_price position)
    (ArbitragePosition.perp_value position)
    (ArbitragePosition.funding_earned position)
    (ArbitragePosition.leverage position)
    (ArbitragePosition.opened_at position)
    (ArbitragePosition.funding_periods position)
    (ArbitragePosition.orders position ++ [order]).

Definition rebalance (symbol : string) : M G bool :=
  let* ps := get_positions in
  match ps !! symbol with
  | None => ret false
  | Some position =>
      let* neutral := lift (is_delta_neutral position) in
      if neutral then ret true
      else
        let target_qty := Dec.abs (ArbitragePosition.perp_qty position) in
        let current_spot := ArbitragePosition.spot_qty position in
        let adjust_qty := Dec.sub target_qty current_spot in
        let spot_symbol :=
          (ArbitragePosition.base_currency position +:+ "/USDT")%string in
        try_except
          (let* order :=
             if Dec.ltb 0 adjust_qty then
               call_place_spot_order spot_symbol BUY adjust_qty MARKET
             else
               call_place_spot_order spot_symbol SELL (Dec.abs adjust_qty) MARKET in
           (* the two updates change the object the map holds *)
           let position := rebalanced position order adjust_qty in
           let* _ := set_position symbol position in
           (* the closing log line formats position.delta *)
           let* _ := lift (ArbitragePosition.delta position) in
           ret true)
          (fun _ => ret false)
  end.
End executor.
End executor.

(** *** src/core/position_store.py: [save_all] and
    [update_funding_income] *)

Module position_store.
Section store.
Context `{PyLib}.

Definition save_all (positions : gmap string ArbitragePosition.t)
    (file : gmap string PositionJson.t) : gmap string PositionJson.t :=
  fold_left (fun file position => PositionStore.save position file)
    (map_to_list positions).*2 file.

(** The entry with the two fields [update_funding_income] assigns. *)
Definition with_funding (data : PositionJson.t) (funding_earned : string)
    (funding_periods : Z) : PositionJson.t :=
  PositionJson.mk (PositionJson.symbol data) (PositionJson.base_currency data)
    (PositionJson.spot_qty data) (PositionJson.spot_avg_price data)
    (PositionJson.spot_value data) (PositionJson.perp_qty data)
    (PositionJson.perp_avg_price data) (PositionJson.perp_value data)
    funding_earned (PositionJson.leverage data) (PositionJson.opened_at data)
    (Some funding_periods).

Definition update_funding_income (symbol : string) (income : Decimal)
    (file : gmap string PositionJson.t)
    : outcome bool * gmap string PositionJson.t :=
  match file !! symbol with
  | None => (Ok false, file)
  | Some data =>
      match Decimal_of_str (PositionJson.funding_earned data) with
      | Raise e => (Raise e, file)
      | Ok current =>
          (Ok true,
           <[symbol := with_funding data (Decimal_str (Dec.add current income))
                         (default 0%Z (PositionJson.funding_periods data) + 1)]>
             file)
      end
  end.
End store.
End position_store.

(** *** src/core/funding_tracker.py: records and queries *)

Module FundingRecord.
Record t := mk {
  symbol : option string;
  rate : Decimal;
  position_value : Decimal;
  income : Decimal;
  timestamp : datetime;
}.
End FundingRecord.

Module funding_tracker.
Section tracker.
Context `{PyLib}.

Definition to_dict (self : FundingRecord.t) : FundingRow.t :=
  FundingRow.mk (FundingRecord.symbol self)
    (Decimal_str (FundingRecord.rate self))
    (Decimal_str (FundingRecord.position_value self))
    (Decimal_str (FundingRecord.income self))
    (isoformat (FundingRecord.timestamp self)).

Definition from_dict (data : FundingRow.t) : outcome FundingRecord.t :=
  rate ← Decimal_of_str (FundingRow.rate data);
  position_value ← Decimal_of_str (FundingRow.position_value data);
  income ← Decimal_of_str (FundingRow.income data);
  timestamp ← fromisoformat (FundingRow.timestamp data);
  Ok (FundingRecord.mk (FundingRow.symbol data) rate position_value income timestamp).

(** The record returned and the ledger file afterwards; [now] is the
    value of [datetime.now()]. *)
Definition record_funding (symbol : string) (rate position_value : Decimal)
    (now : datetime) (ledger : list FundingRow.t)
    : FundingRecord.t * list FundingRow.t :=
  let income := Dec.mul position_value (Dec.abs rate) in
  let record := FundingRecord.mk (Some symbol) rate position_value income now in
  (record, ledger ++ [to_dict record]).

(** [symbol is None or r["symbol"] == symbol] *)
Definition selects (symbol : option string) (r : FundingRow.t) : bool :=
  match symbol with
  | None => true
  | Some s => bool_decide (FundingRow.symbol r = Some s)
  end.

(** The loop of [get_total_income], from the running [total]. *)
Fixpoint total_loop (symbol : option string) (total : Decimal)
    (records : list FundingRow.t) : outcome Decimal :=
  match records with
  | [] => Ok total
  | r :: rest =>
      if selects symbol r then
        income ← Decimal_of_str (FundingRow.income r);
        total_loop symbol (Dec.add total income) rest
      else total_loop symbol total rest
  end.

Definition get_total_income (symbol : option string) (ledger : list FundingRow.t)
    : outcome Decimal :=
  total_loop symbol 0 ledger.

Definition get_records_by_symbol (symbol : string) (ledger : list FundingRow.t)
    : outcome (list FundingRecord.t) :=
  mapM from_dict
    (List.filter (fun r => bool_decide (FundingRow.symbol r = Some symbol)) ledger).

Definition get_recent_records (limit : Z) (ledger : list FundingRow.t)
    : outcome (list FundingRecord.t) :=
  mapM from_dict (slice_from (- limit) ledger).
End tracker.
End funding_tracker.

(** *** Vocabulary of the further properties *)

(** The order [filter] returns: the sort key does not increase. *)
Definition by_score_desc (a b : Pool.t) : Prop :=
  PoolSelector.sort_key b <= PoolSelector.sort_key a.

(** The pools whose sort key equals [k], in the order of the list. *)
Definition with_score (k : Decimal) (l : list Pool.t) : list Pool.t :=
  List.filter (fun p => Dec.eqb (PoolSelector.sort_key p) k) l.

Fixpoint has_slash (s : string) : bool :=
  match s with
  | EmptyString => false
  | String c rest => Ascii.eqb c "/"%char || has_slash rest
  end.

(** The order [rebalance] sends for a position: buy the missing spot
    quantity, or sell the surplus. *)
Definition rebalance_order (position : ArbitragePosition.t) : Request :=
  let adjust_qty :=
    Dec.sub (Dec.abs (ArbitragePosition.perp_qty position))
      (ArbitragePosition.spot_qty position) in
  SpotOrder (ArbitragePosition.base_currency position +:+ "/USDT")%string
    (if Dec.ltb 0 adjust_qty then BUY else SELL)
    (if Dec.ltb 0 adjust_qty then adjust_qty else Dec.abs adjust_qty)
    MARKET.

(** A position read back from the file after one more settlement of
    [income] was credited to it. *)
Definition credited (position : ArbitragePosition.t) (income : Decimal)
    : ArbitragePosition.t :=
  ArbitragePosition.mk (ArbitragePosition.symbol position)
    (ArbitragePosition.base_currency position)
    (ArbitragePosition.spot_qty position)
    (ArbitragePosition.spot_avg_price position)
    (ArbitragePosition.spot_value position)
    (ArbitragePosition.perp_qty position)
    (ArbitragePosition.perp_avg_price position)
    (ArbitragePosition.perp_value position)
    (Dec.add (ArbitragePosition.funding_earned position) income)
    (ArbitragePosition.leverage position)
    (ArbitragePosition.opened_at position)
    (ArbitragePosition.funding_periods position + 1)
    [].

(** The incomes of the records, added to [total] in the order of the
    list. *)
Definition income_sum (total : Decimal) (records : list FundingRecord.t) : Decimal :=
  fold_left (fun acc r => Dec.add acc (FundingRecord.income r)) records total.

(** The five grades of a risk check, by action and severity. *)
Definition graded (r : RiskCheckResult) : Prop :=
  (action r = HOLD /\ severity r = 0%Z)
  \/ (action r = REBALANCE /\ severity r = 6%Z)
  \/ (action r = CLOSE /\ severity r = 7%Z)
  \/ (action r = REDUCE /\ severity r = 8%Z)
  \/ (action r = CLOSE /\ severity r = 10%Z).

(** The perp amount the exchange reports for a symbol, 0 without a row. *)
Definition reported_amt (perp_map : gmap string PerpRow.t) (symbol : string)
    : Decimal :=
  match perp_map !! symbol with
  | Some perp_data => PerpRow.positionAmt perp_data
  | None => 0
  end.

(** *** Instances for the examples *)

(** A book with bids at 49.9 and 49 and asks at 50.1 and 51. *)
Definition sample_book : OrderBook.t :=
  OrderBook.mk "SOL/USDT:USDT" [(49.9, 100); (49, 300)] [(50.1, 80); (51, 500)] 0%Z.

Definition sample_ticker : Ticker.t :=
  Ticker.mk "SOL/USDT:USDT" 50 1000000 52 48 0%Z.

(** A second pool that passes the guards of [scenario_selector], with
    half the rate of [scenario_pool]; its score is 0.96. *)
Definition lower_pool : Pool.t :=
  Pool.mk "ETH/USDT:USDT" 0.003 0.003 2000 1000000 20000 0.001 None None None.

Definition lower_scored : Pool.t :=
  Pool.mk "ETH/USDT:USDT" 0.003 0.003 2000 1000000 20000 0.001
    (Some (31 # 5)) (Some (Periods 1)) (Some (24 # 25)).

Definition ranking_pools : list Pool.t := [lower_pool; scenario_pool].

Definition scenario_ranking : list Pool.t := [scenario_scored; lower_scored].

(** [scenario_selector] with the minimum depth set to 0 and an empty
    blacklist. *)
Definition zero_depth_selector : PoolSelector.t :=
  PoolSelector.mk 500000 5000000 0 0.0003 0.005 ∅.

(** [scenario_pool] with the price 0. *)
Definition unpriced_pool : Pool.t :=
  Pool.mk "SOL/USDT:USDT" 0.006 0.006 0 1000000 20000 0.001 None None None.

(** [sample_position] after the spot leg lost a fifth of its quantity:
    the delta is -0.25. *)
Definition drifted_position : ArbitragePosition.t :=
  ArbitragePosition.mk "SOL/USDT:USDT" "SOL" 1.6 50 80 (-2) 50 100 0.3 2
    (Some 1700000000%Z) 3 sample_orders.

Definition drifted_world (g : PaperExchange.t) : World PaperExchange.t :=
  mkWorld g [] {[ "SOL/USDT:USDT"%string := drifted_position ]}
    (@PositionStore.save SampleLib.lib sample_position ∅) 0%Z [].

Definition paper_rebalance (symbol : string) (w : World PaperExchange.t)
    : outcome bool * World PaperExchange.t :=
  @executor.rebalance _ PaperExchange.exchange sample_config symbol w.

Definition paper_restart (w : World PaperExchange.t)
    : outcome unit * World PaperExchange.t :=
  @executor.__init__ _ SampleLib.lib true w.

(** Two ledger rows for SOL and one for another symbol. *)
Definition sample_ledger : list FundingRow.t :=
  [FundingRow.mk (Some "SOL/USDT:USDT"%string) "1/10000" "100/1" "1/100" "1700000000";
   FundingRow.mk (Some "ETH/USDT:USDT"%string) "2/10000" "100/1" "2/100" "1700000000";
   FundingRow.mk (Some "SOL/USDT:USDT"%string) "1/10000" "100/1" "1/100" "1700028800"].

(** The records of the two SOL rows, and of the last two rows. *)
Definition sample_sol_records : list FundingRecord.t :=
  [FundingRecord.mk (Some "SOL/USDT:USDT"%string) (1 # 10000) (100 # 1) (1 # 100)
     1700000000%Z;
   FundingRecord.mk (Some "SOL/USDT:USDT"%string) (1 # 10000) (100 # 1) (1 # 100)
     1700028800%Z].

Definition sample_recent_records : list FundingRecord.t :=
  [FundingRecord.mk (Some "ETH/USDT:USDT"%string) (2 # 10000) (100 # 1) (2 # 100)
     1700000000%Z;
   FundingRecord.mk (Some "SOL/USDT:USDT"%string) (1 # 10000) (100 # 1) (1 # 100)
     1700028800%Z].

(** * Properties *)

(** Decimal arithmetic is evaluated on concrete inputs only. *)
Arguments Dec.add : simpl never.
Arguments Dec.sub : simpl never.
Arguments Dec.mul : simpl never.
Arguments Dec.neg : simpl never.
Arguments Dec.abs : simpl never.
Arguments Dec.div : simpl never.
Arguments Dec.ltb : simpl never.
Arguments Dec.leb : simpl never.
Arguments Dec.eqb : simpl never.
Arguments ArbitragePosition.total_cost : simpl never.
Arguments helpers.format_usdt : simpl never.
Arguments helpers.quantize_down : simpl never.

(** ** Outcomes *)

Lemma bind_Ok {A B} (r : outcome A) (k : A -> outcome B) (b : B) :
  r ≫= k = Ok b -> exists a, r = Ok a /\ k a = Ok b.
Proof. destruct r as [a|e]; simpl; [eauto | discriminate]. Qed.

Ltac outcome_inv :=
  repeat match goal with
         | H : _ ≫= _ = Ok _ |- _ =>
             let a := fresh "a" in
             let Ha := fresh "Ha" in
             apply bind_Ok in H; destruct H as (a & Ha & H)
         | H : Ok _ = Ok _ |- _ => simplify_eq
         end.

(** ** Decimal division and zero *)

Lemma div_by_zero (a b : Decimal) : b == 0 -> exists e, Dec.div a b = Raise e.
Proof.
  intros Hb. apply Qeq_bool_iff in Hb. unfold Dec.div. rewrite Hb.
  destruct (Qeq_bool a 0); eauto.
Qed.

Lemma div_Ok_nonzero (a b c : Decimal) : Dec.div a b = Ok c -> ~ b == 0.
Proof.
  intros Hd Hb. destruct (div_by_zero a b Hb) as [e He]. congruence.
Qed.

Lemma div_nonzero (a b : Decimal) : ~ b == 0 -> Dec.div a b = Ok (Dec.ctx (a / b)).
Proof.
  intros Hb. unfold Dec.div.
  destruct (Qeq_bool b 0) eqn:E; [|done]. by apply Qeq_bool_iff in E.
Qed.

Lemma ctx_zero (x : Q) : x == 0 -> Dec.ctx x = 0.
Proof.
  intros Hx. apply Qeq_bool_iff in Hx. unfold Dec.ctx, Dec.round_sig. by rewrite Hx.
Qed.

Lemma dec_abs_opp (x : Decimal) : Dec.abs (- x) = Dec.abs x.
Proof.
  unfold Dec.abs. f_equal. destruct x as [n d]. unfold Qabs, Qopp. simpl.
  by rewrite Z.abs_opp.
Qed.

(** ** Decimal rounding keeps a value away from zero *)

Lemma digits_fuel_pos fuel n : (1 <= Dec.digits_fuel fuel n)%Z.
Proof.
  revert n. induction fuel as [|k IH]; intros n; simpl; [lia|].
  destruct (n <? 10)%Z; [lia|]. specialize (IH (n / 10)%Z). lia.
Qed.

Lemma digits_fuel_lower fuel n :
  (1 <= n)%Z -> (10 ^ (Dec.digits_fuel fuel n - 1) <= n)%Z.
Proof.
  revert n. induction fuel as [|k IH]; intros n Hn; simpl.
  - change (10 ^ (1 - 1))%Z with 1%Z. lia.
  - destruct (Z.ltb_spec n 10) as [Hlt|Hge].
    + change (10 ^ (1 - 1))%Z with 1%Z. lia.
    + assert (Hq : (1 <= n / 10)%Z) by (apply Z.div_le_lower_bound; lia).
      specialize (IH _ Hq).
      pose proof (digits_fuel_pos k (n / 10)) as Hd.
      replace (1 + Dec.digits_fuel k (n / 10) - 1)%Z
        with (Z.succ (Dec.digits_fuel k (n / 10) - 1)) by lia.
      rewrite Z.pow_succ_r by lia.
      pose proof (Z.mul_div_le n 10 ltac:(lia)). lia.
Qed.

Lemma digits_fuel_upper fuel n :
  (1 <= n < 2 ^ (Z.of_nat fuel + 1))%Z -> (n < 10 ^ Dec.digits_fuel fuel n)%Z.
Proof.
  revert n. induction fuel as [|k IH]; intros n Hn.
  - simpl in *. lia.
  - cbn [Dec.digits_fuel].
    destruct (Z.ltb_spec n 10) as [Hlt|Hge]; [simpl; lia|].
    assert (Hq : (1 <= n / 10 < 2 ^ (Z.of_nat k + 1))%Z).
    { split; [apply Z.div_le_lower_bound; lia|].
      apply Z.div_lt_upper_bound; [lia|].
      replace (Z.of_nat (S k) + 1)%Z with (Z.succ (Z.of_nat k + 1)) in Hn by lia.
      rewrite Z.pow_succ_r in Hn by lia.
      assert (0 < 2 ^ (Z.of_nat k + 1))%Z by (apply Z.pow_pos_nonneg; lia). lia. }
    specialize (IH _ Hq).
    pose proof (digits_fuel_pos k (n / 10)) as Hd.
    replace (1 + Dec.digits_fuel k (n / 10))%Z
      with (Z.succ (Dec.digits_fuel k (n / 10))) by lia.
    rewrite Z.pow_succ_r by lia.
    pose proof (Z.div_mod n 10 ltac:(lia)).
    pose proof (Z.mod_pos_bound n 10 ltac:(lia)). lia.
Qed.

Lemma digits10_lower n : (1 <= n)%Z -> (10 ^ (Dec.digits10 n - 1) <= n)%Z.
Proof. apply digits_fuel_lower. Qed.

Lemma digits10_upper n : (1 <= n)%Z -> (n < 10 ^ Dec.digits10 n)%Z.
Proof.
  intros Hn. apply digits_fuel_upper. split; [done|].
  rewrite Z2Nat.id by apply Z.log2_nonneg.
  replace (Z.log2 n + 1)%Z with (Z.succ (Z.log2 n)) by lia.
  apply Z.log2_spec. lia.
Qed.

Lemma pow10_pos e : 0 < Dec.pow10 e.
Proof. apply Qpower_0_lt. reflexivity. Qed.

Lemma pow10_le e1 e2 : (e1 <= e2)%Z -> Dec.pow10 e1 <= Dec.pow10 e2.
Proof. intros. apply Qpower_le_compat_l; [done|]. discriminate. Qed.

(** The adjusted exponent is not above the value. *)
Lemma adjusted_lower x : ~ x == 0 -> Dec.pow10 (Dec.adjusted x - 1) <= Qabs x.
Proof.
  intros Hx. unfold Dec.adjusted.
  set (dn := Dec.digits10 (Z.abs (Qnum x))).
  set (dd := Dec.digits10 (Z.pos (Qden x))).
  destruct (Qle_bool (Dec.pow10 (dn - dd)) (Qabs x)) eqn:E.
  - apply Qle_bool_iff in E.
    eapply Qle_trans; [|exact E]. apply pow10_le. lia.
  - assert (Hn : (1 <= Z.abs (Qnum x))%Z).
    { destruct x as [n d]. unfold Qeq in Hx. simpl in *. lia. }
    pose proof (digits10_lower _ Hn) as Hlo. fold dn in Hlo.
    pose proof (digits10_upper (Z.pos (Qden x)) ltac:(lia)) as Hup. fold dd in Hup.
    assert (Hdn : (1 <= dn)%Z) by apply digits_fuel_pos.
    assert (Hdd : (1 <= dd)%Z) by apply digits_fuel_pos.
    eapply Qle_trans; [apply (pow10_le _ (dn - 1 - dd)); lia|].
    unfold Dec.pow10. rewrite Qpower_minus by discriminate.
    rewrite <- !(Zpower_Qpower 10) by lia.
    destruct x as [n d]. simpl in *.
    apply Qle_shift_div_r.
    { apply (Qlt_le_trans _ (inject_Z (Z.pos d))); [reflexivity|].
      rewrite <- Zle_Qle. lia. }
    unfold Qabs. unfold Qle, Qmult. simpl.
    rewrite Pos.mul_1_r, Z.mul_1_r.
    apply Z.mul_le_mono_nonneg; try lia.
Qed.

Lemma round_half_even_ge x : (Qfloor x <= Dec.round_half_even x)%Z.
Proof.
  unfold Dec.round_half_even.
  destruct (Qcompare _ _); [destruct (Z.even _)|..]; lia.
Qed.

(** Rounding to significant digits gives zero for zero only. *)
Lemma ctx_nonzero x : ~ x == 0 -> ~ Dec.ctx x == 0.
Proof.
  intros Hx. unfold Dec.ctx, Dec.round_sig.
  destruct (Qeq_bool x 0) eqn:E; [by apply Qeq_bool_iff in E|].
  set (e := (Dec.adjusted x - (Dec.prec - 1))%Z).
  rewrite Qred_correct.
  assert (He : 1 <= Qabs x / Dec.pow10 e).
  { apply Qle_shift_div_l; [apply pow10_pos|]. rewrite Qmult_1_l.
    eapply Qle_trans; [|apply adjusted_lower; exact Hx].
    apply pow10_le. unfold e, Dec.prec. lia. }
  assert (Hr : (1 <= Dec.round_half_even (Qabs x / Dec.pow10 e))%Z).
  { etrans; [|apply round_half_even_ge].
    change 1%Z with (Qfloor 1). by apply Qfloor_resp_le. }
  intros H0.
  apply Qmult_integral in H0 as [H0|H0].
  - apply Qmult_integral in H0 as [H0|H0].
    + unfold Dec.sign_of in H0. by destruct (Qle_bool 0 x).
    + unfold Qeq in H0. simpl in H0. lia.
  - pose proof (pow10_pos e) as Hp. rewrite H0 in Hp. by apply Qlt_irrefl in Hp.
Qed.

Lemma ctx_eq_zero x : Dec.ctx x == 0 <-> x == 0.
Proof.
  split.
  - intros H0. destruct (Qeq_dec x 0) as [|Hx]; [done|]. by apply ctx_nonzero in Hx.
  - intros Hx. unfold Dec.ctx, Dec.round_sig.
    apply Qeq_bool_iff in Hx. by rewrite Hx.
Qed.

(** ** Break-even periods (helpers.py) *)

Example breakeven_0001 :
  helpers.breakeven_periods 0.0001 0.001 0.0004 = Ok (Periods 28).
Proof. vm_compute. reflexivity. Qed.

Lemma breakeven_periods_zero_rate (spot_fee perp_fee : Decimal) :
  helpers.breakeven_periods 0 spot_fee perp_fee = Ok PeriodsInf.
Proof. reflexivity. Qed.

(** C9.  For a rate of 0.0009333333333333333 the exact quotient
    2*(spot_fee+perp_fee)/|rate| is a little above 3 and its ceiling is 4;
    [breakeven_periods] converts the quotient to a binary float, which is
    exactly 3.0, and returns 3.  Three periods at that rate do not cover
    the round-trip fee rate 0.0028. *)
Theorem breakeven_periods_rounds_down :
  helpers.breakeven_periods 0.0009333333333333333
    helpers.default_spot_fee helpers.default_perp_fee = Ok (Periods 3)
  /\ Qceiling (2 * (helpers.default_spot_fee + helpers.default_perp_fee)
               / Qabs 0.0009333333333333333) = 4%Z
  /\ 3 * Qabs 0.0009333333333333333
     < 2 * (helpers.default_spot_fee + helpers.default_perp_fee).
Proof. repeat split; vm_compute; reflexivity. Qed.

(** ** Pool selection (selector.py) *)

Lemma calc_metrics_fields (self : PoolSelector.t) (pool pool' : Pool.t) :
  PoolSelector._calc_metrics self pool = Ok pool' ->
  Pool.symbol pool' = Pool.symbol pool
  /\ Pool.funding_rate pool' = Pool.funding_rate pool
  /\ Pool.volume_24h pool' = Pool.volume_24h pool
  /\ Pool.depth_05pct pool' = Pool.depth_05pct pool
  /\ Pool.spread pool' = Pool.spread pool.
Proof.
  unfold PoolSelector._calc_metrics. intros Hm.
  outcome_inv. simpl. auto.
Qed.

Lemma passes_calc_metrics cfg self pool pool' :
  PoolSelector._calc_metrics self pool = Ok pool' ->
  passes cfg self pool -> passes cfg self pool'.
Proof.
  intros Hm. apply calc_metrics_fields in Hm as (Hs & Hr & Hv & Hd & Hp).
  unfold passes, Pool.base_currency. rewrite Hs, Hr, Hv, Hd, Hp. auto.
Qed.

Lemma ltb_false_le (a b : Decimal) : Dec.ltb a b = false -> b <= a.
Proof.
  unfold Dec.ltb. intros Hl. apply negb_false_iff in Hl. by apply Qle_bool_iff.
Qed.

Lemma ltb_true_lt (a b : Decimal) : Dec.ltb a b = true <-> a < b.
Proof.
  unfold Dec.ltb. rewrite negb_true_iff. split.
  - intros Hl. apply Qnot_le_lt. intros Hle. apply Qle_bool_iff in Hle. congruence.
  - intros Hlt. destruct (Qle_bool b a) eqn:E; [|done].
    apply Qle_bool_iff in E. exfalso. eapply Qlt_not_le; eauto.
Qed.

Lemma filter_loop_passes cfg self pools candidates result :
  Forall (passes cfg self) candidates ->
  PoolSelector.filter_loop cfg self pools candidates = Ok result ->
  Forall (passes cfg self) result.
Proof.
  revert candidates. induction pools as [|pool rest IH]; intros candidates Hc Hl.
  - simpl in Hl. by injection Hl as <-.
  - simpl in Hl.
    case_bool_decide as Hbl; [eauto|].
    destruct (negb (allow_negative_rates cfg) && Dec.ltb (Pool.funding_rate pool) 0)
      eqn:Hneg; [eauto|].
    destruct (Dec.leb (PoolSelector.min_volume self) (Pool.volume_24h pool)
              && Dec.leb (Pool.volume_24h pool) (PoolSelector.max_volume self))
      eqn:Hvol; simpl in Hl; [|eauto].
    destruct (Dec.ltb (Pool.depth_05pct pool) (PoolSelector.min_depth self))
      eqn:Hdepth; [eauto|].
    destruct (Dec.ltb (Dec.abs (Pool.funding_rate pool)) (PoolSelector.min_rate self))
      eqn:Hrate; [eauto|].
    destruct (Dec.ltb (PoolSelector.max_spread self) (Pool.spread pool))
      eqn:Hspread; [eauto|].
    apply bind_Ok in Hl as (pool' & Hm & Hl).
    eapply IH; [|exact Hl].
    apply Forall_app. split; [done|]. apply Forall_singleton.
    eapply passes_calc_metrics; [exact Hm|].
    apply andb_true_iff in Hvol as [Hv1 Hv2].
    unfold passes. repeat split.
    + by apply Qle_bool_iff.
    + by apply Qle_bool_iff.
    + by apply ltb_false_le.
    + by apply ltb_false_le.
    + by apply ltb_false_le.
    + done.
    + intros Hlt. apply ltb_true_lt in Hlt.
      rewrite Hlt, andb_true_r in Hneg. by apply negb_false_iff in Hneg.
Qed.

Lemma elem_of_insert_desc (x y : Pool.t) (l : list Pool.t) :
  x ∈ PoolSelector.insert_desc y l <-> x = y \/ x ∈ l.
Proof.
  induction l as [|z l IH]; simpl.
  - rewrite list_elem_of_singleton, elem_of_nil. tauto.
  - destruct (Dec.ltb _ _); rewrite !elem_of_cons; [rewrite IH|]; tauto.
Qed.

Lemma elem_of_sort_desc (x : Pool.t) (l : list Pool.t) :
  x ∈ PoolSelector.sort_desc l <-> x ∈ l.
Proof.
  induction l as [|y l IH]; simpl; [done|].
  rewrite elem_of_insert_desc, elem_of_cons, IH. tauto.
Qed.

(** C3.  Every pool in the list [filter] returns lies in the volume
    window, has at least the minimum depth and the minimum absolute rate
    (the absolute value as [abs] computes it on a Decimal), at most the
    maximum spread, a base currency outside the blacklist, and a negative
    rate only when negative rates are allowed. *)
Theorem filter_returns_passing_pools (cfg : Config) (self : PoolSelector.t)
    (pools result : list Pool.t) (pool : Pool.t) :
  PoolSelector.filter cfg self pools = Ok result ->
  pool ∈ result ->
  PoolSelector.min_volume self <= Pool.volume_24h pool
  /\ Pool.volume_24h pool <= PoolSelector.max_volume self
  /\ PoolSelector.min_depth self <= Pool.depth_05pct pool
  /\ PoolSelector.min_rate self <= Dec.abs (Pool.funding_rate pool)
  /\ Pool.spread pool <= PoolSelector.max_spread self
  /\ (Pool.base_currency pool ∉ PoolSelector.blacklist self)
  /\ (Pool.funding_rate pool < 0 -> allow_negative_rates cfg = true).
Proof.
  unfold PoolSelector.filter. intros Hf Hin.
  apply bind_Ok in Hf as (candidates & Hl & Hf). injection Hf as <-.
  rewrite elem_of_sort_desc in Hin.
  apply filter_loop_passes in Hl; [|constructor].
  rewrite Forall_forall in Hl. exact (Hl pool Hin).
Qed.

Example scenario_pool_passes :
  PoolSelector.filter sample_config scenario_selector [scenario_pool]
  = Ok [scenario_scored].
Proof. vm_compute. reflexivity. Qed.

Lemma filter_returns_passing_pools_witness :
  PoolSelector.min_volume scenario_selector <= Pool.volume_24h scenario_scored
  /\ Pool.volume_24h scenario_scored <= PoolSelector.max_volume scenario_selector
  /\ PoolSelector.min_depth scenario_selector <= Pool.depth_05pct scenario_scored
  /\ PoolSelector.min_rate scenario_selector
     <= Dec.abs (Pool.funding_rate scenario_scored)
  /\ Pool.spread scenario_scored <= PoolSelector.max_spread scenario_selector
  /\ (Pool.base_currency scenario_scored ∉ PoolSelector.blacklist scenario_selector)
  /\ (Pool.funding_rate scenario_scored < 0
      -> allow_negative_rates sample_config = true).
Proof.
  apply (filter_returns_passing_pools sample_config scenario_selector
           [scenario_pool] [scenario_scored] scenario_scored scenario_pool_passes).
  apply list_elem_of_singleton. reflexivity.
Defined.

(** ** Persistence (position_store.py, funding_tracker.py) *)

Section persistence.
Context `{PyLib}.

Lemma from_dict_pos_dict (position : ArbitragePosition.t) :
  serialisable position ->
  PositionStore.from_dict (PositionStore.pos_dict position)
  = Ok (ArbitragePosition.with_orders position []).
Proof.
  intros (H1 & H2 & H3 & H4 & H5 & H6 & H7 & H8).
  unfold str_round_trips in *.
  unfold PositionStore.from_dict, PositionStore.pos_dict. simpl.
  rewrite H1, H2, H3, H4, H5, H6, H7. simpl.
  destruct position as [sym base sq sap sv pq pap pv fe lev [t|] fp os]; simpl in *.
  - destruct H8 as [Hne Hiso].
    apply String.eqb_neq in Hne. rewrite Hne, Hiso. reflexivity.
  - reflexivity.
Qed.

(** C10.  Saving a position and loading the file gives, under its
    symbol, a position with the saved symbol, base currency, quantities,
    average prices, values, funding earned, leverage, opening time and
    funding periods, and with no orders; its total cost is 0 whatever
    fees the saved orders carried. *)
Theorem save_load_all_drops_orders (file : gmap string PositionJson.t)
    (position : ArbitragePosition.t) :
  serialisable position ->
  exists loaded,
    PositionStore.load_all (PositionStore.save position file)
      !! ArbitragePosition.symbol position = Some loaded
    /\ ArbitragePosition.symbol loaded = ArbitragePosition.symbol position
    /\ ArbitragePosition.base_currency loaded
       = ArbitragePosition.base_currency position
    /\ ArbitragePosition.spot_qty loaded = ArbitragePosition.spot_qty position
    /\ ArbitragePosition.spot_avg_price loaded
       = ArbitragePosition.spot_avg_price position
    /\ ArbitragePosition.spot_value loaded = ArbitragePosition.spot_value position
    /\ ArbitragePosition.perp_qty loaded = ArbitragePosition.perp_qty position
    /\ ArbitragePosition.perp_avg_price loaded
       = ArbitragePosition.perp_avg_price position
    /\ ArbitragePosition.perp_value loaded = ArbitragePosition.perp_value position
    /\ ArbitragePosition.funding_earned loaded
       = ArbitragePosition.funding_earned position
    /\ ArbitragePosition.leverage loaded = ArbitragePosition.leverage position
    /\ ArbitragePosition.opened_at loaded = ArbitragePosition.opened_at position
    /\ ArbitragePosition.funding_periods loaded
       = ArbitragePosition.funding_periods position
    /\ ArbitragePosition.orders loaded = []
    /\ ArbitragePosition.total_cost loaded = 0.
Proof.
  intros Hs. exists (ArbitragePosition.with_orders position []).
  split; [|by repeat split].
  unfold PositionStore.load_all, PositionStore.save.
  rewrite lookup_omap, lookup_insert_eq. simpl.
  unfold PositionStore.load_entry. by rewrite from_dict_pos_dict.
Qed.
End persistence.

Example sample_position_total_cost :
  ArbitragePosition.total_cost sample_position == 0.2.
Proof. vm_compute. reflexivity. Qed.

Lemma sample_position_serialisable : @serialisable SampleLib.lib sample_position.
Proof.
  repeat split; try (vm_compute; reflexivity).
  intros Hc. vm_compute in Hc. discriminate.
Defined.

Lemma save_load_all_drops_orders_witness :
  @serialisable SampleLib.lib sample_position
  /\ exists loaded,
       @PositionStore.load_all SampleLib.lib
         (@PositionStore.save SampleLib.lib sample_position ∅)
         !! "SOL/USDT:USDT"%string = Some loaded
       /\ ArbitragePosition.spot_qty loaded = 2
       /\ ArbitragePosition.orders loaded = []
       /\ ArbitragePosition.total_cost loaded = 0.
Proof.
  split; [exact sample_position_serialisable|].
  destruct (@save_load_all_drops_orders SampleLib.lib ∅ sample_position
              sample_position_serialisable)
    as (loaded & Hl & _ & _ & Hq & _ & _ & _ & _ & _ & _ & _ & _ & _ & Ho & Hc).
  exists loaded. auto.
Defined.

Section funding_sync.
Context `{PyLib}.
Local Arguments FundingTracker.sync_step : simpl never.

Lemma sync_step_spec (keys : gset FundingTracker.key) (added : nat)
    (records : list FundingRow.t) (p : Payment.t) :
  exchange_payment p ->
  FundingTracker.sync_step (keys, added, records) p
  = Ok (match payment_key p with
        | None => (keys, added, records)
        | Some k =>
            if bool_decide (k ∈ keys) then (keys, added, records)
            else ({[k]} ∪ keys, S added, records ++ [payment_row p (snd (fst k))])
        end)
  /\ forall k, payment_key p = Some k ->
               FundingTracker.row_key (payment_row p (snd (fst k))) = k.
Proof.
  intros (Hi & Hr & Hv & Ht). unfold str_round_trips in *.
  unfold FundingTracker.sync_step, payment_key.
  rewrite Hi, Hr, Hv. simpl.
  destruct (Payment.timestamp p) as [d|s|]; simpl.
  - split; [|by intros k [= <-]].
    case_bool_decide; [done|]. by rewrite Ht.
  - destruct Ht as (d & -> & Ht).
    split; [|by intros k [= <-]].
    case_bool_decide; [done|]. by rewrite Ht.
  - split; [done|]. by intros k [=].
Qed.

(** The loop keeps [existing_keys] equal to the keys of [records], only
    appends rows with fresh, pairwise distinct keys, and ends with the
    key of every payment in [existing_keys]. *)
Lemma sync_loop_spec (payments : list Payment.t) (ledger new : list FundingRow.t) :
  Forall exchange_payment payments ->
  NoDup (FundingTracker.row_key <$> new) ->
  (forall r, r ∈ new ->
             FundingTracker.row_key r ∉ FundingTracker.existing_keys ledger) ->
  exists new',
    FundingTracker.sync_loop
      (FundingTracker.existing_keys (ledger ++ new), length new, ledger ++ new)
      payments
    = Ok (FundingTracker.existing_keys (ledger ++ new'), length new', ledger ++ new')
    /\ NoDup (FundingTracker.row_key <$> new')
    /\ (forall r, r ∈ new' ->
                  FundingTracker.row_key r ∉ FundingTracker.existing_keys ledger)
    /\ FundingTracker.existing_keys (ledger ++ new)
       ⊆ FundingTracker.existing_keys (ledger ++ new')
    /\ (forall p k, p ∈ payments -> payment_key p = Some k ->
                    k ∈ FundingTracker.existing_keys (ledger ++ new')).
Proof.
  intros Hp. revert new. induction Hp as [|p payments Hp Hps IH]; intros new Hnd Hfresh.
  - exists new. simpl. repeat split; try done. intros p k Hin. by apply elem_of_nil in Hin.
  - simpl. destruct (sync_step_spec (FundingTracker.existing_keys (ledger ++ new))
                       (length new) (ledger ++ new) p Hp) as [Hstep Hkey].
    rewrite Hstep. simpl.
    destruct (payment_key p) as [k|] eqn:Hk.
    + case_bool_decide as Hin.
      * destruct (IH new Hnd Hfresh) as (new' & Hl & Hnd' & Hfresh' & Hsub & Hall).
        exists new'. repeat split; try done.
        intros q kq [->|Hq]%elem_of_cons Hkq; [|by eapply Hall].
        rewrite Hk in Hkq. injection Hkq as <-. by apply Hsub.
      * set (row := payment_row p (snd (fst k))).
        assert (Hrow : FundingTracker.row_key row = k) by by apply Hkey.
        assert (Hkeys : {[k]} ∪ FundingTracker.existing_keys (ledger ++ new)
                        = FundingTracker.existing_keys (ledger ++ (new ++ [row]))).
        { unfold FundingTracker.existing_keys.
          rewrite !fmap_app, !list_to_set_app_L. simpl. rewrite Hrow.
          apply set_eq. intros x.
          rewrite !elem_of_union, elem_of_empty, elem_of_singleton. tauto. }
        assert (Hnotin : (k ∉ FundingTracker.existing_keys ledger)
                         /\ (k ∉ FundingTracker.row_key <$> new)).
        { unfold FundingTracker.existing_keys in Hin.
          rewrite fmap_app, list_to_set_app_L in Hin.
          rewrite not_elem_of_union, !elem_of_list_to_set in Hin.
          unfold FundingTracker.existing_keys. by rewrite elem_of_list_to_set. }
        destruct Hnotin as [Hn1 Hn2].
        destruct (IH (new ++ [row])) as (new' & Hl & Hnd' & Hfresh' & Hsub & Hall).
        { rewrite fmap_app. apply NoDup_app. split; [done|]. split.
          - intros x Hx Hx'. simpl in Hx'. apply list_elem_of_singleton in Hx'.
            rewrite Hrow in Hx'. by subst x.
          - simpl. apply NoDup_singleton. }
        { intros r [Hr| ->%list_elem_of_singleton]%elem_of_app; [by apply Hfresh|].
          by rewrite Hrow. }
        exists new'. rewrite Hkeys, <- (assoc_L (++)).
        replace (S (length new)) with (length (new ++ [row]))
          by (rewrite length_app; simpl; lia).
        split; [exact Hl|]. split; [done|]. split; [done|]. split.
        -- etrans; [|exact Hsub]. rewrite <- Hkeys. apply union_subseteq_r.
        -- intros q kq [->|Hq]%elem_of_cons Hkq; [|by eapply Hall].
           rewrite Hk in Hkq. injection Hkq as <-.
           apply Hsub. rewrite <- Hkeys.
           apply elem_of_union_l, elem_of_singleton. reflexivity.
    + destruct (IH new Hnd Hfresh) as (new' & Hl & Hnd' & Hfresh' & Hsub & Hall).
      exists new'. repeat split; try done.
      intros q kq [->|Hq]%elem_of_cons Hkq; [congruence|by eapply Hall].
Qed.

(** When the key of every payment is already known, the loop changes
    nothing. *)
Lemma sync_loop_known (payments : list Payment.t) (keys : gset FundingTracker.key)
    (added : nat) (records : list FundingRow.t) :
  Forall exchange_payment payments ->
  (forall p k, p ∈ payments -> payment_key p = Some k -> k ∈ keys) ->
  FundingTracker.sync_loop (keys, added, records) payments = Ok (keys, added, records).
Proof.
  induction 1 as [|p payments Hp Hps IH]; intros Hall; [done|].
  simpl. destruct (sync_step_spec keys added records p Hp) as [-> _]. simpl.
  destruct (payment_key p) as [k|] eqn:Hk.
  - rewrite bool_decide_eq_true_2 by (eapply Hall; [left|done]).
    apply IH. intros q kq Hq. apply Hall. by right.
  - apply IH. intros q kq Hq. apply Hall. by right.
Qed.
(** C5.  For payments as the exchange adapter delivers them, a sync
    appends rows with new, pairwise distinct (symbol, timestamp, income)
    keys and returns their number; a second sync of the same list on
    the resulting ledger returns 0 and leaves the ledger as it is. *)
Theorem sync_remote_payments_idempotent (payments : list Payment.t)
    (ledger : list FundingRow.t) :
  Forall exchange_payment payments ->
  exists new,
    FundingTracker.sync_remote_payments payments ledger
    = (Ok (length new), ledger ++ new)
    /\ NoDup (FundingTracker.row_key <$> new)
    /\ (forall r, r ∈ new ->
                  FundingTracker.row_key r ∉ FundingTracker.existing_keys ledger)
    /\ FundingTracker.sync_remote_payments payments (ledger ++ new)
       = (Ok 0%nat, ledger ++ new).
Proof.
  intros Hp. destruct payments as [|p payments].
  { exists []. rewrite app_nil_r. repeat split; try done.
    - apply NoDup_nil_2.
    - intros r Hr. by apply elem_of_nil in Hr. }
  destruct (sync_loop_spec (p :: payments) ledger [] Hp) as
    (new & Hl & Hnd & Hfresh & _ & Hall).
  { apply NoDup_nil_2. }
  { intros r Hr. by apply elem_of_nil in Hr. }
  rewrite app_nil_r in Hl. simpl length in Hl.
  exists new. unfold FundingTracker.sync_remote_payments.
  rewrite Hl.
  rewrite (sync_loop_known (p :: payments) _ 0 (ledger ++ new) Hp Hall).
  split; [|done].
  destruct new as [|r new]; [by rewrite app_nil_r|done].
Qed.
End funding_sync.

Example sample_payments_sync :
  @FundingTracker.sync_remote_payments SampleLib.lib sample_payments []
  = (Ok 2%nat,
     [FundingRow.mk (Some "SOL/USDT:USDT"%string) "1/10000" "0/1" "12/100" "1700000000";
      FundingRow.mk (Some "SOL/USDT:USDT"%string) "1/10000" "0/1" "12/100" "1700028800"]).
Proof. vm_compute. reflexivity. Qed.

Lemma sample_payments_from_exchange :
  Forall (@exchange_payment SampleLib.lib) sample_payments.
Proof.
  repeat apply List.Forall_cons; try apply List.Forall_nil;
    (split; [vm_compute; reflexivity|]);
    (split; [vm_compute; reflexivity|]);
    (split; [vm_compute; reflexivity|]); simpl.
  - exists 1700000000%Z. split; vm_compute; reflexivity.
  - exists 1700000000%Z. split; vm_compute; reflexivity.
  - vm_compute. reflexivity.
Defined.

Lemma sync_remote_payments_idempotent_witness :
  Forall (@exchange_payment SampleLib.lib) sample_payments
  /\ exists new,
       @FundingTracker.sync_remote_payments SampleLib.lib sample_payments []
       = (Ok (length new), [] ++ new)
       /\ @FundingTracker.sync_remote_payments SampleLib.lib sample_payments ([] ++ new)
          = (Ok 0%nat, [] ++ new).
Proof.
  split; [exact sample_payments_from_exchange|].
  destruct (@sync_remote_payments_idempotent SampleLib.lib sample_payments []
              sample_payments_from_exchange) as (new & H1 & _ & _ & H2).
  exists new. split; assumption.
Defined.

(** ** Risk manager (risk.py) *)

Lemma ltb_false_iff (a b : Decimal) : Dec.ltb a b = false <-> b <= a.
Proof.
  split; [apply ltb_false_le|].
  intros Hle. destruct (Dec.ltb a b) eqn:E; [|done].
  apply ltb_true_lt in E. exfalso. eapply Qlt_not_le; eauto.
Qed.



Lemma all_below_with_history self h rates :
  RiskManager.all_below (RiskManager.with_history self h) rates
  = RiskManager.all_below self rates.
Proof. reflexivity. Qed.

Lemma all_above_with_history self h rates :
  RiskManager.all_above (RiskManager.with_history self h) rates
  = RiskManager.all_above self rates.
Proof. reflexivity. Qed.

(** The stored window rolls: it is the end of the old window followed by
    the new rate, and never holds more than [rate_reversal_periods + 1]
    rates. *)
Lemma push_rate_window (self : RiskManager.t) (history : list Decimal) (rate : Decimal) :
  RiskManager.push_rate self history rate `suffix_of` history ++ [rate]
  /\ ((Z.of_nat (length history) <= RiskManager.rate_reversal_periods self + 1)%Z ->
      (Z.of_nat (length (RiskManager.push_rate self history rate))
       <= RiskManager.rate_reversal_periods self + 1)%Z).
Proof.
  unfold RiskManager.push_rate.
  destruct (Z.ltb_spec (RiskManager.rate_reversal_periods self + 1)
              (Z.of_nat (length (history ++ [rate])))) as [Hlt|Hge].
  - split.
    + destruct history; simpl; [by exists [rate]|]. by apply suffix_cons_r.
    + intros Hle. destruct history as [|r0 history]; simpl in *; [lia|].
      rewrite length_app. simpl. lia.
  - split; [done|]. intros _. exact Hge.
Qed.




(** ** Executor (executor.py) *)

(** [format_usdt] shows every amount below 10^26 in absolute value and
    raises for the others. *)
Lemma format_usdt_formattable (amount : Decimal) :
  formattable amount -> exists shown, helpers.format_usdt amount 2 = Ok shown.
Proof.
  unfold formattable, helpers.format_usdt, helpers.quantize_down. intros Hlt.
  destruct (Z.leb_spec (10 ^ Dec.prec) (Qfloor (Qabs amount * Dec.pow10 2)))
    as [Hle|_]; [|eauto].
  exfalso. rewrite Zle_Qle in Hle.
  pose proof (Qfloor_le (Qabs amount * Dec.pow10 2)) as Hfl.
  assert (Hm : Qabs amount * Dec.pow10 2 < inject_Z (10 ^ 26) * Dec.pow10 2).
  { apply Qmult_lt_compat_r; [reflexivity|exact Hlt]. }
  apply (Qlt_irrefl (inject_Z (10 ^ Dec.prec))).
  eapply Qle_lt_trans; [exact Hle|]. eapply Qle_lt_trans; [exact Hfl|].
  eapply Qlt_le_trans; [exact Hm|]. vm_compute. discriminate.
Qed.

Lemma format_usdt_raises (amount : Decimal) :
  ~ formattable amount -> helpers.format_usdt amount 2 = Raise InvalidOperation.
Proof.
  unfold formattable, helpers.format_usdt, helpers.quantize_down. intros Hge.
  apply Qnot_lt_le in Hge.
  destruct (Z.leb_spec (10 ^ Dec.prec) (Qfloor (Qabs amount * Dec.pow10 2)))
    as [_|Hlt]; [done|].
  exfalso. revert Hlt. apply Z.le_ngt.
  change (10 ^ Dec.prec)%Z with (Qfloor (inject_Z (10 ^ 26) * Dec.pow10 2)).
  apply Qfloor_resp_le. apply Qmult_le_compat_r; [exact Hge|]. discriminate.
Qed.

Lemma format_usdt_Ok_iff (amount : Decimal) :
  (exists shown, helpers.format_usdt amount 2 = Ok shown) <-> formattable amount.
Proof.
  split; [|apply format_usdt_formattable].
  intros [shown Hs]. destruct (Qlt_le_dec (Qabs amount) (inject_Z (10 ^ 26))) as [|Hge];
    [done|].
  rewrite format_usdt_raises in Hs; [discriminate|]. by apply Qle_not_lt.
Qed.

Lemma dec_abs_eq_zero (x : Decimal) : Dec.abs x == 0 -> x == 0.
Proof.
  unfold Dec.abs. intros Hz. apply (proj1 (ctx_eq_zero _)) in Hz.
  destruct x as [n d]. unfold Qabs, Qeq in *. simpl in *. lia.
Qed.

Lemma dec_neg_eq_zero (x : Decimal) : Dec.neg x == 0 -> x == 0.
Proof.
  unfold Dec.neg. intros Hz. apply (proj1 (ctx_eq_zero _)) in Hz.
  destruct x as [n d]. unfold Qopp, Qeq in *. simpl in *. lia.
Qed.

Lemma dec_mul_zero_l (x y : Decimal) : x == 0 -> Dec.mul x y = 0.
Proof. intros Hx. unfold Dec.mul. apply ctx_zero. rewrite Hx. ring. Qed.

(** One step of a run: the fields of the state, and no arithmetic. *)
Ltac step_open :=
  cbn [fst snd gateway requests positions position_file clock telegram_sent].

Section executor_props.
Context {G : Type} `{ExchangeBase G} `{PyLib}.
Variable cfg : Config.

(** The delta of a freshly opened position can be computed: the closing
    log line of [open_arbitrage] does not raise. *)
Lemma opened_position_delta (pool : Pool.t) (spot_order perp_order : Order.t)
    (opened : datetime) :
  exists d,
    ArbitragePosition.delta (opened_position cfg pool spot_order perp_order opened)
    = Ok d.
Proof.
  unfold ArbitragePosition.delta, ArbitragePosition.notional_value, opened_position.
  cbn [ArbitragePosition.spot_qty ArbitragePosition.perp_qty
       ArbitragePosition.spot_value ArbitragePosition.perp_value].
  destruct (Dec.eqb (Dec.max _ _) 0) eqn:En; [eauto|].
  rewrite div_nonzero; [eauto|].
  intros Hz. apply dec_abs_eq_zero in Hz.
  destruct (Dec.eqb (Order.filled spot_order) 0) eqn:Es.
  - apply dec_neg_eq_zero in Hz. apply Qeq_bool_iff in Es.
    rewrite (dec_mul_zero_l _ _ Es), (dec_mul_zero_l _ _ Hz) in En.
    vm_compute in En. discriminate.
  - unfold Dec.eqb in Es. apply Qeq_bool_iff in Hz. congruence.
Qed.

Ltac run_open :=
  unfold Executor.open_arbitrage, open_legs, bind, lift, try_except, attempt,
    call_set_leverage, call_place_spot_order, call_place_perp_order, now,
    set_position, store_save, ret, with_gateway, with_positions,
    with_position_file;
  step_open.

Lemma open_arbitrage_spec (pool : Pool.t) (size_usdt : Decimal) (w : World G) :
  let r := fst (Executor.open_arbitrage cfg pool size_usdt w) in
  let w' := snd (Executor.open_arbitrage cfg pool size_usdt w) in
  match open_legs cfg pool size_usdt w with
  | Some (qty, Ok spot_order, Ok perp_order) =>
      let position := opened_position cfg pool spot_order perp_order (clock w) in
      r = Ok (Some position)
      /\ positions w' = <[Pool.symbol pool := position]> (positions w)
      /\ position_file w' = PositionStore.save position (position_file w)
      /\ requests w' = requests w ++ opening_requests cfg pool qty
  | Some (qty, Ok spot_order, Raise _) =>
      r = Ok None
      /\ positions w' = positions w
      /\ position_file w' = position_file w
      /\ requests w' =
         requests w ++ opening_requests cfg pool qty
         ++ [SpotOrder (Pool.base_currency pool +:+ "/USDT")%string SELL
               (Order.filled spot_order) MARKET]
  | Some (qty, Raise _, Ok perp_order) =>
      r = Ok None
      /\ positions w' = positions w
      /\ position_file w' = position_file w
      /\ requests w' =
         requests w ++ opening_requests cfg pool qty
         ++ [PerpOrder (Pool.symbol pool) BUY (Order.filled perp_order) MARKET false]
  | Some (qty, Raise _, Raise _) =>
      r = Ok None
      /\ positions w' = positions w
      /\ position_file w' = position_file w
      /\ requests w' = requests w ++ opening_requests cfg pool qty
  | None =>
      positions w' = positions w
      /\ position_file w' = position_file w
      /\ Forall (fun q => is_order q = false)
           (drop (length (requests w)) (requests w'))
  end.
Proof.
  run_open.
  destruct (Dec.div size_usdt (Pool.price pool)) as [qty|e]; step_open.
  2: { rewrite drop_all. auto. }
  destruct (helpers.format_usdt size_usdt 2) as [shown|e]; step_open.
  2: { rewrite drop_all. auto. }
  destruct (set_leverage (Pool.symbol pool) (default_leverage cfg) (gateway w))
    as [[[]|e] g1]; step_open.
  2: { rewrite drop_app_length. repeat split; try done.
       by apply Forall_singleton. }
  destruct (Dec.ltb 0 (Pool.funding_rate pool)); step_open.
  2: { rewrite drop_app_length. repeat split; try done.
       by apply Forall_singleton. }
  destruct (place_spot_order _ BUY qty MARKET g1) as [[spot_order|e1] g2]; step_open;
    destruct (place_perp_order _ SELL qty MARKET false g2) as [[perp_order|e2] g3];
    step_open.
  - destruct (opened_position_delta pool spot_order perp_order (clock w)) as [d Hd].
    unfold opened_position in Hd. rewrite Hd. step_open.
    rewrite <- !(assoc_L (++)). done.
  - destruct (place_spot_order _ SELL _ MARKET g3) as [[?|?] ?]; step_open;
      rewrite <- !(assoc_L (++)); done.
  - destruct (place_perp_order _ BUY _ MARKET false g3) as [[?|?] ?]; step_open;
      rewrite <- !(assoc_L (++)); done.
  - rewrite <- !(assoc_L (++)). done.
Qed.

(** C1, as the code has it.  When both opening orders succeeded,
    [open_arbitrage] returns the position that records both fills and
    stores it under the symbol, in memory and in the position file; in
    every other case the positions and the file are what they were
    before the call.  So for a symbol that was not tracked, a position
    exists afterwards exactly when both orders succeeded.  When exactly
    one order failed, the function returns [None] and the last request
    sent is a market order that undoes the filled leg, whatever the
    gateway answers to that compensating order. *)
Theorem open_arbitrage_matched_or_nothing (pool : Pool.t) (size_usdt : Decimal)
    (w : World G) :
  let r := fst (Executor.open_arbitrage cfg pool size_usdt w) in
  let w' := snd (Executor.open_arbitrage cfg pool size_usdt w) in
  (forall qty spot_order perp_order,
     open_legs cfg pool size_usdt w = Some (qty, Ok spot_order, Ok perp_order) ->
     let position := opened_position cfg pool spot_order perp_order (clock w) in
     r = Ok (Some position)
     /\ positions w' = <[Pool.symbol pool := position]> (positions w)
     /\ position_file w' = PositionStore.save position (position_file w)
     /\ positions w' !! Pool.symbol pool = Some position
     /\ position_file w' !! Pool.symbol pool = Some (PositionStore.pos_dict position)
     /\ ArbitragePosition.spot_qty position = Order.filled spot_order
     /\ ArbitragePosition.perp_qty position = Dec.neg (Order.filled perp_order))
  /\ ((forall qty spot_order perp_order,
         open_legs cfg pool size_usdt w <> Some (qty, Ok spot_order, Ok perp_order)) ->
      positions w' = positions w /\ position_file w' = position_file w)
  /\ (positions w !! Pool.symbol pool = None ->
      (is_Some (positions w' !! Pool.symbol pool)
       <-> exists qty spot_order perp_order,
             open_legs cfg pool size_usdt w = Some (qty, Ok spot_order, Ok perp_order)))
  /\ (forall qty spot_order e,
        open_legs cfg pool size_usdt w = Some (qty, Ok spot_order, Raise e) ->
        r = Ok None
        /\ positions w' = positions w
        /\ position_file w' = position_file w
        /\ last (requests w')
           = Some (SpotOrder (Pool.base_currency pool +:+ "/USDT")%string SELL
                     (Order.filled spot_order) MARKET))
  /\ (forall qty e perp_order,
        open_legs cfg pool size_usdt w = Some (qty, Raise e, Ok perp_order) ->
        r = Ok None
        /\ positions w' = positions w
        /\ position_file w' = position_file w
        /\ last (requests w')
           = Some (PerpOrder (Pool.symbol pool) BUY (Order.filled perp_order)
                     MARKET false)).
Proof.
  intros r w'. subst r w'.
  pose proof (open_arbitrage_spec pool size_usdt w) as Hspec. simpl in Hspec.
  destruct (open_legs cfg pool size_usdt w) as [[[qty [s|e1]] [p|e2]]|].
  - destruct Hspec as (Hr & Hp & Hf & _).
    split; [|split; [|split; [|split]]]; try (intros; discriminate).
    + intros ? ? ? [= <- <- <-]. simpl.
      rewrite Hr, Hp, Hf. unfold PositionStore.save.
      rewrite !lookup_insert_eq. done.
    + intros Hne. by destruct (Hne qty s p).
    + intros _. split; [eauto|]. intros _. rewrite Hp, lookup_insert_eq. eauto.
  - destruct Hspec as (Hr & Hp & Hf & Hq).
    split; [|split; [|split; [|split]]]; try (intros; discriminate).
    + done.
    + intros Hnone. rewrite Hp, Hnone.
      split; [by intros [? ?]|]. by intros (? & ? & ? & ?).
    + intros ? ? ? [= <- <- <-]. rewrite Hq, last_app. done.
  - destruct Hspec as (Hr & Hp & Hf & Hq).
    split; [|split; [|split; [|split]]]; try (intros; discriminate).
    + done.
    + intros Hnone. rewrite Hp, Hnone.
      split; [by intros [? ?]|]. by intros (? & ? & ? & ?).
    + intros ? ? ? [= <- <- <-]. rewrite Hq, last_app. done.
  - destruct Hspec as (Hr & Hp & Hf & _).
    split; [|split; [|split; [|split]]]; try (intros; discriminate).
    + done.
    + intros Hnone. rewrite Hp, Hnone.
      split; [by intros [? ?]|]. by intros (? & ? & ? & ?).
  - destruct Hspec as (Hp & Hf & _).
    split; [|split; [|split; [|split]]]; try (intros; discriminate).
    + done.
    + intros Hnone. rewrite Hp, Hnone.
      split; [by intros [? ?]|]. by intros (? & ? & ? & ?).
Qed.

(** C8, as the code has it.  For a funding rate that is not positive,
    [open_arbitrage] records no position and sends no spot or perp
    order.  When the pool's price is not 0 and the size is below 10^26
    in absolute value, so that the quantity and the opening log line
    can be computed, it returns [None], and the one call it has made by
    then is [set_leverage], which leaves the gateway in the state that
    call produces. *)
Theorem open_arbitrage_rejects_nonpositive_rate (pool : Pool.t)
    (size_usdt : Decimal) (w : World G) :
  Pool.funding_rate pool <= 0 ->
  let r := fst (Executor.open_arbitrage cfg pool size_usdt w) in
  let w' := snd (Executor.open_arbitrage cfg pool size_usdt w) in
  positions w' = positions w
  /\ position_file w' = position_file w
  /\ Forall (fun q => is_order q = false) (drop (length (requests w)) (requests w'))
  /\ (~ Pool.price pool == 0 ->
      Qabs size_usdt < inject_Z (10 ^ 26) ->
      r = Ok None
      /\ requests w'
         = requests w ++ [SetLeverage (Pool.symbol pool) (default_leverage cfg)]
      /\ gateway w'
         = snd (set_leverage (Pool.symbol pool) (default_leverage cfg) (gateway w))).
Proof.
  intros Hrate. apply ltb_false_iff in Hrate. run_open.
  destruct (Dec.div size_usdt (Pool.price pool)) as [qty|e] eqn:Hqty; step_open.
  2: { rewrite drop_all. split; [done|]. split; [done|]. split; [done|].
       intros Hprice _. by rewrite div_nonzero in Hqty. }
  destruct (helpers.format_usdt size_usdt 2) as [shown|e] eqn:Hshown; step_open.
  2: { rewrite drop_all. split; [done|]. split; [done|]. split; [done|].
       intros _ Hsize. destruct (format_usdt_formattable size_usdt Hsize). congruence. }
  destruct (set_leverage (Pool.symbol pool) (default_leverage cfg) (gateway w))
    as [[[]|e] g1]; step_open.
  - rewrite Hrate. step_open. rewrite drop_app_length.
    repeat split; try done. by apply Forall_singleton.
  - rewrite drop_app_length.
    repeat split; try done. by apply Forall_singleton.
Qed.

Lemma store_remove_spec (symbol : string) (w : World G) :
  store_remove symbol w
  = (Ok (bool_decide (is_Some (position_file w !! symbol))),
     with_position_file w (delete symbol (position_file w))).
Proof.
  unfold store_remove, PositionStore.remove.
  destruct (position_file w !! symbol) eqn:E.
  - by rewrite bool_decide_eq_true_2 by eauto.
  - rewrite bool_decide_eq_false_2 by (by intros [? ?]).
    by rewrite delete_id.
Qed.

End executor_props.

Example scenario_spot_sold_back :
  fst (paper_open scenario_pool 100 perp_down_world) = Ok None
  /\ requests (snd (paper_open scenario_pool 100 perp_down_world))
     = [SetLeverage "SOL/USDT:USDT" 2;
        SpotOrder "SOL/USDT" BUY 2 MARKET;
        PerpOrder "SOL/USDT:USDT" SELL 2 MARKET false;
        SpotOrder "SOL/USDT" SELL 2 MARKET]
  /\ positions (snd (paper_open scenario_pool 100 perp_down_world))
       !! "SOL/USDT:USDT"%string = None.
Proof. repeat split; vm_compute; reflexivity. Qed.

Example scenario_both_legs_filled :
  positions (snd (paper_open scenario_pool 100 paper_world)) !! "SOL/USDT:USDT"%string
  = Some (ArbitragePosition.mk "SOL/USDT:USDT" "SOL" 2 50 100 (-2) 50 100 0 2
            (Some 0%Z) 0
            [PaperExchange.fill "SOL/USDT" BUY 2 MARKET (gateway paper_world);
             PaperExchange.fill "SOL/USDT:USDT" SELL 2 MARKET (gateway paper_world)]).
Proof. vm_compute. reflexivity. Qed.

(** C1, as stated.  The symbol is tracked already, with a position that
    records both legs, and the perp market is down: the spot buy fills,
    the perp sell fails, the spot is sold back and the call returns
    [None].  The earlier position is still there after the call, in
    memory and in the file, although the perp order did not succeed. *)
Lemma open_arbitrage_failed_leg_keeps_tracked_position :
  @open_legs _ PaperExchange.exchange sample_config scenario_pool 100
    tracking_perp_down_world
  = Some (2, Ok (PaperExchange.fill "SOL/USDT" BUY 2 MARKET
                   (gateway tracking_perp_down_world)),
          Raise (ExchangeError "perp market down"))
  /\ fst (paper_open scenario_pool 100 tracking_perp_down_world) = Ok None
  /\ last (requests (snd (paper_open scenario_pool 100 tracking_perp_down_world)))
     = Some (SpotOrder "SOL/USDT" SELL 2 MARKET)
  /\ positions (snd (paper_open scenario_pool 100 tracking_perp_down_world))
       !! "SOL/USDT:USDT"%string
     = Some sample_position
  /\ ArbitragePosition.spot_qty sample_position = 2
  /\ ArbitragePosition.perp_qty sample_position = -2
  /\ is_Some (position_file (snd (paper_open scenario_pool 100 tracking_perp_down_world))
                !! "SOL/USDT:USDT"%string).
Proof.
  repeat split; try (vm_compute; reflexivity).
  vm_compute. eauto.
Qed.

Lemma open_arbitrage_matched_or_nothing_witness :
  fst (paper_open scenario_pool 100 perp_down_world) = Ok None
  /\ positions (snd (paper_open scenario_pool 100 perp_down_world))
     = positions perp_down_world
  /\ position_file (snd (paper_open scenario_pool 100 perp_down_world))
     = position_file perp_down_world
  /\ last (requests (snd (paper_open scenario_pool 100 perp_down_world)))
     = Some (SpotOrder "SOL/USDT" SELL 2 MARKET).
Proof.
  destruct (@open_arbitrage_matched_or_nothing _ PaperExchange.exchange SampleLib.lib
              sample_config scenario_pool 100 perp_down_world)
    as (_ & _ & _ & Hspot & _).
  apply (Hspot 2 (PaperExchange.fill "SOL/USDT" BUY 2 MARKET (gateway perp_down_world))
           (ExchangeError "perp market down")).
  vm_compute. reflexivity.
Defined.

(** C8, as stated.  On the paper exchange a request with the funding
    rate -0.001 returns [None] and sends no order, but the exchange has
    received [set_leverage] and its state has changed. *)
Lemma open_arbitrage_negative_rate_sets_leverage :
  fst (paper_open negative_pool 100 paper_world) = Ok None
  /\ requests (snd (paper_open negative_pool 100 paper_world))
     = [SetLeverage "SOL/USDT:USDT" 2]
  /\ PaperExchange.leverages (gateway paper_world) = []
  /\ PaperExchange.leverages (gateway (snd (paper_open negative_pool 100 paper_world)))
     = [("SOL/USDT:USDT"%string, 2%Z)]
  /\ gateway (snd (paper_open negative_pool 100 paper_world)) <> gateway paper_world.
Proof.
  repeat split; try (vm_compute; reflexivity).
  intros Heq. apply (f_equal PaperExchange.leverages) in Heq.
  vm_compute in Heq. discriminate.
Qed.

Lemma open_arbitrage_rejects_nonpositive_rate_witness :
  Pool.funding_rate negative_pool <= 0
  /\ ~ Pool.price negative_pool == 0
  /\ Qabs 100 < inject_Z (10 ^ 26)
  /\ positions (snd (paper_open negative_pool 100 paper_world)) = positions paper_world
  /\ position_file (snd (paper_open negative_pool 100 paper_world))
     = position_file paper_world
  /\ fst (paper_open negative_pool 100 paper_world) = Ok None
  /\ requests (snd (paper_open negative_pool 100 paper_world))
     = requests paper_world ++ [SetLeverage "SOL/USDT:USDT" 2].
Proof.
  assert (Hrate : Pool.funding_rate negative_pool <= 0) by (vm_compute; discriminate).
  assert (Hprice : ~ Pool.price negative_pool == 0) by (vm_compute; discriminate).
  assert (Hsize : Qabs 100 < inject_Z (10 ^ 26)) by (vm_compute; reflexivity).
  split; [exact Hrate|]. split; [exact Hprice|]. split; [exact Hsize|].
  destruct (@open_arbitrage_rejects_nonpositive_rate _ PaperExchange.exchange
              SampleLib.lib sample_config negative_pool 100 paper_world Hrate)
    as (Hp & Hf & _ & Hq).
  destruct (Hq Hprice Hsize) as (Hr & Hreq & _).
  repeat split; assumption.
Defined.

Example close_with_perp_down_keeps_position :
  fst (paper_close "SOL/USDT:USDT"
         (tracking_world (PaperExchange.mk false true 50 [] [] ∅))) = Ok None
  /\ positions (snd (paper_close "SOL/USDT:USDT"
                       (tracking_world (PaperExchange.mk false true 50 [] [] ∅))))
       !! "SOL/USDT:USDT"%string = Some sample_position.
Proof. split; vm_compute; reflexivity. Qed.

Example close_with_both_legs_removes_position :
  fst (paper_close "SOL/USDT:USDT"
         (tracking_world (PaperExchange.mk false false 50 [] [] ∅))) = Ok (Some 0.1)
  /\ positions (snd (paper_close "SOL/USDT:USDT"
                       (tracking_world (PaperExchange.mk false false 50 [] [] ∅))))
       !! "SOL/USDT:USDT"%string = None
  /\ position_file (snd (paper_close "SOL/USDT:USDT"
                           (tracking_world (PaperExchange.mk false false 50 [] [] ∅))))
       !! "SOL/USDT:USDT"%string = None.
Proof. repeat split; vm_compute; reflexivity. Qed.


(** ** Reconciliation (auto_trade.py) *)

Section trader_props.
Context {G : Type} `{ExchangeBase G} `{PyLib}.
Variable cfg : Config.

Lemma adopt_spec (spot_balances : gmap string Balance.t) (acc : list string)
    (symbol : string) (p_data : PerpRow.t) (w : World G) :
  AutoTrader.adopt spot_balances acc (symbol, p_data) w
  = match positions w !! symbol with
    | Some _ => (Ok acc, w)
    | None =>
        if covered spot_balances symbol p_data then
          let new_pos := AutoTrader.adopted_position symbol p_data (clock w) in
          (Ok (acc ++ [symbol]),
           mkWorld (gateway w) (requests w)
             (<[symbol := new_pos]> (positions w))
             (PositionStore.save new_pos (position_file w))
             (clock w) (telegram_sent w))
        else (Ok acc, w)
    end.
Proof.
  unfold AutoTrader.adopt, covered, bind, get_positions, now, set_position,
    store_save, ret, with_positions, with_position_file.
  simpl. destruct (positions w !! symbol); [done|].
  destruct (Dec.leb _ _); done.
Qed.

Lemma foldM_adopt (spot_balances : gmap string Balance.t)
    (items : list (string * PerpRow.t)) (acc : list string) (w : World G) :
  NoDup items.*1 ->
  exists acc' w',
    foldM (AutoTrader.adopt spot_balances) acc items w = (Ok acc', w')
    /\ clock w' = clock w
    /\ requests w' = requests w
    /\ forall symbol,
         positions w' !! symbol
         = reconciled spot_balances (clock w) symbol (positions w !! symbol)
             ((list_to_map items : gmap string PerpRow.t) !! symbol)
         /\ position_file w' !! symbol
            = reconciled_file spot_balances (clock w) symbol
                (position_file w !! symbol) (positions w !! symbol)
                ((list_to_map items : gmap string PerpRow.t) !! symbol).
Proof.
  revert acc w. induction items as [|[k p_data] items IH]; intros acc w Hnd.
  - exists acc, w. simpl. split; [done|]. split; [done|]. split; [done|].
    intros symbol. rewrite lookup_empty.
    unfold reconciled, reconciled_file. by destruct (positions w !! symbol).
  - apply NoDup_cons in Hnd as [Hk Hnd]. cbn [foldM]. unfold bind at 1.
    rewrite adopt_spec.
    assert (Hrest : (list_to_map items : gmap string PerpRow.t) !! k = None)
      by by apply not_elem_of_list_to_map_1.
    destruct (positions w !! k) as [tracked|] eqn:Hw;
      [|destruct (covered spot_balances k p_data) eqn:Hc].
    + destruct (IH acc w Hnd) as (acc' & w' & Hf & Hclock & Hreq & Hall).
      exists acc', w'. split; [done|]. split; [done|]. split; [done|].
      intros symbol. destruct (Hall symbol) as (Hp & Hfile).
      cbn [list_to_map foldr curry]. simpl fst. simpl snd.
      destruct (decide (symbol = k)) as [->|Hne].
      * rewrite lookup_insert_eq. rewrite Hp, Hfile, Hw. done.
      * rewrite lookup_insert_ne by done. done.
    + set (new_pos := AutoTrader.adopted_position k p_data (clock w)).
      destruct (IH (acc ++ [k])
                  (mkWorld (gateway w) (requests w) (<[k := new_pos]> (positions w))
                     (PositionStore.save new_pos (position_file w)) (clock w)
                     (telegram_sent w)) Hnd)
        as (acc' & w' & Hf & Hclock & Hreq & Hall).
      exists acc', w'. split; [done|]. split; [done|]. split; [done|].
      intros symbol. destruct (Hall symbol) as (Hp & Hfile).
      cbn [positions position_file clock] in Hp, Hfile.
      cbn [list_to_map foldr curry]. simpl fst. simpl snd.
      unfold PositionStore.save in Hfile.
      change (ArbitragePosition.symbol new_pos) with k in Hfile.
      destruct (decide (symbol = k)) as [->|Hne].
      * rewrite Hp, Hfile, Hw, !lookup_insert_eq.
        unfold reconciled, reconciled_file. by rewrite Hc.
      * rewrite Hp, Hfile, !lookup_insert_ne by done. done.
    + destruct (IH acc w Hnd) as (acc' & w' & Hf & Hclock & Hreq & Hall).
      exists acc', w'. split; [done|]. split; [done|]. split; [done|].
      intros symbol. destruct (Hall symbol) as (Hp & Hfile).
      cbn [list_to_map foldr curry]. simpl fst. simpl snd.
      destruct (decide (symbol = k)) as [->|Hne].
      * rewrite lookup_insert_eq. rewrite Hp, Hfile, Hw, Hrest.
        unfold reconciled, reconciled_file. by rewrite Hc.
      * rewrite lookup_insert_ne by done. done.
Qed.
Lemma sync_orphan_positions_spec (rows : list PerpRow.t)
    (spot_balances : gmap string Balance.t) (g1 g2 : G) (w : World G) :
  perp_fetch_positions (gateway w) = (Ok rows, g1) ->
  spot_fetch_balance g1 = (Ok spot_balances, g2) ->
  AutoTrader.dict_by_symbol AutoTrader.has_amount rows <> ∅ ->
  exists w',
    AutoTrader.sync_orphan_positions cfg w = (Ok tt, w')
    /\ forall symbol,
         positions w' !! symbol
         = reconciled spot_balances (clock w) symbol (positions w !! symbol)
             (AutoTrader.dict_by_symbol AutoTrader.has_amount rows !! symbol)
         /\ position_file w' !! symbol
            = reconciled_file spot_balances (clock w) symbol
                (position_file w !! symbol) (positions w !! symbol)
                (AutoTrader.dict_by_symbol AutoTrader.has_amount rows !! symbol).
Proof.
  intros Hpos Hbal Hne.
  unfold AutoTrader.sync_orphan_positions, try_except.
  unfold bind at 1. unfold call_fetch_positions at 1. rewrite Hpos.
  set (perp_map := AutoTrader.dict_by_symbol AutoTrader.has_amount rows) in *.
  pose proof (NoDup_fst_map_to_list perp_map) as Hnd.
  pose proof (list_to_map_to_list perp_map) as Hmap.
  destruct (map_to_list perp_map) as [|item items] eqn:Hitems.
  { simpl in Hmap. congruence. }
  unfold bind at 1. unfold call_fetch_balance at 1.
  cbn [gateway with_gateway]. rewrite Hbal.
  unfold bind at 1.
  destruct (foldM_adopt spot_balances (item :: items) []
              (with_gateway (with_gateway w g1 FetchPositions) g2 FetchBalance) Hnd)
    as (acc' & w2 & Hf & Hclock & _ & Hall).
  rewrite Hf. rewrite Hmap in Hall.
  cbn [clock positions position_file with_gateway] in Hall.
  destruct acc' as [|s acc']; [|destruct (telegram_enabled cfg)]; simpl;
    (eexists; split; [reflexivity|]); exact Hall.
Qed.

(** C7.  An exchange-reported perp position (a row with a non-zero
    amount) whose symbol is not tracked is adopted exactly when the free
    spot balance of its base asset is at least 90% of the absolute perp
    quantity; the adopted position takes the perp entry price as its
    spot average price and is written to the position file.  A symbol
    that is tracked keeps the position it has. *)
Theorem sync_orphan_positions_adopts (rows : list PerpRow.t)
    (spot_balances : gmap string Balance.t) (g1 g2 : G) (w : World G)
    (symbol : string) (p_data : PerpRow.t) :
  perp_fetch_positions (gateway w) = (Ok rows, g1) ->
  spot_fetch_balance g1 = (Ok spot_balances, g2) ->
  AutoTrader.dict_by_symbol AutoTrader.has_amount rows !! symbol = Some p_data ->
  let w' := snd (AutoTrader.sync_orphan_positions cfg w) in
  let adopted := AutoTrader.adopted_position symbol p_data (clock w) in
  ArbitragePosition.spot_avg_price adopted = PerpRow.entryPrice p_data
  /\ ArbitragePosition.perp_avg_price adopted = PerpRow.entryPrice p_data
  /\ match positions w !! symbol with
     | Some tracked => positions w' !! symbol = Some tracked
     | None =>
         (Dec.mul (Dec.abs (PerpRow.positionAmt p_data)) 0.9
          <= AutoTrader.balance_free spot_balances (split_slash_0 symbol) ->
          positions w' !! symbol = Some adopted
          /\ position_file w' !! symbol = Some (PositionStore.pos_dict adopted))
         /\ (~ Dec.mul (Dec.abs (PerpRow.positionAmt p_data)) 0.9
               <= AutoTrader.balance_free spot_balances (split_slash_0 symbol) ->
             positions w' !! symbol = None)
     end.
Proof.
  intros Hpos Hbal Hrow w' adopted. split; [done|]. split; [done|].
  assert (Hne : AutoTrader.dict_by_symbol AutoTrader.has_amount rows <> ∅).
  { intros Hempty. rewrite Hempty, lookup_empty in Hrow. discriminate. }
  destruct (sync_orphan_positions_spec rows spot_balances g1 g2 w Hpos Hbal Hne)
    as (w2 & Hrun & Hall).
  subst w'. rewrite Hrun. cbn [snd].
  destruct (Hall symbol) as [Hp Hfile]. rewrite Hrow in Hp, Hfile.
  unfold reconciled in Hp. unfold reconciled_file in Hfile.
  destruct (positions w !! symbol) as [tracked|]; [done|].
  unfold covered, Dec.leb in Hp, Hfile. split.
  - intros Hle. apply Qle_bool_iff in Hle. rewrite Hle in Hp, Hfile. done.
  - intros Hnle. destruct (Qle_bool _ _) eqn:E; [|done].
    apply Qle_bool_iff in E. done.
Qed.

(** One turn of the repair loop never touches the position file: the
    call that should delete the entry raises before it reaches it. *)
Lemma repair_keeps_file (perp_map : gmap string PerpRow.t)
    (spot_balances : gmap string Balance.t) (acc : list (string * bool * bool))
    (item : string * ArbitragePosition.t) (w : World G) :
  exists acc' w',
    AutoTrader.repair perp_map spot_balances acc item w = (Ok acc', w')
    /\ position_file w' = position_file w.
Proof.
  unfold AutoTrader.repair.
  destruct (Dec.ltb 0.001 _); destruct (Dec.leb _ _); simpl;
    unfold bind, try_except, call_place_perp_order, call_place_spot_order,
      del_position, store_delete, raise, ret, with_gateway, with_positions; simpl;
    try (destruct (place_perp_order _ _ _ MARKET false (gateway w)) as [[?|?] ?]);
    try (destruct (place_spot_order _ SELL _ MARKET (gateway w)) as [[?|?] ?]);
    simpl; eauto.
Qed.

Lemma foldM_repair_keeps_file (perp_map : gmap string PerpRow.t)
    (spot_balances : gmap string Balance.t)
    (items : list (string * ArbitragePosition.t))
    (acc : list (string * bool * bool)) (w : World G) :
  exists acc' w',
    foldM (AutoTrader.repair perp_map spot_balances) acc items w = (Ok acc', w')
    /\ position_file w' = position_file w.
Proof.
  revert acc w. induction items as [|item items IH]; intros acc w.
  - exists acc, w. done.
  - cbn [foldM]. unfold bind at 1.
    destruct (repair_keeps_file perp_map spot_balances acc item w)
      as (acc1 & w1 & -> & Hfile1).
    destruct (IH acc1 w1) as (acc2 & w2 & -> & Hfile2).
    exists acc2, w2. split; [done|]. congruence.
Qed.

(** [verify_and_fix_positions] leaves the position file as it was, for
    every gateway and every state. *)
Lemma verify_and_fix_positions_keeps_file (w : World G) :
  position_file (snd (AutoTrader.verify_and_fix_positions cfg w)) = position_file w.
Proof.
  unfold AutoTrader.verify_and_fix_positions.
  unfold bind at 1. unfold get_positions at 1.
  destruct (map_to_list (positions w)) as [|item items]; [done|].
  unfold try_except. unfold bind at 1. unfold call_fetch_positions at 1.
  destruct (perp_fetch_positions (gateway w)) as [[rows|e] g1]; [|done].
  unfold bind at 1. unfold call_fetch_balance at 1. cbn [gateway with_gateway].
  destruct (spot_fetch_balance g1) as [[spot_balances|e] g2]; [|done].
  unfold bind at 1.
  destruct (foldM_repair_keeps_file
              (AutoTrader.dict_by_symbol (fun _ => true) rows) spot_balances
              (item :: items) []
              (with_gateway (with_gateway w g1 FetchPositions) g2 FetchBalance))
    as (acc' & w2 & -> & Hfile).
  destruct acc' as [|issue acc']; [|destruct (telegram_enabled cfg)]; simpl; exact Hfile.
Qed.
End trader_props.

Example scenario_orphan_adopted :
  positions (snd (paper_sync (PaperExchange.world orphan_exchange)))
    !! "SOL/USDT:USDT"%string
  = Some (ArbitragePosition.mk "SOL/USDT:USDT" "SOL" 10 50 500 (-10) 50 (-500) 0 2
            (Some 0%Z) 0 [])
  /\ telegram_sent (snd (paper_sync (PaperExchange.world orphan_exchange)))
     = [AdoptedAlert ["SOL/USDT:USDT"%string]].
Proof. split; vm_compute; reflexivity. Qed.

(** A second reconciliation finds the symbol tracked and adopts nothing. *)
Example scenario_orphan_not_adopted_twice :
  positions (snd (paper_sync (snd (paper_sync (PaperExchange.world orphan_exchange)))))
  = positions (snd (paper_sync (PaperExchange.world orphan_exchange)))
  /\ telegram_sent (snd (paper_sync (snd (paper_sync (PaperExchange.world orphan_exchange)))))
     = [AdoptedAlert ["SOL/USDT:USDT"%string]].
Proof. split; vm_compute; reflexivity. Qed.

Lemma sync_orphan_positions_adopts_witness :
  let adopted :=
    @AutoTrader.adopted_position "SOL/USDT:USDT"
      (PerpRow.mk "SOL/USDT:USDT" (-10) 50 2) 0%Z in
  ArbitragePosition.spot_avg_price adopted = 50
  /\ ArbitragePosition.perp_avg_price adopted = 50
  /\ positions (snd (paper_sync (PaperExchange.world orphan_exchange)))
       !! "SOL/USDT:USDT"%string = Some adopted.
Proof.
  pose proof (@sync_orphan_positions_adopts _ PaperExchange.exchange SampleLib.lib
                sample_config
                [PerpRow.mk "SOL/USDT:USDT" (-10) 50 2]
                {[ "SOL"%string := Balance.mk 9.5 9.5 ]}
                orphan_exchange orphan_exchange
                (PaperExchange.world orphan_exchange)
                "SOL/USDT:USDT" (PerpRow.mk "SOL/USDT:USDT" (-10) 50 2)
                eq_refl eq_refl) as Hadopt.
  destruct Hadopt as (Hspot & Hperp & Hcase).
  { vm_compute. reflexivity. }
  split; [exact Hspot|]. split; [exact Hperp|].
  change (positions (PaperExchange.world orphan_exchange) !! "SOL/USDT:USDT"%string)
    with (@None ArbitragePosition.t) in Hcase.
  destruct Hcase as [Hyes _]. apply Hyes. vm_compute. discriminate.
Defined.

(** C6.  The position [sample_position] is tracked; the exchange still
    reports the perp short of 2 but the spot account holds none of the
    base asset.  [verify_and_fix_positions] buys back the perp leg, drops
    the position from the executor's map and sends the alert, but the
    entry in the position file is still there: [PositionStore] has no
    [delete], the call raises and the handler only logs.  Loading the
    file, as the executor does when it starts, brings the position back. *)
Theorem verify_and_fix_positions_leaves_file_entry :
  let w' := snd (paper_verify (tracking_world one_leg_exchange)) in
  requests w'
  = [FetchPositions; FetchBalance; PerpOrder "SOL/USDT:USDT" BUY 2 MARKET false]
  /\ positions w' !! "SOL/USDT:USDT"%string = None
  /\ telegram_sent w' = [RepairAlert [("SOL/USDT:USDT"%string, true, false)]]
  /\ position_file w' !! "SOL/USDT:USDT"%string
     = Some (@PositionStore.pos_dict SampleLib.lib sample_position)
  /\ @PositionStore.load_all SampleLib.lib (position_file w')
       !! "SOL/USDT:USDT"%string
     = Some (ArbitragePosition.with_orders sample_position []).
Proof. repeat split; vm_compute; reflexivity. Qed.

(** * Further properties of the same files *)

(** ** Pool selection: order, completeness and failure (selector.py) *)

Lemma passes_filter_step cfg self pool rest candidates :
  passes cfg self pool ->
  PoolSelector.filter_loop cfg self (pool :: rest) candidates
  = (pool' ← PoolSelector._calc_metrics self pool;
     PoolSelector.filter_loop cfg self rest (candidates ++ [pool'])).
Proof.
  intros (Hv1 & Hv2 & Hd & Hr & Hs & Hb & Hn). simpl.
  rewrite bool_decide_eq_false_2 by done.
  assert (Hneg : negb (allow_negative_rates cfg)
                 && Dec.ltb (Pool.funding_rate pool) 0 = false).
  { destruct (Dec.ltb (Pool.funding_rate pool) 0) eqn:E; [|by rewrite andb_false_r].
    apply ltb_true_lt in E. by rewrite (Hn E). }
  rewrite Hneg.
  apply Qle_bool_iff in Hv1, Hv2. unfold Dec.leb. rewrite Hv1, Hv2. simpl.
  apply ltb_false_iff in Hd, Hr, Hs. by rewrite Hd, Hr, Hs.
Qed.

(** The loop keeps the candidates it has and adds every pool that passes
    the guards, with its metrics. *)
Lemma filter_loop_complete cfg self pools candidates result :
  PoolSelector.filter_loop cfg self pools candidates = Ok result ->
  (forall c, c ∈ candidates -> c ∈ result)
  /\ forall pool, pool ∈ pools -> passes cfg self pool ->
       exists pool', PoolSelector._calc_metrics self pool = Ok pool' /\ pool' ∈ result.
Proof.
  revert candidates. induction pools as [|pool rest IH]; intros candidates Hl.
  - simpl in Hl. injection Hl as <-. split; [done|].
    intros pool Hin. by apply elem_of_nil in Hin.
  - assert (Hskip : forall P : Prop,
               (PoolSelector.filter_loop cfg self rest candidates = Ok result -> P) ->
               (forall pool',
                   PoolSelector._calc_metrics self pool = Ok pool' ->
                   PoolSelector.filter_loop cfg self rest (candidates ++ [pool'])
                   = Ok result -> P) ->
               P).
    { intros P Hs Hk. simpl in Hl.
      case_bool_decide; [eauto|].
      destruct (negb _ && Dec.ltb _ 0); [eauto|].
      destruct (negb _); [eauto|].
      destruct (Dec.ltb (Pool.depth_05pct pool) _); [eauto|].
      destruct (Dec.ltb (Dec.abs _) _); [eauto|].
      destruct (Dec.ltb (PoolSelector.max_spread self) _); [eauto|].
      apply bind_Ok in Hl as (pool' & Hm & Hl). eauto. }
    split.
    + intros c Hc. apply Hskip.
      * intros Hl'. by apply (IH _ Hl').
      * intros pool' _ Hl'. apply (IH _ Hl'). apply elem_of_app. by left.
    + intros p [->|Hin]%elem_of_cons Hp.
      * rewrite passes_filter_step in Hl by done.
        apply bind_Ok in Hl as (pool' & Hm & Hl).
        exists pool'. split; [done|].
        apply (IH _ Hl). apply elem_of_app. right. by apply list_elem_of_singleton.
      * apply Hskip.
        -- intros Hl'. by apply (IH _ Hl').
        -- intros pool' _ Hl'. by apply (IH _ Hl').
Qed.

Lemma insert_desc_sorted (x : Pool.t) (l : list Pool.t) :
  StronglySorted by_score_desc l ->
  StronglySorted by_score_desc (PoolSelector.insert_desc x l).
Proof.
  induction 1 as [|y ys Hs IH Hy]; simpl.
  - repeat constructor.
  - destruct (Dec.ltb (PoolSelector.sort_key x) (PoolSelector.sort_key y)) eqn:E.
    + constructor; [done|].
      apply Forall_forall. intros z [->|Hz]%elem_of_insert_desc.
      * apply ltb_true_lt in E. by apply Qlt_le_weak.
      * rewrite Forall_forall in Hy. by apply Hy.
    + apply ltb_false_le in E.
      constructor; [by constructor|].
      constructor; [done|].
      eapply Forall_impl; [exact Hy|].
      intros z Hz. unfold by_score_desc in *. by eapply Qle_trans.
Qed.

Lemma sort_desc_sorted (l : list Pool.t) :
  StronglySorted by_score_desc (PoolSelector.sort_desc l).
Proof.
  induction l as [|x l IH]; simpl; [constructor|]. by apply insert_desc_sorted.
Qed.

Lemma insert_desc_perm (x : Pool.t) (l : list Pool.t) :
  PoolSelector.insert_desc x l ≡ₚ x :: l.
Proof.
  induction l as [|y ys IH]; simpl; [done|].
  destruct (Dec.ltb _ _); [|done]. rewrite IH. apply Permutation_swap.
Qed.

Lemma sort_desc_perm (l : list Pool.t) : PoolSelector.sort_desc l ≡ₚ l.
Proof.
  induction l as [|x l IH]; simpl; [done|]. by rewrite insert_desc_perm, IH.
Qed.

(** The sort is stable: an inserted pool only passes pools with a
    strictly greater key. *)
Lemma insert_desc_stable (k : Decimal) (x : Pool.t) (l : list Pool.t) :
  with_score k (PoolSelector.insert_desc x l) = with_score k (x :: l).
Proof.
  unfold with_score.
  induction l as [|y ys IH]; [done|]. cbn [PoolSelector.insert_desc].
  destruct (Dec.ltb (PoolSelector.sort_key x) (PoolSelector.sort_key y)) eqn:E; [|done].
  cbn [List.filter] in *. rewrite IH.
  destruct (Dec.eqb (PoolSelector.sort_key x) k) eqn:Ex; [|done].
  destruct (Dec.eqb (PoolSelector.sort_key y) k) eqn:Ey; [|done].
  exfalso. apply ltb_true_lt in E.
  apply Qeq_bool_iff in Ex, Ey. rewrite Ex, Ey in E. by apply Qlt_irrefl in E.
Qed.

Lemma sort_desc_stable (k : Decimal) (l : list Pool.t) :
  with_score k (PoolSelector.sort_desc l) = with_score k l.
Proof.
  induction l as [|x l IH]; [done|].
  cbn [PoolSelector.sort_desc foldr]. rewrite insert_desc_stable.
  unfold with_score in *. cbn [List.filter].
  change (foldr PoolSelector.insert_desc [] l) with (PoolSelector.sort_desc l).
  by rewrite IH.
Qed.

(** X1.  The list [filter] returns is ordered by score, greatest first
    (a missing or zero score counts as 0); it holds the same pools as the
    list of candidates the loop collected, and pools with equal scores
    keep the order in which the loop met them. *)
Theorem filter_orders_by_score (cfg : Config) (self : PoolSelector.t)
    (pools result : list Pool.t) :
  PoolSelector.filter cfg self pools = Ok result ->
  StronglySorted by_score_desc result
  /\ exists candidates,
       PoolSelector.filter_loop cfg self pools [] = Ok candidates
       /\ result ≡ₚ candidates
       /\ forall k, with_score k result = with_score k candidates.
Proof.
  unfold PoolSelector.filter. intros Hf.
  apply bind_Ok in Hf as (candidates & Hl & Hf). injection Hf as <-.
  split; [apply sort_desc_sorted|].
  exists candidates. split; [done|]. split; [apply sort_desc_perm|].
  intros k. apply sort_desc_stable.
Qed.

Example scenario_ranking_filtered :
  PoolSelector.filter sample_config scenario_selector ranking_pools
  = Ok scenario_ranking.
Proof. vm_compute. reflexivity. Qed.

Lemma filter_orders_by_score_witness :
  StronglySorted by_score_desc scenario_ranking
  /\ exists candidates,
       PoolSelector.filter_loop sample_config scenario_selector ranking_pools []
       = Ok candidates
       /\ scenario_ranking ≡ₚ candidates
       /\ forall k, with_score k scenario_ranking = with_score k candidates.
Proof.
  exact (filter_orders_by_score sample_config scenario_selector ranking_pools
           scenario_ranking scenario_ranking_filtered).
Defined.

(** X2.  When [filter] returns, every pool of the input that satisfies
    all the guards is in the result, with the metrics [_calc_metrics]
    computes for it and its symbol and rate unchanged. *)
Theorem filter_keeps_every_passing_pool (cfg : Config) (self : PoolSelector.t)
    (pools result : list Pool.t) (pool : Pool.t) :
  PoolSelector.filter cfg self pools = Ok result ->
  pool ∈ pools ->
  passes cfg self pool ->
  exists pool',
    PoolSelector._calc_metrics self pool = Ok pool'
    /\ pool' ∈ result
    /\ Pool.symbol pool' = Pool.symbol pool
    /\ Pool.funding_rate pool' = Pool.funding_rate pool.
Proof.
  unfold PoolSelector.filter. intros Hf Hin Hp.
  apply bind_Ok in Hf as (candidates & Hl & Hf). injection Hf as <-.
  apply filter_loop_complete in Hl as [_ Hall].
  destruct (Hall pool Hin Hp) as (pool' & Hm & Hin').
  exists pool'. split; [done|]. split; [by apply elem_of_sort_desc|].
  apply calc_metrics_fields in Hm. tauto.
Qed.

Lemma lower_pool_passes_guards : passes sample_config scenario_selector lower_pool.
Proof.
  unfold passes. repeat split; try (vm_compute; discriminate).
Qed.

Lemma filter_keeps_every_passing_pool_witness :
  exists pool',
    PoolSelector._calc_metrics scenario_selector lower_pool = Ok pool'
    /\ pool' ∈ scenario_ranking
    /\ Pool.symbol pool' = Pool.symbol lower_pool
    /\ Pool.funding_rate pool' = Pool.funding_rate lower_pool.
Proof.
  apply (filter_keeps_every_passing_pool sample_config scenario_selector
           ranking_pools scenario_ranking lower_pool scenario_ranking_filtered).
  - apply elem_of_cons. by left.
  - exact lower_pool_passes_guards.
Defined.

Lemma calc_metrics_nonzero_bounds (self : PoolSelector.t) (pool pool' : Pool.t) :
  PoolSelector._calc_metrics self pool = Ok pool' ->
  ~ PoolSelector.min_depth self == 0 /\ ~ PoolSelector.max_spread self == 0.
Proof.
  unfold PoolSelector._calc_metrics. intros Hm.
  apply bind_Ok in Hm as (profit_info & _ & Hm).
  apply bind_Ok in Hm as (bp & _ & Hm).
  apply bind_Ok in Hm as (depth_ratio & Hdepth & Hm).
  apply bind_Ok in Hm as (liquidity_score & _ & Hm).
  apply bind_Ok in Hm as (spread_ratio & Hspread & _).
  split; eapply div_Ok_nonzero; eassumption.
Qed.

(** X3.  With a minimum depth of 0 or a maximum spread of 0 in the
    configuration, [filter] raises as soon as one pool of the input
    satisfies the guards: the score divides by both bounds. *)
Theorem filter_raises_on_zero_bound (cfg : Config) (self : PoolSelector.t)
    (pools : list Pool.t) (pool : Pool.t) :
  PoolSelector.min_depth self == 0 \/ PoolSelector.max_spread self == 0 ->
  pool ∈ pools ->
  passes cfg self pool ->
  exists e, PoolSelector.filter cfg self pools = Raise e.
Proof.
  intros Hzero Hin Hp.
  destruct (PoolSelector.filter cfg self pools) as [result|e] eqn:Hf; [|eauto].
  exfalso. unfold PoolSelector.filter in Hf.
  apply bind_Ok in Hf as (candidates & Hl & _).
  apply filter_loop_complete in Hl as [_ Hall].
  destruct (Hall pool Hin Hp) as (pool' & Hm & _).
  apply calc_metrics_nonzero_bounds in Hm. tauto.
Qed.

Lemma scenario_pool_passes_zero_depth :
  passes sample_config zero_depth_selector scenario_pool.
Proof.
  unfold passes. repeat split; try (vm_compute; discriminate).
Qed.

Lemma filter_raises_on_zero_bound_witness :
  exists e, PoolSelector.filter sample_config zero_depth_selector [scenario_pool]
            = Raise e.
Proof.
  apply (filter_raises_on_zero_bound sample_config zero_depth_selector
           [scenario_pool] scenario_pool).
  - left. reflexivity.
  - apply elem_of_cons. by left.
  - exact scenario_pool_passes_zero_depth.
Defined.

Lemma slice_to_prefix {A} (n : Z) (l : list A) : slice_to n l `prefix_of` l.
Proof. unfold slice_to. destruct (n <? 0)%Z; apply prefix_take. Qed.

(** X4.  [top_n] returns the beginning of the list [filter] returns: its
    first [n] pools (all of them when there are fewer) for [n >= 0], and,
    as a Python slice does, all but the last [-n] pools for a negative
    [n]. *)
Theorem top_n_is_a_slice (cfg : Config) (self : PoolSelector.t)
    (pools top : list Pool.t) (n : Z) :
  selector.top_n cfg self pools n = Ok top ->
  exists filtered,
    PoolSelector.filter cfg self pools = Ok filtered
    /\ top `prefix_of` filtered
    /\ ((0 <= n)%Z -> length top = Nat.min (Z.to_nat n) (length filtered))
    /\ ((n < 0)%Z -> length top = (length filtered - Z.to_nat (- n))%nat).
Proof.
  unfold selector.top_n. intros Ht.
  apply bind_Ok in Ht as (filtered & Hf & Ht). injection Ht as <-.
  exists filtered. split; [done|]. split; [apply slice_to_prefix|].
  unfold slice_to. split; intros Hn.
  - apply Z.ltb_ge in Hn. rewrite Hn. apply length_take.
  - apply Z.ltb_lt in Hn. rewrite Hn. rewrite length_take. lia.
Qed.

Example scenario_top_1 :
  selector.top_n sample_config scenario_selector ranking_pools 1
  = Ok [scenario_scored]
  /\ selector.top_n sample_config scenario_selector ranking_pools (-1)
     = Ok [scenario_scored]
  /\ selector.top_n sample_config scenario_selector ranking_pools 5
     = Ok scenario_ranking.
Proof. repeat split; vm_compute; reflexivity. Qed.

Lemma top_n_is_a_slice_witness :
  exists filtered,
    PoolSelector.filter sample_config scenario_selector ranking_pools = Ok filtered
    /\ [scenario_scored] `prefix_of` filtered
    /\ ((0 <= 1)%Z
        -> length [scenario_scored] = Nat.min (Z.to_nat 1) (length filtered))
    /\ ((1 < 0)%Z
        -> length [scenario_scored] = (length filtered - Z.to_nat (- (1)))%nat).
Proof.
  exact (top_n_is_a_slice sample_config scenario_selector ranking_pools
           [scenario_scored] 1 (proj1 scenario_top_1)).
Defined.

(** ** Market data (exchange/base.py) and [Pool.from_data] *)

Lemma spread_raises_iff (self : OrderBook.t) :
  (exists e, OrderBook.spread self = Raise e)
  <-> OrderBook.bids self <> [] /\ OrderBook.asks self <> []
      /\ OrderBook.best_bid self == 0.
Proof.
  unfold OrderBook.spread, OrderBook.best_bid.
  destruct (OrderBook.bids self) as [|bid bids], (OrderBook.asks self) as [|ask asks].
  - split; [by intros [e He]|]. by intros ([] & _).
  - split; [by intros [e He]|]. by intros ([] & _).
  - split; [by intros [e He]|]. by intros (_ & [] & _).
  - split.
    + intros [e He]. repeat split; try done.
      destruct (Qeq_dec (fst bid) 0) as [Hz|Hnz]; [done|].
      rewrite div_nonzero in He by done. discriminate.
    + intros (_ & _ & Hz). by apply div_by_zero.
Qed.

Lemma depth_at_pct_total (self : OrderBook.t) (pct : Decimal) :
  exists d, OrderBook.depth_at_pct self pct = Ok d.
Proof.
  unfold OrderBook.depth_at_pct. rewrite div_nonzero by done. simpl. eauto.
Qed.

(** X5.  [Pool.from_data] raises exactly for an order book that has bids
    and asks and whose best bid price is 0 (the spread divides by it); a
    book with an empty side gives a pool with the spread 0.  The pool it
    returns takes the symbol and the rates of the rate record, the price
    and the volume of the ticker, the depth within 0.5% and the spread of
    the book, and has no metrics yet. *)
Theorem from_data_raises_iff_zero_bid (rate : FundingRate.t) (ticker : Ticker.t)
    (orderbook : OrderBook.t) :
  match selector.from_data rate ticker orderbook with
  | Raise _ =>
      OrderBook.bids orderbook <> [] /\ OrderBook.asks orderbook <> []
      /\ OrderBook.best_bid orderbook == 0
  | Ok pool =>
      ~ (OrderBook.bids orderbook <> [] /\ OrderBook.asks orderbook <> []
         /\ OrderBook.best_bid orderbook == 0)
      /\ Pool.symbol pool = FundingRate.symbol rate
      /\ Pool.funding_rate pool = FundingRate.rate rate
      /\ Pool.predicted_rate pool = FundingRate.predicted_rate rate
      /\ Pool.price pool = Ticker.last_price ticker
      /\ Pool.volume_24h pool = Ticker.volume_24h ticker
      /\ OrderBook.depth_at_pct orderbook 0.005 = Ok (Pool.depth_05pct pool)
      /\ OrderBook.spread orderbook = Ok (Pool.spread pool)
      /\ (OrderBook.bids orderbook = [] \/ OrderBook.asks orderbook = [] ->
          Pool.spread pool = 0)
      /\ Pool.expected_profit pool = None
      /\ Pool.breakeven_periods pool = None
      /\ Pool.score pool = None
  end.
Proof.
  unfold selector.from_data.
  destruct (depth_at_pct_total orderbook 0.005) as [d ->]. simpl.
  pose proof (spread_raises_iff orderbook) as Hs.
  destruct (OrderBook.spread orderbook) as [s|e] eqn:Hspread; simpl.
  - repeat split; try done.
    + intros Hz. apply Hs in Hz as [e He]. discriminate.
    + unfold OrderBook.spread in Hspread.
      intros [Hb|Ha].
      * rewrite Hb in Hspread. by injection Hspread as <-.
      * rewrite Ha in Hspread.
        destruct (OrderBook.bids orderbook); by injection Hspread as <-.
  - apply Hs. eauto.
Qed.

(** The depth of [sample_book] within 0.5% of the mid price 50 is
    49.9 * 100 + 50.1 * 80, and its spread is 0.2 / 49.9. *)
Example sample_book_pool :
  selector.from_data (rate_of 0.006) sample_ticker sample_book
  = Ok (Pool.mk "SOL/USDT:USDT" 0.006 0.006 50 1000000 8998
          (1002004008016032064128256513 # 250000000000000000000000000000)
          None None None).
Proof. vm_compute. reflexivity. Qed.

(** X6.  For a base currency without a slash, the base currency of a
    pool whose symbol is [perp_symbol(base, quote)] is [base], and the
    spot symbol the executor builds from it is [spot_symbol(base)]. *)
Theorem base_currency_of_perp_symbol (base quote : string) (pool : Pool.t) :
  has_slash base = false ->
  Pool.symbol pool = exchange_base.perp_symbol base quote ->
  Pool.base_currency pool = base
  /\ (Pool.base_currency pool +:+ "/USDT")%string
     = exchange_base.spot_symbol base "USDT".
Proof.
  intros Hb Hs.
  assert (Hsplit : Pool.base_currency pool = base).
  { unfold Pool.base_currency. rewrite Hs. unfold exchange_base.perp_symbol.
    clear Hs. induction base as [|c base IH]; [done|].
    simpl in *. apply orb_false_iff in Hb as [Hc Hb].
    rewrite Hc. f_equal. by apply IH. }
  split; [done|]. by rewrite Hsplit.
Qed.

Lemma base_currency_of_perp_symbol_witness :
  Pool.base_currency scenario_pool = "SOL"%string
  /\ (Pool.base_currency scenario_pool +:+ "/USDT")%string = "SOL/USDT"%string.
Proof.
  apply (base_currency_of_perp_symbol "SOL" "USDT" scenario_pool); reflexivity.
Defined.

(** ** Executor: rebalancing, restart and the edges (executor.py) *)

Section executor_more.
Context {G : Type} `{ExchangeBase G} `{PyLib}.
Variable cfg : Config.

Ltac run_rebalance :=
  unfold executor.rebalance, executor.is_delta_neutral, bind, lift, try_except,
    get_positions, call_place_spot_order, set_position, ret, with_gateway,
    with_positions;
  simpl.

(** X8.  [rebalance] never writes the position file and sends no alert:
    an executor started afterwards loads the positions it would have
    loaded before.  It leaves every other symbol alone and sends at most
    one request, the spot order for the difference between the perp
    quantity and the spot quantity. *)
Theorem rebalance_is_not_persisted (symbol : string) (w : World G) :
  let w' := snd (executor.rebalance cfg symbol w) in
  position_file w' = position_file w
  /\ positions (snd (executor.__init__ true w'))
     = positions (snd (executor.__init__ true w))
  /\ telegram_sent w' = telegram_sent w
  /\ (forall s, s <> symbol -> positions w' !! s = positions w !! s)
  /\ (requests w' = requests w
      \/ exists position,
           positions w !! symbol = Some position
           /\ requests w' = requests w ++ [rebalance_order position]).
Proof.
  run_rebalance.
  destruct (positions w !! symbol) as [position|] eqn:Hpos; simpl; [|by auto 10].
  destruct (ArbitragePosition.delta position) as [d|e]; simpl; [|by auto 10].
  destruct (Dec.ltb (Dec.abs d) (delta_tolerance cfg)); simpl; [by auto 10|].
  unfold rebalance_order.
  destruct (Dec.ltb 0 (Dec.sub _ _)) eqn:E; simpl;
    destruct (place_spot_order _ _ _ MARKET (gateway w)) as [[order|e] g]; simpl;
    try destruct (ArbitragePosition.delta _); simpl;
    (split; [done|]); (split; [done|]); (split; [done|]);
    (split; [try done; intros s Hs; by rewrite lookup_insert_ne|]);
    right; exists position; by rewrite E.
Qed.

(** X9.  For a tracked position whose delta is at least the tolerance,
    [rebalance] sends one spot market order: a buy of the missing
    quantity when the perp leg is larger, otherwise a sell of the
    surplus.  When the order fails the function returns False and the
    positions are unchanged.  When it fills, the spot quantity moves by
    the ordered amount, the order is appended, the perp leg and the
    recorded spot value stay as they are, and the result is True unless
    the delta of the updated position cannot be computed. *)
Theorem rebalance_trades_the_gap (symbol : string)
    (position : ArbitragePosition.t) (d : Decimal) (w : World G) :
  positions w !! symbol = Some position ->
  ArbitragePosition.delta position = Ok d ->
  delta_tolerance cfg <= Dec.abs d ->
  let adjust_qty :=
    Dec.sub (Dec.abs (ArbitragePosition.perp_qty position))
      (ArbitragePosition.spot_qty position) in
  let r := fst (executor.rebalance cfg symbol w) in
  let w' := snd (executor.rebalance cfg symbol w) in
  requests w' = requests w ++ [rebalance_order position]
  /\ match place_spot_order
             (ArbitragePosition.base_currency position +:+ "/USDT")%string
             (if Dec.ltb 0 adjust_qty then BUY else SELL)
             (if Dec.ltb 0 adjust_qty then adjust_qty else Dec.abs adjust_qty)
             MARKET (gateway w) with
     | (Ok order, _) =>
         exists position',
           positions w' = <[symbol := position']> (positions w)
           /\ ArbitragePosition.spot_qty position'
              = Dec.add (ArbitragePosition.spot_qty position)
                  (if Dec.ltb 0 adjust_qty then adjust_qty
                   else Dec.neg (Dec.abs adjust_qty))
           /\ ArbitragePosition.perp_qty position'
              = ArbitragePosition.perp_qty position
           /\ ArbitragePosition.spot_value position'
              = ArbitragePosition.spot_value position
           /\ ArbitragePosition.orders position'
              = ArbitragePosition.orders position ++ [order]
           /\ r = Ok (match ArbitragePosition.delta position' with
                     | Ok _ => true
                     | Raise _ => false
                     end)
     | (Raise _, _) => r = Ok false /\ positions w' = positions w
     end.
Proof.
  intros Hpos Hdelta Htol. apply ltb_false_iff in Htol.
  run_rebalance. rewrite Hpos. simpl. rewrite Hdelta. simpl. rewrite Htol.
  unfold rebalance_order.
  destruct (Dec.ltb 0 (Dec.sub _ _)) eqn:E; simpl;
    destruct (place_spot_order _ _ _ MARKET (gateway w)) as [[order|e] g]; simpl.
  - destruct (ArbitragePosition.delta (executor.rebalanced _ _ _)) eqn:Hd; simpl;
      (split; [done|]); eexists; (split; [reflexivity|]);
      simpl; rewrite E, ?Hd; done.
  - done.
  - destruct (ArbitragePosition.delta (executor.rebalanced _ _ _)) eqn:Hd; simpl;
      (split; [done|]); eexists; (split; [reflexivity|]);
      simpl; rewrite E, ?Hd; done.
  - done.
Qed.

(** X10.  A position opened by [open_arbitrage] is there again after a
    restart: an executor created afterwards with [load_positions] loads,
    under the pool's symbol, the opened position without its orders (so
    with a total cost of 0), and for every other symbol what the file
    held before the opening. *)
Theorem restart_restores_opened_position (pool : Pool.t) (size_usdt qty : Decimal)
    (spot_order perp_order : Order.t) (w : World G) :
  open_legs cfg pool size_usdt w = Some (qty, Ok spot_order, Ok perp_order) ->
  serialisable (opened_position cfg pool spot_order perp_order (clock w)) ->
  let opened := opened_position cfg pool spot_order perp_order (clock w) in
  let w1 := snd (Executor.open_arbitrage cfg pool size_usdt w) in
  let w2 := snd (executor.__init__ true w1) in
  positions w1 !! Pool.symbol pool = Some opened
  /\ positions w2 !! Pool.symbol pool
     = Some (ArbitragePosition.with_orders opened [])
  /\ ArbitragePosition.total_cost (ArbitragePosition.with_orders opened []) = 0
  /\ forall symbol,
       symbol <> Pool.symbol pool ->
       positions w2 !! symbol = PositionStore.load_all (position_file w) !! symbol.
Proof.
  intros Hlegs Hser opened w1 w2.
  pose proof (open_arbitrage_spec cfg pool size_usdt w) as Hspec.
  simpl in Hspec. rewrite Hlegs in Hspec. destruct Hspec as (_ & Hp & Hf & _).
  subst w1 w2. unfold executor.__init__. cbn [snd positions with_positions].
  rewrite Hp, Hf. unfold PositionStore.load_all, PositionStore.save.
  split; [by rewrite lookup_insert_eq|].
  split.
  { rewrite lookup_omap.
    change (ArbitragePosition.symbol (opened_position cfg pool spot_order perp_order
                                        (clock w))) with (Pool.symbol pool).
    rewrite lookup_insert_eq. simpl.
    unfold PositionStore.load_entry. by rewrite from_dict_pos_dict. }
  split; [done|].
  intros symbol Hne. rewrite !lookup_omap.
  change (ArbitragePosition.symbol (opened_position cfg pool spot_order perp_order
                                      (clock w))) with (Pool.symbol pool).
  by rewrite lookup_insert_ne.
Qed.

(** X11.  The order quantity is computed before the [try] block of
    [open_arbitrage]: for a pool with price 0 the division raises to the
    caller, and nothing was sent or changed. *)
Theorem open_arbitrage_raises_on_zero_price (pool : Pool.t) (size_usdt : Decimal)
    (w : World G) :
  Pool.price pool == 0 ->
  exists e, Executor.open_arbitrage cfg pool size_usdt w = (Raise e, w).
Proof.
  intros Hz. destruct (div_by_zero size_usdt (Pool.price pool) Hz) as [e He].
  exists e. unfold Executor.open_arbitrage, bind, lift. by rewrite He.
Qed.

(** X12.  For a symbol that is not tracked, [close_arbitrage] returns
    None and [rebalance] returns False; neither sends a request or
    changes anything. *)
Theorem untracked_symbol_is_left_alone (symbol : string) (w : World G) :
  positions w !! symbol = None ->
  Executor.close_arbitrage symbol w = (Ok None, w)
  /\ executor.rebalance cfg symbol w = (Ok false, w).
Proof.
  intros Hnone.
  unfold Executor.close_arbitrage, executor.rebalance, bind, get_positions, ret.
  by rewrite Hnone.
Qed.

(** The run of [close_arbitrage] for a tracked symbol, by the answers to
    the two orders and by whether the closing log line can be built. *)
Lemma close_arbitrage_run (symbol : string) (position : ArbitragePosition.t)
    (w : World G) :
  positions w !! symbol = Some position ->
  let r := fst (Executor.close_arbitrage symbol w) in
  let w' := snd (Executor.close_arbitrage symbol w) in
  (forall spot_order perp_order,
     close_legs symbol position w = (Ok spot_order, Ok perp_order) ->
     Forall formattable (close_log_amounts position spot_order perp_order) ->
     r = Ok (Some (realized_pnl position spot_order perp_order))
     /\ positions w' = delete symbol (positions w)
     /\ position_file w' = delete symbol (position_file w))
  /\ (forall spot_order perp_order,
        close_legs symbol position w = (Ok spot_order, Ok perp_order) ->
        ~ Forall formattable (close_log_amounts position spot_order perp_order) ->
        r = Ok None
        /\ positions w'
           = <[symbol := ArbitragePosition.with_orders position
                           (ArbitragePosition.orders position
                            ++ [spot_order; perp_order])]> (positions w)
        /\ position_file w' = position_file w)
  /\ ((forall spot_order perp_order,
         close_legs symbol position w <> (Ok spot_order, Ok perp_order)) ->
      r = Ok None
      /\ positions w' = positions w
      /\ position_file w' = position_file w)
  /\ requests w'
     = requests w
       ++ [SpotOrder (ArbitragePosition.base_currency position +:+ "/USDT")%string
             SELL (ArbitragePosition.spot_qty position) MARKET;
           PerpOrder symbol BUY (Dec.abs (ArbitragePosition.perp_qty position))
             MARKET true].
Proof.
  intros Hpos.
  unfold Executor.close_arbitrage, close_legs, gather2, bind, try_except, attempt,
    raise, lift, get_positions, call_place_spot_order, call_place_perp_order,
    set_position, del_position, ret, with_gateway, with_positions.
  step_open. rewrite Hpos. step_open.
  destruct (place_spot_order _ SELL _ MARKET (gateway w)) as [[s|e1] g1]; step_open;
    destruct (place_perp_order symbol BUY _ MARKET true g1) as [[p|e2] g2]; step_open;
    rewrite <- ?(assoc_L (++)); step_open.
  2-4: split; [|split; [|split]]; [| | |reflexivity];
       [intros ? ? ?; discriminate | intros ? ? ?; discriminate | done].
  unfold close_log_amounts, realized_pnl, ArbitragePosition.with_orders.
  cbn [ArbitragePosition.spot_avg_price ArbitragePosition.spot_qty
       ArbitragePosition.perp_avg_price ArbitragePosition.perp_qty
       ArbitragePosition.funding_earned ArbitragePosition.orders].
  set (spot_pnl := Dec.mul (Dec.sub (Order.price s) _) _).
  set (perp_pnl := Dec.mul (Dec.sub _ (Order.price p)) _).
  set (cost := ArbitragePosition.total_cost _).
  set (total_pnl := Dec.sub _ cost).
  set (closed := ArbitragePosition.mk _ _ _ _ _ _ _ _ _ _ _ _ _).
  destruct (helpers.format_usdt spot_pnl 2) as [?|?] eqn:E1;
    [destruct (helpers.format_usdt perp_pnl 2) as [?|?] eqn:E2;
     [destruct (helpers.format_usdt (ArbitragePosition.funding_earned position) 2)
        as [?|?] eqn:E3;
      [destruct (helpers.format_usdt cost 2) as [?|?] eqn:E4;
       [destruct (helpers.format_usdt total_pnl 2) as [?|?] eqn:E5|]|]|]|];
    step_open.
  1: { rewrite store_remove_spec. step_open.
       split; [|split; [|split]]; [| | |reflexivity].
       - intros ? ? [= <- <-] _. by rewrite delete_insert_eq.
       - intros ? ? [= <- <-] Hnot. exfalso. apply Hnot.
         repeat apply Forall_cons_2; [..|apply Forall_nil_2];
           apply format_usdt_Ok_iff; eauto.
       - intros Hne. by destruct (Hne s p). }
  all: split; [|split; [|split]]; [| | |reflexivity];
    [intros ? ? [= <- <-] Hall; exfalso
    |intros ? ? [= <- <-] _; done
    |intros Hne; by destruct (Hne s p)].
  all: repeat match goal with
         | Hl : Forall formattable (_ :: _) |- _ =>
             apply Forall_cons_1 in Hl as [?%format_usdt_formattable Hl]
         end.
  all: subst total_pnl cost spot_pnl perp_pnl.
  all: repeat match goal with Hs : exists _, _ |- _ => destruct Hs end; congruence.
Qed.

(** X31.  What [close_arbitrage] does for a tracked symbol.  It sends
    the spot sell and the reduce-only perp buy, and nothing else.  When
    either raises it returns None and the map and the file are what they
    were.  When both succeed and the five amounts of the closing log
    line (spot P&L, perp P&L, funding earned, fees, total P&L) are each
    below 10^26 in absolute value, the position leaves the map and the
    file and the realized P&L is returned.  When both succeed and one of
    the amounts is not below 10^26, [format_usdt] raises: the function
    returns None, the position stays in the map with the two closing
    orders appended, and the file keeps its entry.  So the position
    leaves the map exactly when both orders succeed and the five amounts
    can be formatted. *)
Theorem close_arbitrage_removes_iff_closed_and_logged (symbol : string)
    (position : ArbitragePosition.t) (w : World G) :
  positions w !! symbol = Some position ->
  let r := fst (Executor.close_arbitrage symbol w) in
  let w' := snd (Executor.close_arbitrage symbol w) in
  (forall spot_order perp_order,
     close_legs symbol position w = (Ok spot_order, Ok perp_order) ->
     Forall formattable (close_log_amounts position spot_order perp_order) ->
     r = Ok (Some (realized_pnl position spot_order perp_order))
     /\ positions w' = delete symbol (positions w)
     /\ position_file w' = delete symbol (position_file w))
  /\ (forall spot_order perp_order,
        close_legs symbol position w = (Ok spot_order, Ok perp_order) ->
        ~ Forall formattable (close_log_amounts position spot_order perp_order) ->
        r = Ok None
        /\ positions w'
           = <[symbol := ArbitragePosition.with_orders position
                           (ArbitragePosition.orders position
                            ++ [spot_order; perp_order])]> (positions w)
        /\ position_file w' = position_file w)
  /\ ((forall spot_order perp_order,
         close_legs symbol position w <> (Ok spot_order, Ok perp_order)) ->
      r = Ok None
      /\ positions w' = positions w
      /\ position_file w' = position_file w)
  /\ (positions w' !! symbol = None
      <-> exists spot_order perp_order,
            close_legs symbol position w = (Ok spot_order, Ok perp_order)
            /\ Forall formattable (close_log_amounts position spot_order perp_order))
  /\ requests w'
     = requests w
       ++ [SpotOrder (ArbitragePosition.base_currency position +:+ "/USDT")%string
             SELL (ArbitragePosition.spot_qty position) MARKET;
           PerpOrder symbol BUY (Dec.abs (ArbitragePosition.perp_qty position))
             MARKET true].
Proof.
  intros Hpos r w'. subst r w'.
  destruct (close_arbitrage_run symbol position w Hpos) as (Hboth & Hlog & Hleg & Hreq).
  split; [exact Hboth|]. split; [exact Hlog|]. split; [exact Hleg|].
  split; [|exact Hreq].
  destruct (close_legs symbol position w) as [[s|e1] [p|e2]] eqn:Hlegs.
  - destruct (List.Forall_dec formattable
                (fun a => match Qlt_le_dec (Qabs a) (inject_Z (10 ^ 26)) with
                          | left Hlt => left Hlt
                          | right Hge => right (Qle_not_lt _ _ Hge)
                          end)
                (close_log_amounts position s p)) as [Hall|Hnot].
    + destruct (Hboth s p eq_refl Hall) as (_ & -> & _).
      rewrite lookup_delete_eq. split; [eauto|done].
    + destruct (Hlog s p eq_refl Hnot) as (_ & -> & _).
      rewrite lookup_insert_eq. split; [done|].
      by intros (? & ? & [= <- <-] & ?).
  - destruct Hleg as (_ & -> & _); [by intros ? ?|].
    rewrite Hpos. split; [done|]. by intros (? & ? & ? & _).
  - destruct Hleg as (_ & -> & _); [by intros ? ?|].
    rewrite Hpos. split; [done|]. by intros (? & ? & ? & _).
  - destruct Hleg as (_ & -> & _); [by intros ? ?|].
    rewrite Hpos. split; [done|]. by intros (? & ? & ? & _).
Qed.
End executor_more.

Example drifted_position_delta :
  ArbitragePosition.delta drifted_position = Ok (-1 # 4).
Proof. vm_compute. reflexivity. Qed.

(** On the paper exchange the drifted position is brought back to a
    spot quantity of 2 by a buy of 0.4; the file still holds the
    quantities saved before. *)
Example scenario_rebalance :
  fst (paper_rebalance "SOL/USDT:USDT"
         (drifted_world (PaperExchange.mk false false 50 [] [] ∅))) = Ok true
  /\ requests (snd (paper_rebalance "SOL/USDT:USDT"
                      (drifted_world (PaperExchange.mk false false 50 [] [] ∅))))
     = [SpotOrder "SOL/USDT" BUY (2 # 5) MARKET]
  /\ ArbitragePosition.spot_qty
       <$> positions (snd (paper_rebalance "SOL/USDT:USDT"
                             (drifted_world (PaperExchange.mk false false 50 [] [] ∅))))
           !! "SOL/USDT:USDT"%string
     = Some 2.
Proof. repeat split; vm_compute; reflexivity. Qed.

Lemma rebalance_trades_the_gap_witness :
  requests (snd (paper_rebalance "SOL/USDT:USDT"
                   (drifted_world (PaperExchange.mk false false 50 [] [] ∅))))
  = requests (drifted_world (PaperExchange.mk false false 50 [] [] ∅))
    ++ [rebalance_order drifted_position].
Proof.
  refine (proj1 (@rebalance_trades_the_gap _ PaperExchange.exchange sample_config
                   "SOL/USDT:USDT" drifted_position (-1 # 4)
                   (drifted_world (PaperExchange.mk false false 50 [] [] ∅))
                   _ _ _)).
  - reflexivity.
  - exact drifted_position_delta.
  - vm_compute. discriminate.
Defined.

Example scenario_open_legs :
  @open_legs _ PaperExchange.exchange sample_config scenario_pool 100 paper_world
  = Some (2, Ok (PaperExchange.fill "SOL/USDT" BUY 2 MARKET (gateway paper_world)),
          Ok (PaperExchange.fill "SOL/USDT:USDT" SELL 2 MARKET (gateway paper_world))).
Proof. vm_compute. reflexivity. Qed.

Lemma scenario_opened_serialisable :
  @serialisable SampleLib.lib
    (opened_position sample_config scenario_pool
       (PaperExchange.fill "SOL/USDT" BUY 2 MARKET (gateway paper_world))
       (PaperExchange.fill "SOL/USDT:USDT" SELL 2 MARKET (gateway paper_world))
       (clock paper_world)).
Proof.
  repeat split; try (vm_compute; reflexivity).
  intros Hc. vm_compute in Hc. discriminate.
Qed.

Lemma restart_restores_opened_position_witness :
  let opened :=
    opened_position sample_config scenario_pool
      (PaperExchange.fill "SOL/USDT" BUY 2 MARKET (gateway paper_world))
      (PaperExchange.fill "SOL/USDT:USDT" SELL 2 MARKET (gateway paper_world))
      (clock paper_world) in
  positions (snd (paper_restart (snd (paper_open scenario_pool 100 paper_world))))
    !! Pool.symbol scenario_pool
  = Some (ArbitragePosition.with_orders opened []).
Proof.
  intros opened.
  exact (proj1 (proj2 (@restart_restores_opened_position _ PaperExchange.exchange
                         SampleLib.lib sample_config scenario_pool 100 2 _ _
                         paper_world scenario_open_legs
                         scenario_opened_serialisable))).
Defined.

Lemma open_arbitrage_raises_on_zero_price_witness :
  exists e, paper_open unpriced_pool 100 paper_world = (Raise e, paper_world).
Proof.
  apply (@open_arbitrage_raises_on_zero_price _ PaperExchange.exchange SampleLib.lib
           sample_config unpriced_pool 100 paper_world).
  reflexivity.
Defined.

Lemma untracked_symbol_is_left_alone_witness :
  paper_close "SOL/USDT:USDT" paper_world = (Ok None, paper_world)
  /\ paper_rebalance "SOL/USDT:USDT" paper_world = (Ok false, paper_world).
Proof.
  apply (@untracked_symbol_is_left_alone _ PaperExchange.exchange sample_config
           "SOL/USDT:USDT" paper_world).
  reflexivity.
Defined.

Lemma close_arbitrage_removes_iff_closed_and_logged_witness :
  positions (tracking_world (PaperExchange.mk false false 50 [] [] ∅))
    !! "SOL/USDT:USDT"%string = Some sample_position
  /\ fst (paper_close "SOL/USDT:USDT"
            (tracking_world (PaperExchange.mk false false 50 [] [] ∅)))
     = Ok (Some (realized_pnl sample_position
                   (PaperExchange.fill "SOL/USDT" SELL 2 MARKET
                      (PaperExchange.mk false false 50 [] [] ∅))
                   (PaperExchange.fill "SOL/USDT:USDT" BUY 2 MARKET
                      (PaperExchange.mk false false 50 [] [] ∅))))
  /\ positions (snd (paper_close "SOL/USDT:USDT"
                       (tracking_world (PaperExchange.mk false false 50 [] [] ∅))))
     = delete "SOL/USDT:USDT"%string
         (positions (tracking_world (PaperExchange.mk false false 50 [] [] ∅)))
  /\ position_file (snd (paper_close "SOL/USDT:USDT"
                           (tracking_world (PaperExchange.mk false false 50 [] [] ∅))))
     = delete "SOL/USDT:USDT"%string
         (position_file (tracking_world (PaperExchange.mk false false 50 [] [] ∅))).
Proof.
  assert (Hpos : positions (tracking_world (PaperExchange.mk false false 50 [] [] ∅))
                   !! "SOL/USDT:USDT"%string = Some sample_position)
    by reflexivity.
  split; [exact Hpos|].
  destruct (@close_arbitrage_removes_iff_closed_and_logged _ PaperExchange.exchange
              "SOL/USDT:USDT" sample_position _ Hpos)
    as (Hboth & _).
  apply Hboth; [vm_compute; reflexivity|].
  repeat apply List.Forall_cons; try apply List.Forall_nil; vm_compute; reflexivity.
Defined.

(** ** Position store: removal, replacement and funding (position_store.py) *)

Section store_props.
Context `{PyLib}.

(** X13.  [remove] returns True exactly when the file holds the symbol;
    afterwards loading the file gives no position for it and the same
    positions as before for every other symbol; a call that returns
    False leaves the file as it is, and so does a second removal. *)
Theorem remove_forgets_one_symbol (symbol : string)
    (file : gmap string PositionJson.t) :
  let removed := fst (PositionStore.remove symbol file) in
  let file' := snd (PositionStore.remove symbol file) in
  (removed = true <-> is_Some (file !! symbol))
  /\ (removed = false -> file' = file)
  /\ PositionStore.load_all file' !! symbol = None
  /\ (forall other, other <> symbol ->
        PositionStore.load_all file' !! other = PositionStore.load_all file !! other)
  /\ PositionStore.remove symbol file' = (false, file').
Proof.
  unfold PositionStore.remove, PositionStore.load_all.
  destruct (file !! symbol) as [data|] eqn:E; simpl.
  - split; [split; eauto|]. split; [done|].
    split; [by rewrite lookup_omap, lookup_delete_eq|].
    split; [intros other Hne; by rewrite !lookup_omap, lookup_delete_ne|].
    by rewrite lookup_delete_eq.
  - split; [split; [done|by intros [? ?]]|]. split; [done|].
    split; [by rewrite lookup_omap, E|]. split; [done|]. by rewrite E.
Qed.

(** X14.  [save] replaces the entry of the position's symbol and no
    other: the positions loaded for other symbols are the same, a saved
    position overwrites an earlier one with the same symbol, and removing
    the symbol after the save gives the file without that symbol. *)
Theorem save_replaces_one_entry (position : ArbitragePosition.t)
    (file : gmap string PositionJson.t) :
  (forall symbol, symbol <> ArbitragePosition.symbol position ->
     PositionStore.load_all (PositionStore.save position file) !! symbol
     = PositionStore.load_all file !! symbol)
  /\ (forall previous,
        ArbitragePosition.symbol previous = ArbitragePosition.symbol position ->
        PositionStore.save position (PositionStore.save previous file)
        = PositionStore.save position file)
  /\ PositionStore.remove (ArbitragePosition.symbol position)
       (PositionStore.save position file)
     = (true, delete (ArbitragePosition.symbol position) file).
Proof.
  unfold PositionStore.save, PositionStore.load_all, PositionStore.remove.
  split; [|split].
  - intros symbol Hne. by rewrite !lookup_omap, lookup_insert_ne.
  - intros previous ->. apply insert_insert_eq.
  - rewrite lookup_insert_eq. f_equal. apply delete_insert_eq.
Qed.

Lemma save_all_lookup (items : list (string * ArbitragePosition.t))
    (file : gmap string PositionJson.t) (symbol : string) :
  NoDup items.*1 ->
  (forall k p, (k, p) ∈ items -> ArbitragePosition.symbol p = k) ->
  fold_left (fun file position => PositionStore.save position file) items.*2 file
    !! symbol
  = match (list_to_map items : gmap string ArbitragePosition.t) !! symbol with
    | Some p => Some (PositionStore.pos_dict p)
    | None => file !! symbol
    end.
Proof.
  revert file. induction items as [|[k p] items IH]; intros file Hnd Hsym.
  - simpl. by rewrite lookup_empty.
  - apply NoDup_cons in Hnd as [Hk Hnd]. cbn [fmap list_fmap fold_left snd].
    rewrite IH; [|done|intros k' p' Hin; apply Hsym; by right].
    cbn [list_to_map foldr curry fst snd].
    assert (Hp : ArbitragePosition.symbol p = k) by (apply Hsym; by left).
    unfold PositionStore.save. rewrite Hp.
    destruct (decide (symbol = k)) as [->|Hne].
    + rewrite lookup_insert_eq.
      rewrite (not_elem_of_list_to_map_1 _ _ Hk). by rewrite lookup_insert_eq.
    + by rewrite !lookup_insert_ne by done.
Qed.

(** X15.  For a map of positions keyed by their own symbols, as the
    executor keeps it, [save_all] followed by [load_all] gives every
    position of the map back without its orders, and for the symbols
    outside the map what the file held before. *)
Theorem save_all_load_all_round_trip (positions : gmap string ArbitragePosition.t)
    (file : gmap string PositionJson.t) (symbol : string) :
  (forall k p, positions !! k = Some p ->
     ArbitragePosition.symbol p = k /\ serialisable p) ->
  PositionStore.load_all (position_store.save_all positions file) !! symbol
  = match positions !! symbol with
    | Some p => Some (ArbitragePosition.with_orders p [])
    | None => PositionStore.load_all file !! symbol
    end.
Proof.
  intros Hall. unfold position_store.save_all, PositionStore.load_all.
  rewrite !lookup_omap.
  rewrite save_all_lookup.
  - rewrite list_to_map_to_list.
    destruct (positions !! symbol) as [p|] eqn:E; [|done]. simpl.
    unfold PositionStore.load_entry.
    rewrite from_dict_pos_dict; [done|]. by apply (Hall symbol).
  - apply NoDup_fst_map_to_list.
  - intros k p Hin. apply elem_of_map_to_list in Hin. by apply Hall.
Qed.

(** X16.  After a position was saved, [update_funding_income] for its
    symbol returns True, and loading the file gives that position with
    the income added to its funding earned and one more funding period
    (and no orders); the positions of other symbols are unchanged. *)
Theorem update_funding_income_credits_one_period (symbol : string)
    (income : Decimal) (position : ArbitragePosition.t)
    (file : gmap string PositionJson.t) :
  ArbitragePosition.symbol position = symbol ->
  serialisable position ->
  str_round_trips (Dec.add (ArbitragePosition.funding_earned position) income) ->
  let saved := PositionStore.save position file in
  let r := fst (position_store.update_funding_income symbol income saved) in
  let file' := snd (position_store.update_funding_income symbol income saved) in
  r = Ok true
  /\ PositionStore.load_all file' !! symbol = Some (credited position income)
  /\ forall other, other <> symbol ->
       PositionStore.load_all file' !! other = PositionStore.load_all file !! other.
Proof.
  intros Hsym Hser Hsum.
  pose proof Hser as (H1 & H2 & H3 & H4 & H5 & H6 & H7 & H8).
  unfold str_round_trips in *.
  unfold position_store.update_funding_income, PositionStore.save.
  rewrite Hsym, lookup_insert_eq. cbn [PositionJson.funding_earned PositionStore.pos_dict].
  rewrite H7. cbn [fst snd]. split; [done|].
  unfold PositionStore.load_all. split.
  - rewrite lookup_omap, lookup_insert_eq. simpl.
    unfold PositionStore.load_entry, PositionStore.from_dict. simpl.
    rewrite H1, H2, H3, H4, H5, H6, Hsum. simpl.
    unfold credited. rewrite Hsym.
    destruct (ArbitragePosition.opened_at position) as [t|]; simpl in *; [|done].
    destruct H8 as [Hne Hiso]. apply String.eqb_neq in Hne. by rewrite Hne, Hiso.
  - intros other Hne. by rewrite !lookup_omap, !lookup_insert_ne.
Qed.

(** X17.  [update_funding_income] returns False exactly for a symbol the
    file does not hold; it changes the file only when it returns True,
    and then only the entry of that symbol, whose funding earned becomes
    the text of the old amount plus the income and whose funding periods
    grow by one (from 0 when the entry had none).  When the stored amount
    cannot be read as a decimal, the call raises. *)
Theorem update_funding_income_changes_one_entry (symbol : string)
    (income : Decimal) (file : gmap string PositionJson.t) :
  let r := fst (position_store.update_funding_income symbol income file) in
  let file' := snd (position_store.update_funding_income symbol income file) in
  (r = Ok false <-> file !! symbol = None)
  /\ (r <> Ok true -> file' = file)
  /\ (forall other, other <> symbol -> file' !! other = file !! other)
  /\ (r = Ok true ->
      exists data current,
        file !! symbol = Some data
        /\ Decimal_of_str (PositionJson.funding_earned data) = Ok current
        /\ file' !! symbol
           = Some (position_store.with_funding data
                     (Decimal_str (Dec.add current income))
                     (default 0%Z (PositionJson.funding_periods data) + 1)))
  /\ (forall data e,
        file !! symbol = Some data ->
        Decimal_of_str (PositionJson.funding_earned data) = Raise e ->
        r = Raise e).
Proof.
  unfold position_store.update_funding_income.
  destruct (file !! symbol) as [data|] eqn:E; [|by repeat split].
  destruct (Decimal_of_str (PositionJson.funding_earned data)) as [current|e] eqn:Hc;
    cbn [fst snd].
  - split; [done|]. split; [done|].
    split; [intros other Hne; by rewrite lookup_insert_ne|].
    split; [|by intros ? ? [= <-]; rewrite Hc].
    intros _. exists data, current. by rewrite lookup_insert_eq.
  - split; [done|]. split; [done|]. split; [done|]. split; [done|].
    intros ? ? [= <-]. rewrite Hc. by intros [= ->].
Qed.
End store_props.

Lemma save_all_load_all_round_trip_witness :
  @PositionStore.load_all SampleLib.lib
    (@position_store.save_all SampleLib.lib
       {[ "SOL/USDT:USDT"%string := sample_position ]} ∅)
    !! "SOL/USDT:USDT"%string
  = match ({[ "SOL/USDT:USDT"%string := sample_position ]}
             : gmap string ArbitragePosition.t) !! "SOL/USDT:USDT"%string with
    | Some p => Some (ArbitragePosition.with_orders p [])
    | None => @PositionStore.load_all SampleLib.lib ∅ !! "SOL/USDT:USDT"%string
    end.
Proof.
  apply (@save_all_load_all_round_trip SampleLib.lib).
  intros k p Hl. apply lookup_singleton_Some in Hl as [<- <-].
  split; [reflexivity|exact sample_position_serialisable].
Defined.

Example sample_position_credited :
  @PositionStore.load_all SampleLib.lib
    (snd (@position_store.update_funding_income SampleLib.lib "SOL/USDT:USDT" 0.1
            (@PositionStore.save SampleLib.lib sample_position ∅)))
    !! "SOL/USDT:USDT"%string
  = Some (ArbitragePosition.mk "SOL/USDT:USDT" "SOL" 2 50 100 (-2) 50 100 (2 # 5) 2
            (Some 1700000000%Z) 4 []).
Proof. vm_compute. reflexivity. Qed.

Lemma update_funding_income_credits_one_period_witness :
  fst (@position_store.update_funding_income SampleLib.lib "SOL/USDT:USDT" 0.1
         (@PositionStore.save SampleLib.lib sample_position ∅)) = Ok true
  /\ @PositionStore.load_all SampleLib.lib
       (snd (@position_store.update_funding_income SampleLib.lib "SOL/USDT:USDT" 0.1
               (@PositionStore.save SampleLib.lib sample_position ∅)))
       !! "SOL/USDT:USDT"%string
     = Some (credited sample_position 0.1).
Proof.
  destruct (@update_funding_income_credits_one_period SampleLib.lib "SOL/USDT:USDT"
              0.1 sample_position ∅ eq_refl sample_position_serialisable)
    as (Hr & Hl & _).
  { vm_compute. reflexivity. }
  split; assumption.
Defined.

(** ** Funding ledger: records, totals and queries (funding_tracker.py) *)

Section tracker_props.
Context `{PyLib}.

Lemma mapM_Ok_Forall2 {A B} (f : A -> outcome B) (l : list A) (rs : list B) :
  mapM f l = Ok rs -> Forall2 (fun x y => f x = Ok y) l rs.
Proof.
  revert rs. induction l as [|x l IH]; intros rs Hm; simpl in Hm.
  - injection Hm as <-. constructor.
  - apply bind_Ok in Hm as (y & Hy & Hm). apply bind_Ok in Hm as (k & Hk & Hm).
    injection Hm as <-. constructor; [done|]. by apply IH.
Qed.

Lemma mapM_Ok_length {A B} (f : A -> outcome B) (l : list A) (rs : list B) :
  mapM f l = Ok rs -> length rs = length l.
Proof. intros Hm. apply mapM_Ok_Forall2 in Hm. symmetry. by eapply Forall2_length. Qed.

Lemma total_loop_app (symbol : option string) (total : Decimal)
    (l1 l2 : list FundingRow.t) :
  funding_tracker.total_loop symbol total (l1 ++ l2)
  = (t ← funding_tracker.total_loop symbol total l1;
     funding_tracker.total_loop symbol t l2).
Proof.
  revert total. induction l1 as [|r l1 IH]; intros total; [done|].
  simpl. destruct (funding_tracker.selects symbol r); [|apply IH].
  destruct (Decimal_of_str (FundingRow.income r)) as [income|e]; simpl; [apply IH|done].
Qed.

(** X18.  [record_funding] appends one row, the record it returns, to
    the ledger; its income is the position value times the absolute
    rate, so the same for a rate and its negative.  Afterwards the total
    income of that symbol, and the total over all symbols, is the total
    before plus that income (or raises as it did before), and the total
    of every other symbol is unchanged. *)
Theorem record_funding_adds_its_income (symbol : string)
    (rate position_value : Decimal) (now : datetime) (ledger : list FundingRow.t) :
  str_round_trips (Dec.mul position_value (Dec.abs rate)) ->
  let record := fst (funding_tracker.record_funding symbol rate position_value now
                       ledger) in
  let ledger' := snd (funding_tracker.record_funding symbol rate position_value now
                        ledger) in
  ledger' = ledger ++ [funding_tracker.to_dict record]
  /\ FundingRecord.income record
     = FundingRecord.income
         (fst (funding_tracker.record_funding symbol (- rate) position_value now
                 ledger))
  /\ funding_tracker.get_total_income (Some symbol) ledger'
     = (total ← funding_tracker.get_total_income (Some symbol) ledger;
        Ok (Dec.add total (FundingRecord.income record)))
  /\ funding_tracker.get_total_income None ledger'
     = (total ← funding_tracker.get_total_income None ledger;
        Ok (Dec.add total (FundingRecord.income record)))
  /\ forall other,
       other <> symbol ->
       funding_tracker.get_total_income (Some other) ledger'
       = funding_tracker.get_total_income (Some other) ledger.
Proof.
  intros Hstr. unfold str_round_trips in Hstr.
  unfold funding_tracker.record_funding, funding_tracker.get_total_income.
  cbn [fst snd FundingRecord.income].
  split; [done|]. split; [by rewrite dec_abs_opp|].
  rewrite !total_loop_app.
  split; [|split].
  - destruct (funding_tracker.total_loop _ 0 ledger) as [total|e]; simpl; [|done].
    rewrite bool_decide_eq_true_2 by done. by rewrite Hstr.
  - destruct (funding_tracker.total_loop _ 0 ledger) as [total|e]; simpl; [|done].
    by rewrite Hstr.
  - intros other Hne. rewrite total_loop_app.
    destruct (funding_tracker.total_loop _ 0 ledger) as [total|e]; simpl; [|done].
    rewrite bool_decide_eq_false_2; [done|]. by intros [= ->].
Qed.

Lemma from_dict_to_dict (record : FundingRecord.t) :
  str_round_trips (FundingRecord.rate record) ->
  str_round_trips (FundingRecord.position_value record) ->
  str_round_trips (FundingRecord.income record) ->
  fromisoformat (isoformat (FundingRecord.timestamp record))
  = Ok (FundingRecord.timestamp record) ->
  funding_tracker.from_dict (funding_tracker.to_dict record) = Ok record.
Proof.
  unfold str_round_trips. intros Hr Hv Hi Ht.
  unfold funding_tracker.from_dict, funding_tracker.to_dict. simpl.
  rewrite Hr, Hv, Hi, Ht. simpl. by destruct record.
Qed.

(** X19.  [get_recent_records(limit)] returns the records of the slice
    [records[-limit:]]: for a positive limit at most [limit] records, the
    last ones; for the limit 0 every record of the ledger, not none; for
    a negative limit all but the first [-limit]. *)
Theorem get_recent_records_limit (limit : Z) (ledger : list FundingRow.t)
    (records : list FundingRecord.t) :
  funding_tracker.get_recent_records limit ledger = Ok records ->
  Forall2 (fun row record => funding_tracker.from_dict row = Ok record)
    (slice_from (- limit) ledger) records
  /\ slice_from (- limit) ledger `suffix_of` ledger
  /\ ((0 < limit)%Z -> length records = Nat.min (Z.to_nat limit) (length ledger))
  /\ (limit = 0%Z -> length records = length ledger)
  /\ ((limit < 0)%Z -> length records = (length ledger - Z.to_nat (- limit))%nat).
Proof.
  unfold funding_tracker.get_recent_records. intros Hm.
  split; [by apply mapM_Ok_Forall2|].
  split; [unfold slice_from; destruct (_ <? _)%Z; apply suffix_drop|].
  apply mapM_Ok_length in Hm. rewrite Hm. unfold slice_from.
  destruct (Z.ltb_spec (- limit) 0) as [Hlt|Hge]; rewrite length_drop.
  - split; [intros _; rewrite Z.opp_involutive; lia|]. split; lia.
  - split; [lia|]. split; [intros ->; simpl; lia|]. intros _. lia.
Qed.

(** X20.  A settlement that was just recorded is the most recent record:
    [get_recent_records(1)] on the ledger [record_funding] leaves returns
    exactly the record [record_funding] returned. *)
Theorem recorded_settlement_is_most_recent (symbol : string)
    (rate position_value : Decimal) (now : datetime) (ledger : list FundingRow.t) :
  str_round_trips rate ->
  str_round_trips position_value ->
  str_round_trips (Dec.mul position_value (Dec.abs rate)) ->
  fromisoformat (isoformat now) = Ok now ->
  funding_tracker.get_recent_records 1
    (snd (funding_tracker.record_funding symbol rate position_value now ledger))
  = Ok [fst (funding_tracker.record_funding symbol rate position_value now ledger)].
Proof.
  intros Hr Hv Hi Ht.
  unfold funding_tracker.get_recent_records, funding_tracker.record_funding, slice_from.
  cbn [fst snd]. change (- (1) <? 0)%Z with true. cbn match.
  rewrite length_app. cbn [length].
  replace (length ledger + 1 - Z.to_nat (- - (1)))%nat with (length ledger)
    by (change (Z.to_nat (- - (1))) with 1%nat; lia).
  rewrite drop_app_length. cbn [mapM].
  rewrite from_dict_to_dict by done. done.
Qed.

Lemma from_dict_fields (data : FundingRow.t) (record : FundingRecord.t) :
  funding_tracker.from_dict data = Ok record ->
  FundingRecord.symbol record = FundingRow.symbol data
  /\ Decimal_of_str (FundingRow.income data) = Ok (FundingRecord.income record).
Proof.
  unfold funding_tracker.from_dict. intros Hf. outcome_inv. simpl. done.
Qed.

Lemma total_loop_records (symbol : string) (ledger : list FundingRow.t)
    (records : list FundingRecord.t) (total : Decimal) :
  funding_tracker.get_records_by_symbol symbol ledger = Ok records ->
  funding_tracker.total_loop (Some symbol) total ledger
  = Ok (income_sum total records).
Proof.
  unfold funding_tracker.get_records_by_symbol.
  revert records total. induction ledger as [|r ledger IH]; intros records total Hm.
  - simpl in Hm. by injection Hm as <-.
  - cbn [List.filter funding_tracker.total_loop funding_tracker.selects] in *.
    destruct (bool_decide (FundingRow.symbol r = Some symbol)); [|by apply IH].
    cbn [mapM] in Hm. apply bind_Ok in Hm as (record & Hrec & Hm).
    apply bind_Ok in Hm as (rest & Hrest & Hm). injection Hm as <-.
    apply from_dict_fields in Hrec as [_ ->]. simpl. by apply IH.
Qed.

(** X21.  When [get_records_by_symbol] returns, every record it returns
    carries that symbol, there is one per ledger row of the symbol, and
    [get_total_income] for the symbol is the sum of their incomes, added
    in ledger order. *)
Theorem total_income_is_sum_of_records (symbol : string)
    (ledger : list FundingRow.t) (records : list FundingRecord.t) :
  funding_tracker.get_records_by_symbol symbol ledger = Ok records ->
  Forall (fun record => FundingRecord.symbol record = Some symbol) records
  /\ length records
     = length (List.filter
                 (fun r => bool_decide (FundingRow.symbol r = Some symbol)) ledger)
  /\ funding_tracker.get_total_income (Some symbol) ledger
     = Ok (income_sum 0 records).
Proof.
  intros Hm. split; [|split].
  - unfold funding_tracker.get_records_by_symbol in Hm.
    apply mapM_Ok_Forall2 in Hm.
    assert (Hall : Forall (fun r => FundingRow.symbol r = Some symbol)
                     (List.filter
                        (fun r => bool_decide (FundingRow.symbol r = Some symbol))
                        ledger)).
    { apply Forall_forall. intros r Hr. apply list_elem_of_In in Hr.
      apply List.filter_In in Hr as [_ Hr]. by apply bool_decide_eq_true in Hr. }
    revert Hall. induction Hm as [|r record l rs Hf _ IH]; intros Hall; [done|].
    apply Forall_cons in Hall as [Hr Hall].
    constructor; [|by apply IH].
    apply from_dict_fields in Hf as [-> _]. done.
  - unfold funding_tracker.get_records_by_symbol in Hm. by apply mapM_Ok_length in Hm.
  - by apply total_loop_records.
Qed.

Lemma sync_step_appends (keys keys' : gset FundingTracker.key) (added added' : nat)
    (records records' : list FundingRow.t) (p : Payment.t) :
  FundingTracker.sync_step (keys, added, records) p = Ok (keys', added', records') ->
  exists new,
    records' = records ++ new /\ added' = (added + length new)%nat
    /\ (length new <= 1)%nat.
Proof.
  unfold FundingTracker.sync_step. intros Hs.
  apply bind_Ok in Hs as (income & _ & Hs).
  apply bind_Ok in Hs as (rate & _ & Hs).
  apply bind_Ok in Hs as (position_value & _ & Hs).
  assert (Hsame : Ok (keys, added, records) = Ok (keys', added', records') ->
                  exists new, records' = records ++ new
                              /\ added' = (added + length new)%nat
                              /\ (length new <= 1)%nat).
  { intros [= <- <- <-]. exists []. rewrite app_nil_r. simpl. split; [done|]. lia. }
  destruct (Payment.timestamp p) as [ts|ts|]; [| |by apply Hsame].
  - case_bool_decide; [by apply Hsame|].
    apply bind_Ok in Hs as (timestamp & _ & Hs). injection Hs as <- <- <-.
    eexists [_]. simpl. split; [done|]. lia.
  - case_bool_decide; [by apply Hsame|].
    apply bind_Ok in Hs as (timestamp & _ & Hs). injection Hs as <- <- <-.
    eexists [_]. simpl. split; [done|]. lia.
Qed.

Lemma sync_loop_appends (payments : list Payment.t)
    (keys keys' : gset FundingTracker.key) (added added' : nat)
    (records records' : list FundingRow.t) :
  FundingTracker.sync_loop (keys, added, records) payments
  = Ok (keys', added', records') ->
  exists new,
    records' = records ++ new /\ added' = (added + length new)%nat
    /\ (length new <= length payments)%nat.
Proof.
  revert keys added records.
  induction payments as [|p payments IH]; intros keys added records Hl.
  - simpl in Hl. injection Hl as <- <- <-. exists []. rewrite app_nil_r. simpl.
    split; [done|]. lia.
  - cbn [FundingTracker.sync_loop] in Hl.
    apply bind_Ok in Hl as ([[keys1 added1] records1] & Hstep & Hl).
    apply sync_step_appends in Hstep as (new1 & -> & -> & Hlen1).
    apply IH in Hl as (new2 & -> & -> & Hlen2).
    exists (new1 ++ new2). rewrite length_app, (assoc_L (++)). simpl.
    split; [done|]. lia.
Qed.

(** X22.  For any list of payments, well formed or not,
    [sync_remote_payments] only appends: when it returns a number, the
    ledger is the old ledger followed by that many new rows, at most one
    per payment; when it raises, the ledger is what it was. *)
Theorem sync_remote_payments_only_appends (payments : list Payment.t)
    (ledger : list FundingRow.t) :
  match FundingTracker.sync_remote_payments payments ledger with
  | (Ok added, ledger') =>
      exists new,
        ledger' = ledger ++ new /\ added = length new
        /\ (length new <= length payments)%nat
  | (Raise _, ledger') => ledger' = ledger
  end.
Proof.
  unfold FundingTracker.sync_remote_payments.
  destruct payments as [|p payments].
  { exists []. by rewrite app_nil_r. }
  destruct (FundingTracker.sync_loop _ (p :: payments))
    as [[[keys' added'] records']|e] eqn:Hl; [|done].
  apply sync_loop_appends in Hl as (new & -> & -> & Hlen).
  exists new. simpl in *. split; [|done].
  by destruct new; [rewrite app_nil_r|].
Qed.
End tracker_props.

Lemma record_funding_adds_its_income_witness :
  @funding_tracker.get_total_income SampleLib.lib (Some "SOL/USDT:USDT"%string)
    (snd (@funding_tracker.record_funding SampleLib.lib "SOL/USDT:USDT" 0.0001 100
            1700057600%Z sample_ledger))
  = (total ← @funding_tracker.get_total_income SampleLib.lib
               (Some "SOL/USDT:USDT"%string) sample_ledger;
     Ok (Dec.add total
           (FundingRecord.income
              (fst (@funding_tracker.record_funding SampleLib.lib "SOL/USDT:USDT"
                      0.0001 100 1700057600%Z sample_ledger))))).
Proof.
  destruct (@record_funding_adds_its_income SampleLib.lib "SOL/USDT:USDT" 0.0001 100
              1700057600%Z sample_ledger) as (_ & _ & Htotal & _).
  { vm_compute. reflexivity. }
  exact Htotal.
Defined.

(** The SOL total of [sample_ledger] is 0.02, and 0.03 after a
    settlement of 100 at the rate 0.0001. *)
Example sample_ledger_totals :
  @funding_tracker.get_total_income SampleLib.lib (Some "SOL/USDT:USDT"%string)
    sample_ledger = Ok (1 # 50)
  /\ @funding_tracker.get_total_income SampleLib.lib (Some "SOL/USDT:USDT"%string)
       (snd (@funding_tracker.record_funding SampleLib.lib "SOL/USDT:USDT" 0.0001 100
               1700057600%Z sample_ledger)) = Ok (3 # 100)
  /\ @funding_tracker.get_total_income SampleLib.lib None sample_ledger = Ok (1 # 25).
Proof. repeat split; vm_compute; reflexivity. Qed.

Example sample_ledger_recent :
  @funding_tracker.get_recent_records SampleLib.lib 2 sample_ledger
  = Ok sample_recent_records.
Proof. vm_compute. reflexivity. Qed.

(** The limit 0 returns all three records, as the limit 3 does. *)
Example sample_ledger_recent_0 :
  @funding_tracker.get_recent_records SampleLib.lib 0 sample_ledger
  = @funding_tracker.get_recent_records SampleLib.lib 3 sample_ledger
  /\ @funding_tracker.get_recent_records SampleLib.lib 0 sample_ledger
     <> @funding_tracker.get_recent_records SampleLib.lib 2 sample_ledger.
Proof. split; [vm_compute; reflexivity|]. vm_compute. discriminate. Qed.

Lemma get_recent_records_limit_witness :
  length sample_recent_records = Nat.min (Z.to_nat 2) (length sample_ledger).
Proof.
  apply (@get_recent_records_limit SampleLib.lib 2 sample_ledger
           sample_recent_records sample_ledger_recent).
  reflexivity.
Defined.

Lemma recorded_settlement_is_most_recent_witness :
  @funding_tracker.get_recent_records SampleLib.lib 1
    (snd (@funding_tracker.record_funding SampleLib.lib "SOL/USDT:USDT" 0.0001 100
            1700057600%Z sample_ledger))
  = Ok [fst (@funding_tracker.record_funding SampleLib.lib "SOL/USDT:USDT" 0.0001 100
               1700057600%Z sample_ledger)].
Proof.
  apply (@recorded_settlement_is_most_recent SampleLib.lib "SOL/USDT:USDT" 0.0001 100
           1700057600%Z sample_ledger); vm_compute; reflexivity.
Defined.

Example sample_ledger_sol :
  @funding_tracker.get_records_by_symbol SampleLib.lib "SOL/USDT:USDT" sample_ledger
  = Ok sample_sol_records.
Proof. vm_compute. reflexivity. Qed.

Lemma total_income_is_sum_of_records_witness :
  @funding_tracker.get_total_income SampleLib.lib (Some "SOL/USDT:USDT"%string)
    sample_ledger
  = Ok (income_sum 0 sample_sol_records).
Proof.
  exact (proj2 (proj2 (@total_income_is_sum_of_records SampleLib.lib "SOL/USDT:USDT"
                         sample_ledger sample_sol_records sample_ledger_sol))).
Defined.

(** ** Risk manager: priorities, grades and the rate windows (risk.py) *)

(** X23.  The margin check comes first: below the close line the result
    is CLOSE with severity 10, between the close line and the danger line
    REDUCE with severity 8, whatever the position and the rate are; in
    both cases the manager is unchanged, so the rate is not added to the
    window.  At or above both lines the check goes on as it does without
    a margin ratio. *)
Theorem check_margin_alarm_comes_first (self : RiskManager.t)
    (position : ArbitragePosition.t) (current_rate : option FundingRate.t)
    (margin_ratio : Decimal) :
  (margin_ratio < RiskManager.margin_close self ->
   RiskManager.check self position current_rate (Some margin_ratio)
   = (Ok (mkResult CLOSE (MarginBelowClose margin_ratio) 10), self))
  /\ (RiskManager.margin_close self <= margin_ratio ->
      margin_ratio < RiskManager.margin_danger self ->
      RiskManager.check self position current_rate (Some margin_ratio)
      = (Ok (mkResult REDUCE (MarginBelowDanger margin_ratio) 8), self))
  /\ (RiskManager.margin_close self <= margin_ratio ->
      RiskManager.margin_danger self <= margin_ratio ->
      RiskManager.check self position current_rate (Some margin_ratio)
      = RiskManager.check self position current_rate None).
Proof.
  unfold RiskManager.check, RiskManager._check_margin_ratio.
  split; [|split].
  - intros Hc. apply ltb_true_lt in Hc. by rewrite Hc.
  - intros Hc Hd. apply ltb_false_iff in Hc. apply ltb_true_lt in Hd.
    by rewrite Hc, Hd.
  - intros Hc Hd. apply ltb_false_iff in Hc, Hd. by rewrite Hc, Hd.
Qed.

Lemma all_below_true (self : RiskManager.t) (rates : list Decimal) :
  RiskManager.all_below self rates = true ->
  Forall (fun r => r < Dec.neg (RiskManager.rate_reversal_threshold self)) rates.
Proof.
  unfold RiskManager.all_below. induction rates as [|r rates IH]; [constructor|].
  simpl. intros [Hr Hrest]%andb_true_iff. constructor; [by apply ltb_true_lt|auto].
Qed.

Lemma all_above_true (self : RiskManager.t) (rates : list Decimal) :
  RiskManager.all_above self rates = true ->
  Forall (fun r => RiskManager.rate_reversal_threshold self < r) rates.
Proof.
  unfold RiskManager.all_above. induction rates as [|r rates IH]; [constructor|].
  simpl. intros [Hr Hrest]%andb_true_iff. constructor; [by apply ltb_true_lt|auto].
Qed.

(** What [_check_rate_reversal] stores and returns. *)
Lemma check_rate_reversal_spec (self : RiskManager.t) (symbol : string)
    (rate : FundingRate.t) :
  let window :=
    RiskManager.push_rate self (default [] (RiskManager._rate_history self !! symbol))
      (FundingRate.rate rate) in
  let r := fst (RiskManager._check_rate_reversal self symbol rate) in
  let self' := snd (RiskManager._check_rate_reversal self symbol rate) in
  self' = RiskManager.with_history self
            (<[symbol := window]> (RiskManager._rate_history self))
  /\ (r = Ok (mkResult HOLD NoReason 0)
      \/ r = Raise IndexError
      \/ exists initial_rate recent_rates last_rate,
           window = initial_rate :: recent_rates
           /\ (RiskManager.rate_reversal_periods self + 1
               <= Z.of_nat (length window))%Z
           /\ last recent_rates = Some last_rate
           /\ r = Ok (mkResult CLOSE (RateReversal initial_rate last_rate) 7)
           /\ ((0 < initial_rate
                /\ Forall (fun x => x < Dec.neg (RiskManager.rate_reversal_threshold self))
                     recent_rates)
               \/ (initial_rate <= 0
                   /\ Forall (fun x => RiskManager.rate_reversal_threshold self < x)
                        recent_rates))).
Proof.
  unfold RiskManager._check_rate_reversal.
  set (window := RiskManager.push_rate self _ _).
  cbn [RiskManager.rate_reversal_periods RiskManager.with_history].
  destruct (Z.ltb_spec (Z.of_nat (length window))
              (RiskManager.rate_reversal_periods self + 1)) as [Hshort|Hfull];
    [by auto|].
  destruct window as [|initial_rate recent_rates] eqn:Hw; [by auto|].
  destruct (Dec.ltb 0 initial_rate) eqn:Hpos.
  - rewrite all_below_with_history.
    destruct (RiskManager.all_below self recent_rates) eqn:Hall; [|by auto].
    unfold RiskManager.reversal_result.
    destruct (last recent_rates) as [last_rate|] eqn:Hlast; [|by auto].
    simpl. split; [done|]. right. right.
    exists initial_rate, recent_rates, last_rate.
    repeat split; try done. left. split; [by apply ltb_true_lt|by apply all_below_true].
  - rewrite all_above_with_history.
    destruct (RiskManager.all_above self recent_rates) eqn:Hall; [|by auto].
    unfold RiskManager.reversal_result.
    destruct (last recent_rates) as [last_rate|] eqn:Hlast; [|by auto].
    simpl. split; [done|]. right. right.
    exists initial_rate, recent_rates, last_rate.
    repeat split; try done. right. split; [by apply ltb_false_iff|by apply all_above_true].
Qed.

(** The shape of [check]: a margin alarm, a delta alarm or an exception
    of the delta leave the manager as it is; otherwise the rate, when
    there is one, has been pushed to the window of the position's
    symbol. *)
Lemma check_cases (self : RiskManager.t) (position : ArbitragePosition.t)
    (current_rate : option FundingRate.t) (margin_ratio : option Decimal) :
  let r := fst (RiskManager.check self position current_rate margin_ratio) in
  let self' := snd (RiskManager.check self position current_rate margin_ratio) in
  (self' = self
   /\ ((exists m, margin_ratio = Some m
                  /\ (r = Ok (mkResult CLOSE (MarginBelowClose m) 10)
                      \/ r = Ok (mkResult REDUCE (MarginBelowDanger m) 8)))
       \/ (exists d, r = Ok (mkResult REBALANCE (DeltaDeviation d) 6))
       \/ (exists e, r = Raise e)
       \/ (current_rate = None /\ r = Ok (mkResult HOLD AllChecksPassed 0))))
  \/ exists rate,
       current_rate = Some rate
       /\ self' = snd (RiskManager._check_rate_reversal self
                         (ArbitragePosition.symbol position) rate)
       /\ (r = fst (RiskManager._check_rate_reversal self
                      (ArbitragePosition.symbol position) rate)
           /\ r <> Ok (mkResult HOLD NoReason 0)
           \/ r = Ok (mkResult HOLD AllChecksPassed 0)
              /\ fst (RiskManager._check_rate_reversal self
                        (ArbitragePosition.symbol position) rate)
                 = Ok (mkResult HOLD NoReason 0)).
Proof.
  unfold RiskManager.check.
  destruct margin_ratio as [m|]; simpl.
  - unfold RiskManager._check_margin_ratio.
    destruct (Dec.ltb m (RiskManager.margin_close self)); simpl; [by eauto 10|].
    destruct (Dec.ltb m (RiskManager.margin_danger self)); simpl; [by eauto 10|].
    unfold RiskManager._check_delta.
    destruct (ArbitragePosition.delta position) as [d|e]; simpl; [|by eauto 10].
    destruct (Dec.ltb _ (Dec.abs d)); simpl; [by eauto 10|].
    destruct current_rate as [rate|]; [|by eauto 10].
    right. exists rate. split; [done|].
    pose proof (check_rate_reversal_spec self (ArbitragePosition.symbol position) rate)
      as [_ Hr]. simpl in Hr.
    destruct (RiskManager._check_rate_reversal self _ rate) as [r self']. simpl in *.
    destruct Hr as [->|[->|(i & rs & l & _ & _ & _ & -> & _)]]; simpl; auto.
  - unfold RiskManager._check_delta.
    destruct (ArbitragePosition.delta position) as [d|e]; simpl; [|by eauto 10].
    destruct (Dec.ltb _ (Dec.abs d)); simpl; [by eauto 10|].
    destruct current_rate as [rate|]; [|by eauto 10].
    right. exists rate. split; [done|].
    pose proof (check_rate_reversal_spec self (ArbitragePosition.symbol position) rate)
      as [_ Hr]. simpl in Hr.
    destruct (RiskManager._check_rate_reversal self _ rate) as [r self']. simpl in *.
    destruct Hr as [->|[->|(i & rs & l & _ & _ & _ & -> & _)]]; simpl; auto.
Qed.

(** X24.  A result of [check] has one of five grades: HOLD with severity
    0, REBALANCE with 6, CLOSE with 7, REDUCE with 8, CLOSE with 10.
    Without a margin ratio it is never REDUCE and never above 7; without
    a rate a CLOSE can only be the margin alarm of severity 10. *)
Theorem check_grades_its_result (self : RiskManager.t)
    (position : ArbitragePosition.t) (current_rate : option FundingRate.t)
    (margin_ratio : option Decimal) (result : RiskCheckResult) :
  fst (RiskManager.check self position current_rate margin_ratio) = Ok result ->
  graded result
  /\ (margin_ratio = None -> action result <> REDUCE /\ (severity result <= 7)%Z)
  /\ (current_rate = None -> action result = CLOSE -> severity result = 10%Z).
Proof.
  intros Hr.
  destruct (check_cases self position current_rate margin_ratio)
    as [[_ Hcase]|(rate & -> & _ & Hcase)]; rewrite Hr in Hcase.
  - destruct Hcase as [(m & -> & [[= ->]|[= ->]])|[(d & [= ->])|[(e & [=])|[-> [= ->]]]]];
      unfold graded; simpl; (split; [tauto|]); split; try done.
  - pose proof (check_rate_reversal_spec self (ArbitragePosition.symbol position) rate)
      as [_ Hrev]. simpl in Hrev.
    destruct Hcase as [[Heq Hne]|[[= ->] _]].
    + rewrite <- Heq in Hrev.
      destruct Hrev as [[= ->]|[[=]|(i & rs & l & _ & _ & _ & [= ->] & _)]]; [done|].
      unfold graded; simpl. split; [tauto|]. split; done.
    + unfold graded; simpl. split; [tauto|]. split; done.
Qed.

(** X25.  [check] returns a CLOSE other than the margin alarm only for a
    reversed window: a rate was passed, the window stored for the symbol
    afterwards is the end of the old window followed by that rate, it
    holds at least watch periods + 1 rates, and either its oldest rate is
    positive and all later ones are below minus the threshold, or its
    oldest rate is not positive and all later ones are above the
    threshold; the reason names the oldest and the newest rate. *)
Theorem check_closes_only_on_a_reversed_window (self : RiskManager.t)
    (position : ArbitragePosition.t) (current_rate : option FundingRate.t)
    (margin_ratio : option Decimal) (result : RiskCheckResult) :
  fst (RiskManager.check self position current_rate margin_ratio) = Ok result ->
  action result = CLOSE ->
  severity result <> 10%Z ->
  let self' := snd (RiskManager.check self position current_rate margin_ratio) in
  exists rate initial_rate recent_rates last_rate,
    current_rate = Some rate
    /\ RiskManager._rate_history self' !! ArbitragePosition.symbol position
       = Some (initial_rate :: recent_rates)
    /\ (initial_rate :: recent_rates) `suffix_of`
         default [] (RiskManager._rate_history self
                       !! ArbitragePosition.symbol position)
         ++ [FundingRate.rate rate]
    /\ (RiskManager.rate_reversal_periods self + 1
        <= Z.of_nat (length (initial_rate :: recent_rates)))%Z
    /\ last recent_rates = Some last_rate
    /\ result = mkResult CLOSE (RateReversal initial_rate last_rate) 7
    /\ ((0 < initial_rate
         /\ Forall (fun x => x < Dec.neg (RiskManager.rate_reversal_threshold self))
              recent_rates)
        \/ (initial_rate <= 0
            /\ Forall (fun x => RiskManager.rate_reversal_threshold self < x)
                 recent_rates)).
Proof.
  intros Hr Hclose Hsev.
  destruct (check_cases self position current_rate margin_ratio)
    as [[_ Hcase]|(rate & -> & Hself & Hcase)]; rewrite Hr in Hcase.
  - destruct Hcase as [(m & -> & [[= ->]|[= ->]])|[(d & [= ->])|[(e & [=])|[-> [= ->]]]]];
      done.
  - pose proof (check_rate_reversal_spec self (ArbitragePosition.symbol position) rate)
      as [Hstore Hrev]. simpl in Hstore, Hrev.
    destruct Hcase as [[Heq Hne]|[[= ->] _]]; [|done].
    rewrite <- Heq in Hrev.
    destruct Hrev as [[= ->]|[[=]|(i & rs & l & Hw & Hlen & Hlast & [= ->] & Hsign)]];
      [done|].
    exists rate, i, rs, l. split; [done|].
    simpl. rewrite Hself, Hstore. simpl. rewrite lookup_insert_eq, Hw.
    split; [done|]. split; [rewrite <- Hw; apply push_rate_window|].
    rewrite Hw in Hlen. done.
Qed.

(** X26.  With a non-negative number of watch periods, [check] keeps
    every stored window at no more than watch periods + 1 rates; it never
    touches the window of a symbol other than the position's, nor the
    thresholds. *)
Theorem check_keeps_the_windows_bounded (self : RiskManager.t)
    (position : ArbitragePosition.t) (current_rate : option FundingRate.t)
    (margin_ratio : option Decimal) :
  (0 <= RiskManager.rate_reversal_periods self)%Z ->
  let bounded (m : RiskManager.t) :=
    forall symbol window,
      RiskManager._rate_history m !! symbol = Some window ->
      (Z.of_nat (length window) <= RiskManager.rate_reversal_periods self + 1)%Z in
  let self' := snd (RiskManager.check self position current_rate margin_ratio) in
  (bounded self -> bounded self')
  /\ (forall symbol,
        symbol <> ArbitragePosition.symbol position ->
        RiskManager._rate_history self' !! symbol
        = RiskManager._rate_history self !! symbol)
  /\ RiskManager.rate_reversal_periods self' = RiskManager.rate_reversal_periods self
  /\ RiskManager.rate_reversal_threshold self'
     = RiskManager.rate_reversal_threshold self.
Proof.
  intros Hp bounded self'. subst bounded self'.
  destruct (check_cases self position current_rate margin_ratio)
    as [[-> _]|(rate & -> & -> & _)]; [done|].
  pose proof (check_rate_reversal_spec self (ArbitragePosition.symbol position) rate)
    as [-> _].
  simpl. split; [|split; [|done]].
  - intros Hb symbol window.
    destruct (decide (symbol = ArbitragePosition.symbol position)) as [->|Hne].
    + rewrite lookup_insert_eq. intros [= <-]. apply push_rate_window.
      destruct (RiskManager._rate_history self !! ArbitragePosition.symbol position)
        as [h|] eqn:E; simpl; [by eapply Hb|lia].
    + rewrite lookup_insert_ne by done. apply Hb.
  - intros symbol Hne. by rewrite lookup_insert_ne.
Qed.

Example scenario_third_check :
  fst (RiskManager.check scenario_after_two sample_position
         (Some (rate_of (-0.0007))) None)
  = Ok (mkResult CLOSE (RateReversal 0.004 (-0.0007)) 7).
Proof. vm_compute. reflexivity. Qed.

Lemma check_grades_its_result_witness :
  graded (mkResult CLOSE (RateReversal 0.004 (-0.0007)) 7).
Proof.
  exact (proj1 (check_grades_its_result scenario_after_two sample_position
                  (Some (rate_of (-0.0007))) None _ scenario_third_check)).
Defined.

Lemma check_closes_only_on_a_reversed_window_witness :
  exists rate initial_rate recent_rates last_rate,
    Some (rate_of (-0.0007)) = Some rate
    /\ RiskManager._rate_history
         (snd (RiskManager.check scenario_after_two sample_position
                 (Some (rate_of (-0.0007))) None))
         !! ArbitragePosition.symbol sample_position
       = Some (initial_rate :: recent_rates)
    /\ (initial_rate :: recent_rates) `suffix_of`
         default [] (RiskManager._rate_history scenario_after_two
                       !! ArbitragePosition.symbol sample_position)
         ++ [FundingRate.rate rate]
    /\ (RiskManager.rate_reversal_periods scenario_after_two + 1
        <= Z.of_nat (length (initial_rate :: recent_rates)))%Z
    /\ last recent_rates = Some last_rate
    /\ mkResult CLOSE (RateReversal 0.004 (-0.0007)) 7
       = mkResult CLOSE (RateReversal initial_rate last_rate) 7
    /\ ((0 < initial_rate
         /\ Forall (fun x => x < Dec.neg (RiskManager.rate_reversal_threshold
                                            scenario_after_two))
              recent_rates)
        \/ (initial_rate <= 0
            /\ Forall (fun x => RiskManager.rate_reversal_threshold scenario_after_two
                                < x)
                 recent_rates)).
Proof.
  apply (check_closes_only_on_a_reversed_window scenario_after_two sample_position
           (Some (rate_of (-0.0007))) None _ scenario_third_check).
  - reflexivity.
  - discriminate.
Defined.

Lemma check_keeps_the_windows_bounded_witness :
  RiskManager._rate_history
    (snd (RiskManager.check scenario_after_two sample_position
            (Some (rate_of (-0.0007))) None))
    !! "ETH/USDT:USDT"%string
  = RiskManager._rate_history scenario_after_two !! "ETH/USDT:USDT"%string.
Proof.
  destruct (check_keeps_the_windows_bounded scenario_after_two sample_position
              (Some (rate_of (-0.0007))) None) as (_ & Hframe & _).
  { vm_compute. discriminate. }
  apply Hframe. discriminate.
Defined.

(** ** Reconciliation: the repair step and the edges (auto_trade.py) *)

Section repair_props.
Context {G : Type} `{ExchangeBase G}.
Variable cfg : Config.

Ltac run_repair :=
  unfold AutoTrader.repair, reported_amt, bind, try_except, call_place_perp_order,
    call_place_spot_order, del_position, store_delete, raise, ret, with_gateway,
    with_positions;
  simpl.

Lemma leb_false_lt (a b : Decimal) : b < a -> Dec.leb a b = false.
Proof.
  intros Hlt. unfold Dec.leb. destruct (Qle_bool a b) eqn:E; [|done].
  apply Qle_bool_iff in E. exfalso. by eapply Qlt_not_le.
Qed.

(** X27.  One turn of the repair loop sends no order in two cases.  A
    position whose exchange perp amount is above 0.001 in absolute value
    and whose total spot balance covers 90% of its spot quantity is left
    as it is and not reported.  A position with neither is reported and
    dropped from the executor's map; the position file is not touched. *)
Theorem repair_without_orders (perp_map : gmap string PerpRow.t)
    (spot_balances : gmap string Balance.t) (acc : list (string * bool * bool))
    (symbol : string) (pos : ArbitragePosition.t) (w : World G) :
  let perp_amt := reported_amt perp_map symbol in
  let spot_total :=
    AutoTrader.balance_total spot_balances (ArbitragePosition.base_currency pos) in
  let needed := Dec.mul (ArbitragePosition.spot_qty pos) 0.9 in
  (0.001 < Dec.abs perp_amt -> needed <= spot_total ->
   AutoTrader.repair perp_map spot_balances acc (symbol, pos) w = (Ok acc, w))
  /\ (Dec.abs perp_amt <= 0.001 -> spot_total < needed ->
      AutoTrader.repair perp_map spot_balances acc (symbol, pos) w
      = (Ok (acc ++ [(symbol, false, false)]),
         mkWorld (gateway w) (requests w) (delete symbol (positions w))
           (position_file w) (clock w) (telegram_sent w))).
Proof.
  run_repair. split.
  - intros Hp Hs. apply ltb_true_lt in Hp. apply Qle_bool_iff in Hs.
    unfold Dec.leb. by rewrite Hp, Hs.
  - intros Hp Hs. apply ltb_false_iff in Hp. apply leb_false_lt in Hs.
    by rewrite Hp, Hs.
Qed.

(** X28.  When exactly one leg is left, one turn of the repair loop
    sends one market order that unwinds it: for a surviving perp leg
    (amount above 0.001 in absolute value, spot balance below 90% of the
    spot quantity) a perp order for the absolute amount, a buy for a
    short and a sell for a long; for a surviving spot leg a spot sell of
    the whole total balance of the base asset.  The position is dropped
    from the executor's map exactly when the gateway accepts the order;
    when the order raises, the position stays tracked. *)
Theorem repair_unwinds_the_surviving_leg (perp_map : gmap string PerpRow.t)
    (spot_balances : gmap string Balance.t) (acc : list (string * bool * bool))
    (symbol : string) (pos : ArbitragePosition.t) (w : World G) :
  let perp_amt := reported_amt perp_map symbol in
  let base := ArbitragePosition.base_currency pos in
  let spot_total := AutoTrader.balance_total spot_balances base in
  let needed := Dec.mul (ArbitragePosition.spot_qty pos) 0.9 in
  let r := fst (AutoTrader.repair perp_map spot_balances acc (symbol, pos) w) in
  let w' := snd (AutoTrader.repair perp_map spot_balances acc (symbol, pos) w) in
  (0.001 < Dec.abs perp_amt -> spot_total < needed ->
   let side := if Dec.ltb perp_amt 0 then BUY else SELL in
   r = Ok (acc ++ [(symbol, true, false)])
   /\ requests w' = requests w ++ [PerpOrder symbol side (Dec.abs perp_amt) MARKET false]
   /\ positions w'
      = match fst (place_perp_order symbol side (Dec.abs perp_amt) MARKET false
                     (gateway w)) with
        | Ok _ => delete symbol (positions w)
        | Raise _ => positions w
        end)
  /\ (Dec.abs perp_amt <= 0.001 -> needed <= spot_total ->
      r = Ok (acc ++ [(symbol, false, true)])
      /\ requests w'
         = requests w ++ [SpotOrder (base +:+ "/USDT")%string SELL spot_total MARKET]
      /\ positions w'
         = match fst (place_spot_order (base +:+ "/USDT")%string SELL spot_total
                        MARKET (gateway w)) with
           | Ok _ => delete symbol (positions w)
           | Raise _ => positions w
           end).
Proof.
  run_repair. split.
  - intros Hp Hs. apply ltb_true_lt in Hp. apply leb_false_lt in Hs.
    rewrite Hp, Hs. simpl.
    destruct (place_perp_order _ _ _ MARKET false (gateway w)) as [[order|e] g]; done.
  - intros Hp Hs. apply ltb_false_iff in Hp. apply Qle_bool_iff in Hs.
    unfold Dec.leb. rewrite Hp, Hs. simpl.
    destruct (place_spot_order _ SELL _ MARKET (gateway w)) as [[order|e] g]; done.
Qed.

Lemma repair_only_forgets (perp_map : gmap string PerpRow.t)
    (spot_balances : gmap string Balance.t) (acc : list (string * bool * bool))
    (item : string * ArbitragePosition.t) (w : World G) :
  exists acc' w',
    AutoTrader.repair perp_map spot_balances acc item w = (Ok acc', w')
    /\ positions w' ⊆ positions w
    /\ position_file w' = position_file w
    /\ clock w' = clock w.
Proof.
  unfold AutoTrader.repair.
  destruct (Dec.ltb 0.001 _); destruct (Dec.leb _ _); simpl;
    unfold bind, try_except, call_place_perp_order, call_place_spot_order,
      del_position, store_delete, raise, ret, with_gateway, with_positions; simpl;
    try (destruct (place_perp_order _ _ _ MARKET false (gateway w)) as [[?|?] ?]);
    try (destruct (place_spot_order _ SELL _ MARKET (gateway w)) as [[?|?] ?]);
    simpl; eexists _, _; (split; [reflexivity|]); simpl;
    repeat split; try done; apply delete_subseteq.
Qed.

Lemma foldM_repair_only_forgets (perp_map : gmap string PerpRow.t)
    (spot_balances : gmap string Balance.t)
    (items : list (string * ArbitragePosition.t))
    (acc : list (string * bool * bool)) (w : World G) :
  exists acc' w',
    foldM (AutoTrader.repair perp_map spot_balances) acc items w = (Ok acc', w')
    /\ positions w' ⊆ positions w
    /\ position_file w' = position_file w
    /\ clock w' = clock w.
Proof.
  revert acc w. induction items as [|item items IH]; intros acc w.
  - exists acc, w. done.
  - cbn [foldM]. unfold bind at 1.
    destruct (repair_only_forgets perp_map spot_balances acc item w)
      as (acc1 & w1 & -> & Hp1 & Hf1 & Hc1).
    destruct (IH acc1 w1) as (acc2 & w2 & -> & Hp2 & Hf2 & Hc2).
    exists acc2, w2. split; [done|]. split; [by etrans|]. split; congruence.
Qed.

(** X29.  [verify_and_fix_positions] never raises and never adds or
    changes a tracked position: the positions afterwards are among the
    positions before.  It leaves the position file as it is, and with
    nothing tracked it returns at once, without a request. *)
Theorem verify_and_fix_positions_only_forgets (w : World G) :
  let r := fst (AutoTrader.verify_and_fix_positions cfg w) in
  let w' := snd (AutoTrader.verify_and_fix_positions cfg w) in
  r = Ok tt
  /\ positions w' ⊆ positions w
  /\ position_file w' = position_file w
  /\ clock w' = clock w
  /\ (positions w = ∅ -> w' = w).
Proof.
  assert (Hrun : exists w2,
             AutoTrader.verify_and_fix_positions cfg w = (Ok tt, w2)
             /\ positions w2 ⊆ positions w
             /\ position_file w2 = position_file w
             /\ clock w2 = clock w
             /\ (positions w = ∅ -> w2 = w)).
  { unfold AutoTrader.verify_and_fix_positions.
    unfold bind at 1. unfold get_positions at 1.
    destruct (map_to_list (positions w)) as [|item items] eqn:Hitems.
    { exists w. done. }
    assert (Hne : positions w = ∅ -> False).
    { intros Hempty. rewrite Hempty, map_to_list_empty in Hitems. discriminate. }
    unfold try_except. unfold bind at 1. unfold call_fetch_positions at 1.
    destruct (perp_fetch_positions (gateway w)) as [[rows|e] g1];
      [|eexists; split; [reflexivity|]; by repeat split].
    unfold bind at 1. unfold call_fetch_balance at 1. cbn [gateway with_gateway].
    destruct (spot_fetch_balance g1) as [[spot_balances|e] g2];
      [|eexists; split; [reflexivity|]; by repeat split].
    unfold bind at 1.
    destruct (foldM_repair_only_forgets
                (AutoTrader.dict_by_symbol (fun _ => true) rows) spot_balances
                (item :: items) []
                (with_gateway (with_gateway w g1 FetchPositions) g2 FetchBalance))
      as (acc' & w2 & -> & Hp & Hf & Hc).
    destruct acc' as [|issue acc']; [|destruct (telegram_enabled cfg)]; simpl;
      eexists; (split; [reflexivity|]); by repeat split. }
  destruct Hrun as (w2 & -> & Hrun). simpl. by split.
Qed.

Lemma dict_by_symbol_none (keep : PerpRow.t -> bool) (rows : list PerpRow.t)
    (m : gmap string PerpRow.t) :
  Forall (fun p => keep p = false) rows ->
  fold_left (fun m p => if keep p then <[PerpRow.symbol p := p]> m else m) rows m = m.
Proof.
  revert m. induction 1 as [|p rows Hp _ IH]; intros; simpl; [done|].
  by rewrite Hp.
Qed.
End repair_props.

Section sync_edge.
Context {G : Type} `{ExchangeBase G} `{PyLib}.
Variable cfg : Config.

(** X30.  [sync_orphan_positions] adopts nothing and returns normally
    when the exchange cannot be read: when fetching the perp positions
    raises, or every reported row has a zero amount, the only thing that
    happened is that one request (no balance is fetched); when fetching
    the balances raises, the positions, the position file and the alerts
    are what they were. *)
Theorem sync_orphan_positions_without_rows (w : World G) :
  let w' := snd (AutoTrader.sync_orphan_positions cfg w) in
  (forall e g1, perp_fetch_positions (gateway w) = (Raise e, g1) ->
     AutoTrader.sync_orphan_positions cfg w
     = (Ok tt, with_gateway w g1 FetchPositions))
  /\ (forall rows g1,
        perp_fetch_positions (gateway w) = (Ok rows, g1) ->
        Forall (fun p => AutoTrader.has_amount p = false) rows ->
        AutoTrader.sync_orphan_positions cfg w
        = (Ok tt, with_gateway w g1 FetchPositions))
  /\ (forall rows e g1 g2,
        perp_fetch_positions (gateway w) = (Ok rows, g1) ->
        spot_fetch_balance g1 = (Raise e, g2) ->
        positions w' = positions w /\ position_file w' = position_file w
        /\ telegram_sent w' = telegram_sent w).
Proof.
  split; [|split].
  - intros e g1 Hpos.
    unfold AutoTrader.sync_orphan_positions, try_except.
    unfold bind at 1. unfold call_fetch_positions at 1. by rewrite Hpos.
  - intros rows g1 Hpos Hrows.
    unfold AutoTrader.sync_orphan_positions, try_except.
    unfold bind at 1. unfold call_fetch_positions at 1. rewrite Hpos.
    unfold AutoTrader.dict_by_symbol.
    rewrite dict_by_symbol_none by done. by rewrite map_to_list_empty.
  - intros rows e g1 g2 Hpos Hbal.
    assert (Hrun : exists w2,
               AutoTrader.sync_orphan_positions cfg w = (Ok tt, w2)
               /\ positions w2 = positions w /\ position_file w2 = position_file w
               /\ telegram_sent w2 = telegram_sent w).
    { unfold AutoTrader.sync_orphan_positions, try_except.
      unfold bind at 1. unfold call_fetch_positions at 1. rewrite Hpos.
      destruct (map_to_list _) as [|item items]; [by eexists|].
      unfold bind at 1. unfold call_fetch_balance at 1.
      cbn [gateway with_gateway]. rewrite Hbal. by eexists. }
    destruct Hrun as (w2 & -> & Hrun). exact Hrun.
Qed.
End sync_edge.

(** A perp amount of exactly 0.001 does not count as a perp leg: the
    tracked position is taken for a spot leg left alone, the whole spot
    balance is sold and the position is dropped, although the exchange
    still reports the perp position. *)
Example scenario_small_perp_amount :
  let w' :=
    snd (paper_verify
           (tracking_world
              (PaperExchange.mk false false 50 []
                 [PerpRow.mk "SOL/USDT:USDT" (-0.001) 50 2]
                 {[ "SOL"%string := Balance.mk 5 5 ]}))) in
  requests w' = [FetchPositions; FetchBalance; SpotOrder "SOL/USDT" SELL 5 MARKET]
  /\ positions w' !! "SOL/USDT:USDT"%string = None.
Proof. split; vm_compute; reflexivity. Qed.

(** End of the development. *)
